(** * On-device biometric identity core of the attendance application

    A shallow embedding of the face utilities ([utils/faceRecognition]),
    of the capture screen's detection loop ([FaceCaptureScreen]), of the
    payload composers ([FaceCheckInModal.handleFaceCaptured],
    [authAPI.loginWithBiometric]) and of the enrolment handlers of
    [BiometricSetupScreen], together with the properties the design
    document states about them; and of the code around them (the
    comparison of ids, the face crop and the native embedding module, the
    camera permission and format, the session kept by [services/api] and
    [AuthContext], reverse geocoding and the biometric prompt), with
    properties of that code.

    Conventions of the embedding.
    - A JavaScript number is an exact rational ([Q]); the rounding error of
      an individual IEEE-754 operation is not modelled, and inputs are
      finite.  The exception is [Math.round(v * 100) / 100], which shows
      the last bit of the product: the features rounded that way are
      computed in doubles ([Num.double]).  The one division whose divisor
      can be zero (the image size in [isFaceCentered]) returns an extended
      number ([xnum]) carrying [NaN] and the infinities.  Signed zeros are
      not distinguished.
    - An optional property ([undefined] when absent) is an [option].
    - [AsyncStorage] is a finite map from keys to strings.
    - Asynchronous handlers are functions of the state and of the outcome of
      every external call they await; the capture screen, whose callbacks
      interleave, is a transition system over its refs, its React state and
      its pending callbacks.
    - A Kotlin [Int] is an integer; the sizes of bitmaps are far from its
      bounds. *)

From Stdlib Require Import ZArith QArith Qround Qabs Lqa String Ascii List Lia Bool.
From stdpp Require Import base option gmap strings.

Local Open Scope string_scope.

(** ** JavaScript numbers *)

Module Num.

Local Open Scope Q_scope.

Definition leb (a b : Q) : bool := Qle_bool a b.
Definition ltb (a b : Q) : bool := negb (Qle_bool b a).
Definition gtb (a b : Q) : bool := ltb b a.
Definition is_zero (a : Q) : bool := Qeq_bool a 0.

(** [Math.abs], [Math.max] and [Math.round] (ties go towards +infinity). *)
Definition abs (a : Q) : Q := if ltb a 0 then - a else a.
Definition max (a b : Q) : Q := if ltb a b then b else a.
Definition round (a : Q) : Z := Qfloor (a + (1 # 2)).

(** IEEE-754 doubles.  [ilog2 a] is the exponent of the leading bit of
    [a > 0], and [roundEven] rounds to the nearest integer, to the even one
    on a tie.  [double q] is the double nearest to [q]: a significand of 53
    bits, or one of fewer bits at the exponent -1074 of the subnormal
    numbers.  Magnitudes of 2^1024 and above, which overflow to an infinity,
    do not arise here. *)
Definition ilog2 (a : Q) : Z :=
  let k := (Z.log2 (Qnum a) - Z.log2 (Zpos (Qden a)))%Z in
  if Qle_bool (2 ^ k) a then k else (k - 1)%Z.

Definition roundEven (a : Q) : Z :=
  let f := Qfloor a in
  let r := a - inject_Z f in
  if ltb r (1 # 2) then f
  else if ltb (1 # 2) r then (f + 1)%Z
  else if Z.even f then f else (f + 1)%Z.

Definition double (q : Q) : Q :=
  if is_zero q then 0
  else
    let a := Qabs q in
    let e := Z.max (ilog2 a - 52) (- 1074) in
    Qred ((if ltb q 0 then - (1) else 1) * (inject_Z (roundEven (a / 2 ^ e)) * 2 ^ e)).

(** The quotient, the sum and the product of two doubles as JavaScript
    computes them.  An operand that is not a double stands for the double
    nearest to it, as a decimal literal does. *)
Definition fdiv (a b : Q) : Q := double (double a / double b).
Definition fadd (a b : Q) : Q := double (double a + double b).
Definition fmul (a b : Q) : Q := double (double a * double b).

(** [Math.round(v * 100) / 100], the two-digit rounding of the classifier
    features, on doubles. *)
Definition round2 (v : Q) : Q := fdiv (inject_Z (round (fmul v 100))) 100.

(** Truthiness of an optional number: [undefined] and [0] are falsy. *)
Definition truthy (a : option Q) : option Q :=
  match a with
  | Some v => if is_zero v then None else Some v
  | None => None
  end.

(** [a || b] on optional numbers, and [a || d] with a numeric default. *)
Definition or_opt (a b : option Q) : option Q :=
  match truthy a with
  | Some v => Some v
  | None => b
  end.

Definition or_num (a : option Q) (d : Q) : Q := default d (truthy a).

(** Extended numbers: the results of a division whose divisor may be zero. *)
Inductive xnum :=
| XNaN
| XInf (negative : bool)
| XFin (q : Q).

Definition div (a b : Q) : xnum :=
  if is_zero b then (if is_zero a then XNaN else XInf (ltb a 0))
  else XFin (a / b).

Definition xscale (x : xnum) (k : Q) : xnum :=
  match x with
  | XNaN => XNaN
  | XInf s => if is_zero k then XNaN else XInf (xorb s (ltb k 0))
  | XFin q => XFin (q * k)
  end.

Definition xabs (x : xnum) : xnum :=
  match x with
  | XNaN => XNaN
  | XInf _ => XInf false
  | XFin q => XFin (abs q)
  end.

(** [x <= k], [x > k] and [x < k] against a finite bound; every comparison
    with [NaN] is false. *)
Definition xleb (x : xnum) (k : Q) : bool :=
  match x with
  | XNaN => false
  | XInf s => s
  | XFin q => leb q k
  end.

Definition xgtb (x : xnum) (k : Q) : bool :=
  match x with
  | XNaN => false
  | XInf s => negb s
  | XFin q => gtb q k
  end.

Definition xltb (x : xnum) (k : Q) : bool :=
  match x with
  | XNaN => false
  | XInf s => s
  | XFin q => ltb q k
  end.

(** Signed 32-bit wrap-around ([ToInt32]) and the shift [acc << 5], whose
    operand is first converted with [ToInt32]. *)
Definition ToInt32 (z : Z) : Z := ((z + 2 ^ 31) mod 2 ^ 32 - 2 ^ 31)%Z.
Definition shl5 (acc : Z) : Z := ToInt32 (ToInt32 acc * 2 ^ 5)%Z.

End Num.

(** ** Rendering numbers as text *)

Module Text.

Local Open Scope Z_scope.

Definition digit_char (d : Z) : ascii :=
  if d <? 10 then ascii_of_nat (48 + Z.to_nat d) else ascii_of_nat (87 + Z.to_nat d).

Fixpoint digits_aux (fuel : nat) (base n : Z) (acc : string) : string :=
  match fuel with
  | O => acc
  | S k =>
      let acc' := String (digit_char (n mod base)) acc in
      if n / base =? 0 then acc' else digits_aux k base (n / base) acc'
  end.

(** [n.toString(base)] for a non-negative integer [n]. *)
Definition to_radix (base n : Z) : string :=
  digits_aux (S (Z.to_nat (Z.log2 n))) base n "".

(** The last [d] decimal digits of [m], zero padded. *)
Fixpoint pad (d : nat) (m : Z) : string :=
  match d with
  | O => ""
  | S k => pad k (m / 10) +:+ String (digit_char (m mod 10)) ""
  end.

(** The text of [x.toFixed(d)] for [d > 0], from the sign of [x] and the
    rounded magnitude [n] counted in units of 10^-d. *)
Definition fixedText (d : nat) (neg : bool) (n : Z) : string :=
  (if neg then "-" else "") +:+ to_radix 10 (n / 10 ^ Z.of_nat d)
  +:+ "." +:+ pad d (n mod 10 ^ Z.of_nat d).

(** [q.toFixed(d)]: the sign is taken first, then the magnitude is rounded
    to the nearest multiple of 10^-d, the larger one on a tie.  (Magnitudes
    of 10^21 and above, which JavaScript prints in exponent notation, do
    not arise here and are printed in fixed notation.) *)
Definition toFixed (d : nat) (q : Q) : string :=
  fixedText d (Num.ltb q 0)
    (Qfloor (Num.abs q * inject_Z (10 ^ Z.of_nat d) + (1 # 2))).

(** [parts.join(sep)]. *)
Fixpoint join (sep : string) (parts : list string) : string :=
  match parts with
  | [] => ""
  | [p] => p
  | p :: rest => p +:+ sep +:+ join sep rest
  end.

Definition charCode (c : ascii) : Z := Z.of_N (N_of_ascii c).

End Text.

(** ** Face observations ([FaceData]) *)

Record Point := { pt_x : Q; pt_y : Q }.

Record Dim := { dim_width : Q; dim_height : Q }.

(** A [frame] or [bounds] object.  The detector formats differ: [frame]
    carries [left/top/width/height], [bounds] may carry [origin] and [size]
    instead; the code reads either shape from either object. *)
Record Box := {
  box_left : option Q;
  box_top : option Q;
  box_width : option Q;
  box_height : option Q;
  box_origin : option Point;
  box_size : option Dim
}.

(** A landmark is [{x, y}] or [{position: {x, y}}]. *)
Record Landmark := {
  lm_x : option Q;
  lm_y : option Q;
  lm_position : option Point
}.

Record Landmarks := {
  leftEye : option Landmark;
  rightEye : option Landmark;
  noseBase : option Landmark;
  mouthLeft : option Landmark;
  mouthRight : option Landmark;
  mouthBottom : option Landmark;
  leftEar : option Landmark;
  rightEar : option Landmark;
  leftCheek : option Landmark;
  rightCheek : option Landmark
}.

Record FaceData := {
  frame : option Box;
  bounds : option Box;
  landmarks : option Landmarks;
  smilingProbability : option Q;
  leftEyeOpenProbability : option Q;
  rightEyeOpenProbability : option Q;
  headEulerAngleX : option Q;
  headEulerAngleY : option Q;
  headEulerAngleZ : option Q;
  rotationX : option Q;
  rotationY : option Q;
  rotationZ : option Q
}.

(** [o !== undefined], and the truthiness of an optional object. *)
Definition defined {A : Type} (o : option A) : bool :=
  match o with
  | Some _ => true
  | None => false
  end.

Definition emptyBox : Box :=
  {| box_left := None; box_top := None; box_width := None; box_height := None;
     box_origin := None; box_size := None |}.

Definition noLandmarks : Landmarks :=
  {| leftEye := None; rightEye := None; noseBase := None; mouthLeft := None;
     mouthRight := None; mouthBottom := None; leftEar := None; rightEar := None;
     leftCheek := None; rightCheek := None |}.

(** ** [utils/faceRecognition] *)

Module FaceRecognition.

Import Num Text.
Local Open Scope Q_scope.

(** *** [isFaceCentered] *)

Record CenterCheck := {
  centered : bool;
  offsetX : xnum;
  offsetY : xnum;
  message : option string
}.

Definition msgMoveLeft : string := "حرك وجهك إلى اليسار".
Definition msgMoveRight : string := "حرك وجهك إلى اليمين".
Definition msgMoveDown : string := "حرك وجهك إلى الأسفل".
Definition msgMoveUp : string := "حرك وجهك إلى الأعلى".

Definition threshold : Q := 25.

(** [face.frame || face.bounds || {}]: an object is always truthy. *)
Definition frameOrBounds (face : FaceData) : Box :=
  match frame face with
  | Some b => b
  | None => default emptyBox (bounds face)
  end.

Definition faceCenterX (face : FaceData) : Q :=
  let fr := frameOrBounds face in
  or_num (box_left fr) 0 + or_num (box_width fr) 0 / 2.

Definition faceCenterY (face : FaceData) : Q :=
  let fr := frameOrBounds face in
  or_num (box_top fr) 0 + or_num (box_height fr) 0 / 2.

Definition guidance (offX offY : xnum) (isCenteredX isCenteredY : bool) : option string :=
  if negb isCenteredX || negb isCenteredY then
    if xgtb offX threshold then Some msgMoveLeft
    else if xltb offX (- threshold) then Some msgMoveRight
    else if xgtb offY threshold then Some msgMoveDown
    else if xltb offY (- threshold) then Some msgMoveUp
    else None
  else None.

Definition isFaceCentered (face : FaceData) (imageWidth imageHeight : Q) : CenterCheck :=
  let imageCenterX := imageWidth / 2 in
  let imageCenterY := imageHeight / 2 in
  let offX := xscale (div (faceCenterX face - imageCenterX) imageWidth) 100 in
  let offY := xscale (div (faceCenterY face - imageCenterY) imageHeight) 100 in
  let isCenteredX := xleb (xabs offX) threshold in
  let isCenteredY := xleb (xabs offY) threshold in
  {| centered := isCenteredX && isCenteredY;
     offsetX := offX;
     offsetY := offY;
     message := guidance offX offY isCenteredX isCenteredY |}.

(** *** [validateFaceQuality] *)

Record QualityCheck := { valid : bool; reason : option string }.

Definition reasonNoFace : string := "No face detected".
Definition reasonLook : string := "Please look at the camera".
Definition reasonEyes : string := "Please open your eyes".
Definition reasonCloser : string := "اقترب قليلاً - املأ الدائرة بوجهك".
Definition reasonFrontal : string := "انظر مباشرة إلى الكاميرا".

Definition reject (r : string) : QualityCheck := {| valid := false; reason := Some r |}.
Definition accept : QualityCheck := {| valid := true; reason := None |}.

(** [frame.width || frame.size?.width || 0]. *)
Definition qualityWidth (fr : Box) : Q :=
  or_num (or_opt (box_width fr) (dim_width <$> box_size fr)) 0.

Definition qualityHeight (fr : Box) : Q :=
  or_num (or_opt (box_height fr) (dim_height <$> box_size fr)) 0.

Definition headTurned (fd : FaceData) : bool :=
  match headEulerAngleY fd with
  | Some a => gtb (abs a) 30
  | None => false
  end.

Definition eyesClosed (fd : FaceData) : bool :=
  match leftEyeOpenProbability fd, rightEyeOpenProbability fd with
  | Some l, Some r => ltb ((l + r) / 2) (1 # 2)
  | _, _ => false
  end.

Definition validateFaceQuality (faceData : option FaceData) : QualityCheck :=
  match faceData with
  | None => reject reasonNoFace
  | Some fd =>
      if negb (defined (frame fd)) && negb (defined (bounds fd))
      then reject reasonNoFace
      else if headTurned fd then reject reasonLook
      else if eyesClosed fd then reject reasonEyes
      else
        let fr := frameOrBounds fd in
        let faceWidth := qualityWidth fr in
        let faceHeight := qualityHeight fr in
        if ltb faceWidth 150 then reject reasonCloser
        else
          let aspectRatio := faceWidth / max faceHeight 1 in
          if ltb aspectRatio (7 # 10) || gtb aspectRatio (14 # 10)
          then reject reasonFrontal
          else accept
  end.

(** *** [generateFaceIdFromLandmarks] *)

(** A feature pushed on the [features] array.  Every feature is a rational
    function of the observation except the eye distance, which is
    [Math.sqrt(s) / w]; it is kept symbolic, and its four-decimal rendering
    is computed exactly with an integer square root. *)
Inductive feature :=
| Rat (q : Q)
| SqrtOver (s w : Q).

(** The sign and the rounded magnitude, in units of 10^-4, that
    [f.toFixed(4)] prints. *)
Definition fixed4 (f : feature) : bool * Z :=
  match f with
  | Rat q => (ltb q 0, Qfloor (abs q * inject_Z (10 ^ 4) + (1 # 2)))
  | SqrtOver s w =>
      (ltb w 0 && ltb 0 s,
       ((Z.sqrt (Qfloor (400000000 * s / (w * w))) + 1) / 2)%Z)
  end.

Definition toFixed4 (f : feature) : string :=
  let '(neg, n) := fixed4 f in fixedText 4 neg n.

(** The reducer [(acc, char) => ((acc << 5) - acc) + char.charCodeAt(0)]
    and the fold over [featureString.split('')]. *)
Definition hashStep (acc : Z) (c : ascii) : Z := (shl5 acc - acc + charCode c)%Z.

Definition hashString (s : string) : Z :=
  fold_left hashStep (list_ascii_of_string s) 0%Z.

(** [Math.abs(hash).toString(16)]. *)
Definition hashToId (hash : Z) : string := to_radix 16 (Z.abs hash).

Definition getLandmarkPos (landmark : option Landmark) : option Point :=
  match landmark with
  | None => None
  | Some l =>
      match lm_x l, lm_y l with
      | Some vx, Some vy => Some {| pt_x := vx; pt_y := vy |}
      | _, _ => lm_position l
      end
  end.

(** The frame the landmarks are normalised by: [faceData.frame || {}],
    replaced by a frame rebuilt from [bounds] when it has no width. *)
Definition landmarkFrame (faceData : FaceData) : Box :=
  let fr := default emptyBox (frame faceData) in
  match truthy (box_width fr), bounds faceData with
  | None, Some b =>
      {| box_left := Some (or_num (or_opt (pt_x <$> box_origin b) (box_left b)) 0);
         box_top := Some (or_num (or_opt (pt_y <$> box_origin b) (box_top b)) 0);
         box_width := Some (or_num (or_opt (dim_width <$> box_size b) (box_width b)) 1);
         box_height := Some (or_num (or_opt (dim_height <$> box_size b) (box_height b)) 1);
         box_origin := None;
         box_size := None |}
  | _, _ => fr
  end.

Definition relativePos (p : option Point) (cx cy w h : Q) : list feature :=
  match p with
  | Some pos => [Rat ((pt_x pos - cx) / w); Rat ((pt_y pos - cy) / h)]
  | None => []
  end.

Definition eyeDistance (l r : option Point) (w : Q) : list feature :=
  match l, r with
  | Some lp, Some rp =>
      [SqrtOver ((pt_x rp - pt_x lp) ^ 2 + (pt_y rp - pt_y lp) ^ 2) w]
  | _, _ => []
  end.

(** [a ?? b]. *)
Definition nullish (a b : option Q) : option Q :=
  match a with
  | Some v => Some v
  | None => b
  end.

Definition rotationFeature (rot : option Q) : list feature :=
  match rot with
  | Some r => [Rat (round2 (fdiv (fadd r 90) 180))]
  | None => []
  end.

(** The features pushed when no landmark produced any. *)
Definition frameFallback (faceData : FaceData) (fr : Box) (w h : Q) : list feature :=
  [Rat (round2 (fdiv (or_num (box_left fr) 0) (max w 1)));
   Rat (round2 (fdiv (or_num (box_top fr) 0) (max h 1)));
   Rat (round2 (fdiv w (max h 1)))]
  ++ rotationFeature (nullish (headEulerAngleX faceData) (rotationX faceData))
  ++ rotationFeature (nullish (headEulerAngleY faceData) (rotationY faceData))
  ++ rotationFeature (nullish (headEulerAngleZ faceData) (rotationZ faceData)).

Definition landmarkFeatures (faceData : FaceData) (cx cy w h : Q) : list feature :=
  let lms := default noLandmarks (landmarks faceData) in
  let leftEyePos := getLandmarkPos (leftEye lms) in
  let rightEyePos := getLandmarkPos (rightEye lms) in
  relativePos leftEyePos cx cy w h
  ++ relativePos rightEyePos cx cy w h
  ++ relativePos (getLandmarkPos (noseBase lms)) cx cy w h
  ++ relativePos (getLandmarkPos (mouthLeft lms)) cx cy w h
  ++ relativePos (getLandmarkPos (mouthRight lms)) cx cy w h
  ++ eyeDistance leftEyePos rightEyePos w.

Definition classifierFeatures (faceData : FaceData) (w h : Q) : list feature :=
  match smilingProbability faceData with
  | Some p => [Rat (round2 p)]
  | None => []
  end
  ++ [Rat (round2 (fdiv w (or_num (Some h) 1)))]
  ++ rotationFeature (headEulerAngleY faceData).

Definition faceFeatures (faceData : FaceData) : list feature :=
  let fr := landmarkFrame faceData in
  let faceWidth := or_num (box_width fr) 1 in
  let faceHeight := or_num (box_height fr) 1 in
  let cx := or_num (box_left fr) 0 + faceWidth / 2 in
  let cy := or_num (box_top fr) 0 + faceHeight / 2 in
  let fromLandmarks := landmarkFeatures faceData cx cy faceWidth faceHeight in
  (match fromLandmarks with
   | [] => frameFallback faceData fr faceWidth faceHeight
   | _ => fromLandmarks
   end)
  ++ classifierFeatures faceData faceWidth faceHeight.

Definition featureString (features : list feature) : string :=
  join "," (map toFixed4 features).

(** The [try] body; its [catch] is not reached on a typed observation. *)
Definition generateFaceIdFromLandmarks (faceData : FaceData) : string :=
  hashToId (hashString (featureString (faceFeatures faceData))).

(** *** [generateFaceIdFallback] and [generateFaceId] *)

(** [s.substring(from, to)] for [0 <= from]. *)
Definition substring (from to : nat) (s : string) : string :=
  String.substring from (to - from) s.

(** The fallback on a string argument: three samples of at most 100
    characters are hashed. *)
Definition generateFaceIdFallback (imageData : string) : string :=
  let n := String.length imageData in
  let sample1 := substring 0 100 imageData in
  let sample2 := substring (n / 2) (n / 2 + 100) imageData in
  let sample3 := substring (n - 100) n imageData in
  hashToId (hashString (sample1 +:+ sample2 +:+ sample3)).

Section GenerateFaceId.

(** [JSON.stringify] of the observation, used by the last resort only. *)
Variable stringify : option FaceData -> string.

Definition hasGeometry (fd : FaceData) : bool :=
  defined (landmarks fd) || defined (frame fd) || defined (bounds fd).

Definition generateFaceId (faceData : option FaceData) (base64Image : option string) : string :=
  match faceData with
  | Some fd =>
      if hasGeometry fd then generateFaceIdFromLandmarks fd
      else
        match base64Image with
        | Some img => if negb (String.length img =? 0)%nat then generateFaceIdFallback img
                      else generateFaceIdFallback (stringify faceData)
        | None => generateFaceIdFallback (stringify faceData)
        end
  | None =>
      match base64Image with
      | Some img => if negb (String.length img =? 0)%nat then generateFaceIdFallback img
                    else generateFaceIdFallback (stringify faceData)
      | None => generateFaceIdFallback (stringify faceData)
      end
  end.

End GenerateFaceId.

End FaceRecognition.

(** ** The capture screen ([FaceCaptureScreen]) *)

(** The screen is a transition system.  Its state holds the React state
    the detection loop reads, the refs, the pending timers and the
    asynchronous calls suspended at an await; an event is a navigation
    event, a timer firing or the completion of an awaited call.  A camera
    device is taken to be available, the screen stays mounted, and the
    guidance text is left out. *)

Module FaceCapture.

Import Num FaceRecognition.

(** The React state a callback closed over when it was created.  A callback
    keeps reading these values, whatever the state becomes later. *)
Record Env := {
  env_isCapturing : bool;
  env_isScreenFocused : bool;
  env_hasPermission : bool
}.

(** Callbacks handed to [setTimeout] and [setInterval]. *)
Inductive Callback :=
| StartTimer (env : Env)
| DetectionInterval (env : Env)
| CaptureTimer (env : Env) (face0 : FaceData).

(** A [detectFaces] call suspended at one of its two awaits. *)
Inductive Detection :=
| AwaitPhoto (env : Env)
| AwaitFaces (env : Env) (photoWidth photoHeight : Q).

(** The value of [lastDetectionPhotoRef]. *)
Record Photo := { photo_face : FaceData; photo_width : Q; photo_height : Q }.

(** A capture suspended at an await: [captureFaceFeaturesFromPhoto], or the
    older [captureFaceFeatures] that takes a new photo. *)
Inductive CaptureJob :=
| FromPhoto (p : Photo)
| FromCamera (face0 : FaceData).

Record Screen := mkScreen {
  (* React state *)
  hasPermission : bool;
  isCapturing : bool;
  isScreenFocused : bool;
  capturedImageUri : bool;
  faceCentered : bool;
  (* refs *)
  centeredCountRef : nat;
  captureTimerRef : option nat;
  hasCapturedRef : bool;
  detectionIntervalRef : option nat;
  pendingDetectionRef : bool;
  lastDetectionPhotoRef : option Photo;
  (* the detection effect: the dependencies it last ran with and the
     [startTimer] its cleanup closure holds *)
  committedDeps : bool * bool * bool;
  effectStartTimer : option nat;
  (* the event loop: pending timers and suspended asynchronous calls *)
  timers : list (nat * Callback);
  nextTimer : nat;
  detection : option Detection;
  waiting : option (Env * FaceData * nat);
  capturing : option CaptureJob;
  (* what the screen did: entries into the capture callback that set the
     capture flag, and capture results produced *)
  captureStarts : nat;
  captureEvents : nat
}.

Definition set_hasPermission v (s : Screen) : Screen :=
  mkScreen v (isCapturing s) (isScreenFocused s) (capturedImageUri s)
    (faceCentered s) (centeredCountRef s) (captureTimerRef s)
    (hasCapturedRef s) (detectionIntervalRef s) (pendingDetectionRef s)
    (lastDetectionPhotoRef s) (committedDeps s) (effectStartTimer s)
    (timers s) (nextTimer s) (detection s) (waiting s) (capturing s)
    (captureStarts s) (captureEvents s).

Definition set_isCapturing v (s : Screen) : Screen :=
  mkScreen (hasPermission s) v (isScreenFocused s) (capturedImageUri s)
    (faceCentered s) (centeredCountRef s) (captureTimerRef s)
    (hasCapturedRef s) (detectionIntervalRef s) (pendingDetectionRef s)
    (lastDetectionPhotoRef s) (committedDeps s) (effectStartTimer s)
    (timers s) (nextTimer s) (detection s) (waiting s) (capturing s)
    (captureStarts s) (captureEvents s).

Definition set_isScreenFocused v (s : Screen) : Screen :=
  mkScreen (hasPermission s) (isCapturing s) v (capturedImageUri s)
    (faceCentered s) (centeredCountRef s) (captureTimerRef s)
    (hasCapturedRef s) (detectionIntervalRef s) (pendingDetectionRef s)
    (lastDetectionPhotoRef s) (committedDeps s) (effectStartTimer s)
    (timers s) (nextTimer s) (detection s) (waiting s) (capturing s)
    (captureStarts s) (captureEvents s).

Definition set_capturedImageUri v (s : Screen) : Screen :=
  mkScreen (hasPermission s) (isCapturing s) (isScreenFocused s) v
    (faceCentered s) (centeredCountRef s) (captureTimerRef s)
    (hasCapturedRef s) (detectionIntervalRef s) (pendingDetectionRef s)
    (lastDetectionPhotoRef s) (committedDeps s) (effectStartTimer s)
    (timers s) (nextTimer s) (detection s) (waiting s) (capturing s)
    (captureStarts s) (captureEvents s).

Definition set_faceCentered v (s : Screen) : Screen :=
  mkScreen (hasPermission s) (isCapturing s) (isScreenFocused s)
    (capturedImageUri s) v (centeredCountRef s) (captureTimerRef s)
    (hasCapturedRef s) (detectionIntervalRef s) (pendingDetectionRef s)
    (lastDetectionPhotoRef s) (committedDeps s) (effectStartTimer s)
    (timers s) (nextTimer s) (detection s) (waiting s) (capturing s)
    (captureStarts s) (captureEvents s).

Definition set_centeredCountRef v (s : Screen) : Screen :=
  mkScreen (hasPermission s) (isCapturing s) (isScreenFocused s)
    (capturedImageUri s) (faceCentered s) v (captureTimerRef s)
    (hasCapturedRef s) (detectionIntervalRef s) (pendingDetectionRef s)
    (lastDetectionPhotoRef s) (committedDeps s) (effectStartTimer s)
    (timers s) (nextTimer s) (detection s) (waiting s) (capturing s)
    (captureStarts s) (captureEvents s).

Definition set_captureTimerRef v (s : Screen) : Screen :=
  mkScreen (hasPermission s) (isCapturing s) (isScreenFocused s)
    (capturedImageUri s) (faceCentered s) (centeredCountRef s) v
    (hasCapturedRef s) (detectionIntervalRef s) (pendingDetectionRef s)
    (lastDetectionPhotoRef s) (committedDeps s) (effectStartTimer s)
    (timers s) (nextTimer s) (detection s) (waiting s) (capturing s)
    (captureStarts s) (captureEvents s).

Definition set_hasCapturedRef v (s : Screen) : Screen :=
  mkScreen (hasPermission s) (isCapturing s) (isScreenFocused s)
    (capturedImageUri s) (faceCentered s) (centeredCountRef s)
    (captureTimerRef s) v (detectionIntervalRef s) (pendingDetectionRef s)
    (lastDetectionPhotoRef s) (committedDeps s) (effectStartTimer s)
    (timers s) (nextTimer s) (detection s) (waiting s) (capturing s)
    (captureStarts s) (captureEvents s).

Definition set_detectionIntervalRef v (s : Screen) : Screen :=
  mkScreen (hasPermission s) (isCapturing s) (isScreenFocused s)
    (capturedImageUri s) (faceCentered s) (centeredCountRef s)
    (captureTimerRef s) (hasCapturedRef s) v (pendingDetectionRef s)
    (lastDetectionPhotoRef s) (committedDeps s) (effectStartTimer s)
    (timers s) (nextTimer s) (detection s) (waiting s) (capturing s)
    (captureStarts s) (captureEvents s).

Definition set_pendingDetectionRef v (s : Screen) : Screen :=
  mkScreen (hasPermission s) (isCapturing s) (isScreenFocused s)
    (capturedImageUri s) (faceCentered s) (centeredCountRef s)
    (captureTimerRef s) (hasCapturedRef s) (detectionIntervalRef s) v
    (lastDetectionPhotoRef s) (committedDeps s) (effectStartTimer s)
    (timers s) (nextTimer s) (detection s) (waiting s) (capturing s)
    (captureStarts s) (captureEvents s).

Definition set_lastDetectionPhotoRef v (s : Screen) : Screen :=
  mkScreen (hasPermission s) (isCapturing s) (isScreenFocused s)
    (capturedImageUri s) (faceCentered s) (centeredCountRef s)
    (captureTimerRef s) (hasCapturedRef s) (detectionIntervalRef s)
    (pendingDetectionRef s) v (committedDeps s) (effectStartTimer s)
    (timers s) (nextTimer s) (detection s) (waiting s) (capturing s)
    (captureStarts s) (captureEvents s).

Definition set_committedDeps v (s : Screen) : Screen :=
  mkScreen (hasPermission s) (isCapturing s) (isScreenFocused s)
    (capturedImageUri s) (faceCentered s) (centeredCountRef s)
    (captureTimerRef s) (hasCapturedRef s) (detectionIntervalRef s)
    (pendingDetectionRef s) (lastDetectionPhotoRef s) v (effectStartTimer s)
    (timers s) (nextTimer s) (detection s) (waiting s) (capturing s)
    (captureStarts s) (captureEvents s).

Definition set_effectStartTimer v (s : Screen) : Screen :=
  mkScreen (hasPermission s) (isCapturing s) (isScreenFocused s)
    (capturedImageUri s) (faceCentered s) (centeredCountRef s)
    (captureTimerRef s) (hasCapturedRef s) (detectionIntervalRef s)
    (pendingDetectionRef s) (lastDetectionPhotoRef s) (committedDeps s) v
    (timers s) (nextTimer s) (detection s) (waiting s) (capturing s)
    (captureStarts s) (captureEvents s).

Definition set_timers v (s : Screen) : Screen :=
  mkScreen (hasPermission s) (isCapturing s) (isScreenFocused s)
    (capturedImageUri s) (faceCentered s) (centeredCountRef s)
    (captureTimerRef s) (hasCapturedRef s) (detectionIntervalRef s)
    (pendingDetectionRef s) (lastDetectionPhotoRef s) (committedDeps s)
    (effectStartTimer s) v (nextTimer s) (detection s) (waiting s)
    (capturing s) (captureStarts s) (captureEvents s).

Definition set_nextTimer v (s : Screen) : Screen :=
  mkScreen (hasPermission s) (isCapturing s) (isScreenFocused s)
    (capturedImageUri s) (faceCentered s) (centeredCountRef s)
    (captureTimerRef s) (hasCapturedRef s) (detectionIntervalRef s)
    (pendingDetectionRef s) (lastDetectionPhotoRef s) (committedDeps s)
    (effectStartTimer s) (timers s) v (detection s) (waiting s) (capturing s)
    (captureStarts s) (captureEvents s).

Definition set_detection v (s : Screen) : Screen :=
  mkScreen (hasPermission s) (isCapturing s) (isScreenFocused s)
    (capturedImageUri s) (faceCentered s) (centeredCountRef s)
    (captureTimerRef s) (hasCapturedRef s) (detectionIntervalRef s)
    (pendingDetectionRef s) (lastDetectionPhotoRef s) (committedDeps s)
    (effectStartTimer s) (timers s) (nextTimer s) v (waiting s) (capturing s)
    (captureStarts s) (captureEvents s).

Definition set_waiting v (s : Screen) : Screen :=
  mkScreen (hasPermission s) (isCapturing s) (isScreenFocused s)
    (capturedImageUri s) (faceCentered s) (centeredCountRef s)
    (captureTimerRef s) (hasCapturedRef s) (detectionIntervalRef s)
    (pendingDetectionRef s) (lastDetectionPhotoRef s) (committedDeps s)
    (effectStartTimer s) (timers s) (nextTimer s) (detection s) v
    (capturing s) (captureStarts s) (captureEvents s).

Definition set_capturing v (s : Screen) : Screen :=
  mkScreen (hasPermission s) (isCapturing s) (isScreenFocused s)
    (capturedImageUri s) (faceCentered s) (centeredCountRef s)
    (captureTimerRef s) (hasCapturedRef s) (detectionIntervalRef s)
    (pendingDetectionRef s) (lastDetectionPhotoRef s) (committedDeps s)
    (effectStartTimer s) (timers s) (nextTimer s) (detection s) (waiting s) v
    (captureStarts s) (captureEvents s).

Definition set_captureStarts v (s : Screen) : Screen :=
  mkScreen (hasPermission s) (isCapturing s) (isScreenFocused s)
    (capturedImageUri s) (faceCentered s) (centeredCountRef s)
    (captureTimerRef s) (hasCapturedRef s) (detectionIntervalRef s)
    (pendingDetectionRef s) (lastDetectionPhotoRef s) (committedDeps s)
    (effectStartTimer s) (timers s) (nextTimer s) (detection s) (waiting s)
    (capturing s) v (captureEvents s).

Definition set_captureEvents v (s : Screen) : Screen :=
  mkScreen (hasPermission s) (isCapturing s) (isScreenFocused s)
    (capturedImageUri s) (faceCentered s) (centeredCountRef s)
    (captureTimerRef s) (hasCapturedRef s) (detectionIntervalRef s)
    (pendingDetectionRef s) (lastDetectionPhotoRef s) (committedDeps s)
    (effectStartTimer s) (timers s) (nextTimer s) (detection s) (waiting s)
    (capturing s) (captureStarts s) v.

(** Handlers are state transformers, sequenced left to right. *)
Definition andThen (f g : Screen -> Screen) : Screen -> Screen := fun s => g (f s).
Infix ">>>" := andThen (at level 61, left associativity).

(** *** Timers *)

Definition setTimer (cb : Callback) (ref : option nat -> Screen -> Screen) : Screen -> Screen :=
  fun s =>
    let id := nextTimer s in
    ref (Some id) (set_nextTimer (S id) (set_timers (timers s ++ [(id, cb)]) s)).

Definition dropTimer (id : nat) (ts : list (nat * Callback)) : list (nat * Callback) :=
  filter (fun t => fst t ≠ id) ts.

(** [clearTimeout(id)] and [clearInterval(id)]. *)
Definition clearTimer (id : option nat) : Screen -> Screen :=
  fun s =>
    match id with
    | Some i => set_timers (dropTimer i (timers s)) s
    | None => s
    end.

(** [if (captureTimerRef.current) { clearTimeout(...); captureTimerRef.current = null }]. *)
Definition clearCaptureTimer : Screen -> Screen :=
  fun s => set_captureTimerRef None (clearTimer (captureTimerRef s) s).

Definition clearDetectionInterval : Screen -> Screen :=
  fun s => set_detectionIntervalRef None (clearTimer (detectionIntervalRef s) s).

(** *** Rendering and the detection effect *)

(** [cameraRef.current]: the camera element is rendered when permission is
    held and no captured image is displayed (a camera device is assumed). *)
Definition cameraRef (s : Screen) : bool := hasPermission s && negb (capturedImageUri s).

Definition currentEnv (s : Screen) : Env :=
  {| env_isCapturing := isCapturing s;
     env_isScreenFocused := isScreenFocused s;
     env_hasPermission := hasPermission s |}.

Definition deps (s : Screen) : bool * bool * bool :=
  (hasPermission s, isCapturing s, isScreenFocused s).

(** The cleanup the effect returned, if its body got that far. *)
Definition cleanupEffect : Screen -> Screen :=
  fun s =>
    match effectStartTimer s with
    | Some startTimer =>
        (clearTimer (Some startTimer) >>> clearDetectionInterval >>> clearCaptureTimer
         >>> set_effectStartTimer None) s
    | None => s
    end.

(** The effect body: it declines to start when a dependency forbids it or a
    capture was already attempted, and otherwise arms [startTimer]. *)
Definition runEffect : Screen -> Screen :=
  fun s =>
    if negb (hasPermission s) || isCapturing s || negb (isScreenFocused s) then s
    else if hasCapturedRef s then s
    else setTimer (StartTimer (currentEnv s)) set_effectStartTimer s.

(** React commits the state set by a handler when the handler yields: if a
    dependency changed, the previous effect is cleaned up and the effect
    runs again. *)
Definition commit : Screen -> Screen :=
  fun s =>
    if bool_decide (deps s = committedDeps s) then s
    else (cleanupEffect >>> runEffect) (set_committedDeps (deps s) s).

(** *** [detectFaces] *)

(** The [finally] block.  The effect-local flag [isDetecting] is set and
    cleared together with [pendingDetectionRef] and is read next to it, so
    the ref alone decides the entry guard. *)
Definition finishDetection : Screen -> Screen :=
  set_pendingDetectionRef false >>> set_detection None.

Definition detectFaces (env : Env) : Screen -> Screen :=
  fun s =>
    if negb (cameraRef s) || env_isCapturing env || hasCapturedRef s
       || negb (env_isScreenFocused env) || pendingDetectionRef s
    then s
    else if hasCapturedRef s || env_isCapturing env then s
    else (set_pendingDetectionRef true >>> set_detection (Some (AwaitPhoto env))) s.

(** After [takePhoto] resolved. *)
Definition photoTaken (env : Env) (photoWidth photoHeight : Q) : Screen -> Screen :=
  fun s =>
    if hasCapturedRef s || env_isCapturing env then finishDetection s
    else set_detection (Some (AwaitFaces env photoWidth photoHeight)) s.

(** The [catch] block, then [finally]. *)
Definition detectionError (cameraClosed : bool) : Screen -> Screen :=
  if cameraClosed then finishDetection
  else set_faceCentered false >>> clearCaptureTimer >>> set_centeredCountRef 0
       >>> finishDetection.

(** Arming the capture timer once the face was centred twice. *)
Definition armCaptureTimer (env : Env) (face : FaceData) (w h : Q) : Screen -> Screen :=
  fun s =>
    if negb (defined (captureTimerRef s)) && negb (hasCapturedRef s) then
      if valid (validateFaceQuality (Some face)) then
        (set_lastDetectionPhotoRef
           (Some {| photo_face := face; photo_width := w; photo_height := h |})
         >>> setTimer (CaptureTimer env face) set_captureTimerRef) s
      else s
    else s.

(** The body run on the detector's answer. *)
Definition onFaces (env : Env) (faces : list FaceData) (w h : Q) : Screen -> Screen :=
  match faces with
  | face :: _ =>
      if centered (isFaceCentered face w h) then
        (fun s => set_centeredCountRef (centeredCountRef s + 1) s)
        >>> (fun s =>
              if (2 <=? centeredCountRef s)%nat
              then (set_faceCentered true >>> armCaptureTimer env face w h) s
              else set_faceCentered false s)
      else set_centeredCountRef 0 >>> set_faceCentered false >>> clearCaptureTimer
  | [] => set_faceCentered false >>> clearCaptureTimer >>> set_centeredCountRef 0
  end.

(** *** The capture callbacks *)

(** [captureFaceFeaturesFromPhoto] up to its first await. *)
Definition captureFaceFeaturesFromPhoto (env : Env) (p : Photo) : Screen -> Screen :=
  fun s =>
    if env_isCapturing env || negb (env_isScreenFocused env) then s
    else if valid (validateFaceQuality (Some (photo_face p)))
    then (set_isCapturing true >>> set_capturing (Some (FromPhoto p))) s
    else (set_isCapturing true >>> set_isCapturing false >>> set_hasCapturedRef false) s.

(** [captureFaceFeatures] up to its first await. *)
Definition captureFaceFeatures (env : Env) (face0 : FaceData) : Screen -> Screen :=
  fun s =>
    if negb (cameraRef s) || env_isCapturing env || negb (env_isScreenFocused env) then s
    else if valid (validateFaceQuality (Some face0))
    then (clearDetectionInterval >>> set_isCapturing true
          >>> set_capturing (Some (FromCamera face0))) s
    else (clearDetectionInterval >>> set_isCapturing true >>> set_isCapturing false) s.

(** The end of the capture timer callback, after its wait loop. *)
Definition proceedToCapture (env : Env) (face0 : FaceData) : Screen -> Screen :=
  set_waiting None >>> set_captureTimerRef None
  >>> (fun s =>
        match lastDetectionPhotoRef s with
        | Some p => captureFaceFeaturesFromPhoto env p s
        | None => captureFaceFeatures env face0 s
        end).

(** The capture timer callback: its guard, the capture flag, and the loop
    that waits for a pending detection. *)
Definition captureTimerFired (env : Env) (face0 : FaceData) : Screen -> Screen :=
  fun s =>
    if negb (hasCapturedRef s) && cameraRef s && negb (env_isCapturing env)
       && env_isScreenFocused env && env_hasPermission env
    then
      (set_hasCapturedRef true
       >>> (fun s => set_captureStarts (S (captureStarts s)) s)
       >>> clearDetectionInterval
       >>> (fun s =>
             if pendingDetectionRef s then set_waiting (Some (env, face0, 0)) s
             else proceedToCapture env face0 s)) s
    else set_captureTimerRef None s.

(** One 100 ms turn of the wait loop. *)
Definition waitTick : Screen -> Screen :=
  fun s =>
    match waiting s with
    | Some (env, face0, waitCount) =>
        if pendingDetectionRef s && (S waitCount <? 20)%nat
        then set_waiting (Some (env, face0, S waitCount)) s
        else proceedToCapture env face0 s
    | None => s
    end.

Section Route.

(** The route parameter [autoSubmit]. *)
Variable autoSubmit : bool.

(** The capture completed: the result is stored or displayed. *)
Definition captureSucceeded : Screen -> Screen :=
  fun s =>
    match capturing s with
    | Some _ =>
        ((fun s => set_captureEvents (S (captureEvents s)) s)
         >>> (if autoSubmit then (fun s => s) else set_capturedImageUri true)
         >>> set_isCapturing false >>> set_capturing None) s
    | None => s
    end.

(** The capture threw: both capture functions reset the flag to allow a
    retry. *)
Definition captureFailed : Screen -> Screen :=
  fun s =>
    match capturing s with
    | Some _ => (set_isCapturing false >>> set_hasCapturedRef false >>> set_capturing None) s
    | None => s
    end.

(** [captureFaceFeatures] gave up because the camera went away. *)
Definition captureAborted : Screen -> Screen :=
  fun s =>
    match capturing s with
    | Some (FromCamera _) => (set_isCapturing false >>> set_capturing None) s
    | _ => s
    end.

(** *** Events and the step function *)

Inductive Event :=
| Focus
| Blur
| Permission (granted : bool)
| Fire (id : nat)
| PhotoTaken (photoWidth photoHeight : Q)
| PhotoFailed (cameraClosed : bool)
| Detected (faces : list FaceData)
| DetectFailed (cameraClosed : bool)
| WaitTick
| CaptureSucceeded
| CaptureFailed
| CaptureAborted
| Retry.

Definition fire (id : nat) : Screen -> Screen :=
  fun s =>
    match snd <$> find (fun t => bool_decide (fst t = id)) (timers s) with
    | Some (StartTimer env) =>
        (clearTimer (Some id) >>> detectFaces env
         >>> setTimer (DetectionInterval env) set_detectionIntervalRef) s
    | Some (DetectionInterval env) =>
        if hasCapturedRef s then s else detectFaces env s
    | Some (CaptureTimer env face0) =>
        (clearTimer (Some id) >>> captureTimerFired env face0) s
    | None => s
    end.

Definition handle (e : Event) : Screen -> Screen :=
  match e with
  | Focus => set_isScreenFocused true >>> set_hasCapturedRef false
  | Blur => set_isScreenFocused false >>> clearCaptureTimer
  | Permission granted => set_hasPermission granted
  | Fire id => fire id
  | PhotoTaken w h =>
      fun s =>
        match detection s with
        | Some (AwaitPhoto env) => photoTaken env w h s
        | _ => s
        end
  | PhotoFailed cameraClosed =>
      fun s =>
        match detection s with
        | Some (AwaitPhoto _) => detectionError cameraClosed s
        | _ => s
        end
  | Detected faces =>
      fun s =>
        match detection s with
        | Some (AwaitFaces env w h) => (onFaces env faces w h >>> finishDetection) s
        | _ => s
        end
  | DetectFailed cameraClosed =>
      fun s =>
        match detection s with
        | Some (AwaitFaces _ _ _) => detectionError cameraClosed s
        | _ => s
        end
  | WaitTick => waitTick
  | CaptureSucceeded => captureSucceeded
  | CaptureFailed => captureFailed
  | CaptureAborted => captureAborted
  | Retry => set_capturedImageUri false
  end.

Definition step (s : Screen) (e : Event) : Screen := commit (handle e s).

Definition run (s : Screen) (trace : list Event) : Screen := fold_left step trace s.

End Route.

(** The screen as mounted: focused, without permission yet, nothing
    pending; the effect of the first render declined to start. *)
Definition mounted : Screen :=
  {| hasPermission := false; isCapturing := false; isScreenFocused := true;
     capturedImageUri := false; faceCentered := false;
     centeredCountRef := 0; captureTimerRef := None; hasCapturedRef := false;
     detectionIntervalRef := None; pendingDetectionRef := false;
     lastDetectionPhotoRef := None;
     committedDeps := (false, false, true); effectStartTimer := None;
     timers := []; nextTimer := 0; detection := None; waiting := None;
     capturing := None; captureStarts := 0; captureEvents := 0 |}.

End FaceCapture.

(** ** Strings as the handlers use them *)

Module Str.

(** Truthiness of an optional string: [undefined], [null] and [""] are
    falsy. *)
Definition truthy (o : option string) : option string :=
  match o with
  | Some s => if String.eqb s "" then None else Some s
  | None => None
  end.

(** [hay.includes(needle)]. *)
Fixpoint includes (needle hay : string) : bool :=
  String.prefix needle hay
  || match hay with
     | String _ rest => includes needle rest
     | EmptyString => false
     end.

(** White space removed by [trim] (the ASCII part of it; keys are ASCII). *)
Definition isSpace (c : ascii) : bool :=
  let n := nat_of_ascii c in
  ((9 <=? n) && (n <=? 13) || (n =? 32))%nat.

Fixpoint trimStart (s : string) : string :=
  match s with
  | String c rest => if isSpace c then trimStart rest else s
  | EmptyString => EmptyString
  end.

Definition reverse (s : string) : string :=
  string_of_list_ascii (rev (list_ascii_of_string s)).

Definition trim (s : string) : string :=
  reverse (trimStart (reverse (trimStart s))).

End Str.

(** ** Evidence sent to the backend *)

(** The [faceFeatures] object of a capture result: the face id and the
    observation's fields. *)
Record FaceFeatures := { ff_faceId : string; ff_observation : FaceData }.

(** What [faceLandmarks] carries: the raw observation or the features. *)
Inductive LandmarksPayload :=
| RawFace (fd : FaceData)
| Features (ff : FaceFeatures).

(** [emb && Array.isArray(emb) && emb.length > 0]. *)
Definition nonEmpty (emb : option (list Q)) : option (list Q) :=
  match emb with
  | Some (v :: rest) => Some (v :: rest)
  | _ => None
  end.

(** *** [FaceCheckInModal.handleFaceCaptured] *)

Module FaceCheckIn.

Record CaptureResult := {
  res_faceId : option string;
  res_faceEmbedding : option (list Q);
  res_faceData : option (list FaceData);
  res_faceFeatures : option FaceFeatures;
  res_imageBase64 : option string
}.

Record Location := { loc_latitude : Q; loc_longitude : Q }.

Inductive Kind := checkin | checkout.

(** What the handler reads from its surroundings, one field per awaited
    call: the stored token once the polling loop is over, the token found
    after [getMe] when recovery succeeds, the cached or fresh location, and
    the stored device key. *)
Record Ambient := {
  amb_type : Kind;
  amb_token : option string;
  amb_isAuthenticated : bool;
  amb_user : bool;
  amb_recoveredToken : option string;
  amb_location : option Location;
  amb_deviceFingerprint : option string
}.

Record AttendancePayload := {
  latitude : Q;
  longitude : Q;
  address : string;
  faceIdVerified : bool;
  faceId : string;
  fingerprintPublicKey : option string;
  faceEmbedding : option (list Q);
  faceImage : option string;
  faceLandmarks : option LandmarksPayload
}.

Inductive Alert :=
| faceIdNotFound
| sessionExpired
| pleaseLogin
| pleaseLoginAgain
| locationFailed.

(** What the handler did: whether it called [authAPI.getMe], the request
    it handed to [attendanceAPI], and the alert it closed with. *)
Record Outcome := {
  calledGetMe : bool;
  submitted : option (Kind * AttendancePayload);
  alert : option Alert
}.

Definition closeWith (getMe : bool) (a : Alert) : Outcome :=
  {| calledGetMe := getMe; submitted := None; alert := Some a |}.

(** [capturedFaceData || result.faceFeatures || null]. *)
Definition landmarksPayload (result : CaptureResult) : option LandmarksPayload :=
  match res_faceData result ≫= head with
  | Some fd => Some (RawFace fd)
  | None => Features <$> res_faceFeatures result
  end.

(** The payload and its evidence: the [if / else if / else if] chain. *)
Definition attendancePayload (faceId : string) (result : CaptureResult)
    (location : Location) (deviceFingerprint : option string) : AttendancePayload :=
  let faceEmbedding := nonEmpty (res_faceEmbedding result) in
  let faceLandmarksPayload := landmarksPayload result in
  let faceImageBase64 := Str.truthy (res_imageBase64 result) in
  let payload emb img lms :=
    {| latitude := loc_latitude location;
       longitude := loc_longitude location;
       address := Text.toFixed 6 (loc_latitude location) +:+ ", "
                  +:+ Text.toFixed 6 (loc_longitude location);
       faceIdVerified := true;
       faceId := faceId;
       fingerprintPublicKey := deviceFingerprint;
       faceEmbedding := emb;
       faceImage := img;
       faceLandmarks := lms |} in
  match faceEmbedding, faceImageBase64, faceLandmarksPayload with
  | Some emb, _, _ => payload (Some emb) None None
  | None, Some img, _ => payload None (Some img) None
  | None, None, Some lms => payload None None (Some lms)
  | None, None, None => payload None None None
  end.

Definition handleFaceCaptured (amb : Ambient) (result : CaptureResult) : Outcome :=
  match Str.truthy (res_faceId result) with
  | None => closeWith false faceIdNotFound
  | Some faceId =>
      let proceed (getMe : bool) : Outcome :=
        if negb (amb_user amb) || negb (amb_isAuthenticated amb)
        then closeWith getMe pleaseLoginAgain
        else
          match amb_location amb with
          | None => closeWith getMe locationFailed
          | Some location =>
              {| calledGetMe := getMe;
                 submitted :=
                   Some (amb_type amb,
                         attendancePayload faceId result location
                           (amb_deviceFingerprint amb));
                 alert := None |}
          end in
      match Str.truthy (amb_token amb) with
      | Some _ => proceed false
      | None =>
          if amb_isAuthenticated amb && amb_user amb then
            match Str.truthy (amb_recoveredToken amb) with
            | Some _ => proceed true
            | None => closeWith true sessionExpired
            end
          else closeWith false pleaseLogin
      end
  end.

End FaceCheckIn.

(** *** [authAPI.loginWithBiometric] *)

Module AuthAPI.

Record LoginData := {
  faceId : option string;
  faceEmbedding : option (list Q);
  faceImage : option string;
  faceLandmarks : option LandmarksPayload;
  fingerprintPublicKey : option string;
  email : option string;
  employeeNumber : option string
}.

(** [cleanData] after the first chain: embedding, else face id, else image. *)
Definition primaryEvidence (data : LoginData) : LoginData :=
  let none :=
    {| faceId := None; faceEmbedding := None; faceImage := None;
       faceLandmarks := None; fingerprintPublicKey := None; email := None;
       employeeNumber := None |} in
  match nonEmpty (faceEmbedding data), Str.truthy (faceId data), Str.truthy (faceImage data) with
  | Some emb, _, _ =>
      {| faceId := None; faceEmbedding := Some emb; faceImage := None;
         faceLandmarks := None; fingerprintPublicKey := None; email := None;
         employeeNumber := None |}
  | None, Some id, _ =>
      {| faceId := Some id; faceEmbedding := None; faceImage := None;
         faceLandmarks := None; fingerprintPublicKey := None; email := None;
         employeeNumber := None |}
  | None, None, Some img =>
      {| faceId := None; faceEmbedding := None; faceImage := Some img;
         faceLandmarks := None; fingerprintPublicKey := None; email := None;
         employeeNumber := None |}
  | None, None, None => none
  end.

(** The body of the request: [cleanData] as serialised for [fetch].  The
    block that deletes the face fields of a fingerprint-only login runs
    only when they are already absent. *)
Definition cleanData (data : LoginData) : LoginData :=
  let c := primaryEvidence data in
  let c :=
    {| faceId := faceId c; faceEmbedding := faceEmbedding c; faceImage := faceImage c;
       faceLandmarks := faceLandmarks data;
       fingerprintPublicKey := Str.truthy (fingerprintPublicKey data);
       email := Str.truthy (email data);
       employeeNumber := Str.truthy (employeeNumber data) |} in
  if defined (fingerprintPublicKey c) && negb (defined (faceEmbedding c))
     && negb (defined (faceId c)) && negb (defined (faceImage c))
     && negb (defined (faceLandmarks c))
  then
    {| faceId := None; faceEmbedding := None; faceImage := None; faceLandmarks := None;
       fingerprintPublicKey := fingerprintPublicKey c; email := email c;
       employeeNumber := employeeNumber c |}
  else c.

End AuthAPI.

(** ** Enrolment ([BiometricSetupScreen], [authAPI.completeRegistration]) *)

Module BiometricSetup.

(** [AsyncStorage]; its operations are taken to succeed. *)
Abbreviation Storage := (gmap string string).

Definition setItem (k v : string) (st : Storage) : Storage := <[k := v]> st.
Definition getItem (k : string) (st : Storage) : option string := st !! k.
Definition multiRemove (ks : list string) (st : Storage) : Storage :=
  foldr delete st ks.

Record User := {
  user_email : option string;
  user_employeeNumber : option string;
  user_profileImage : option string
}.

Record ResponseData := { resp_token : option string; resp_user : option User }.

(** A thrown value as the handlers read it: [message], [code],
    [response.status], [response.data.message] and [data.message]. *)
Record ApiError := {
  err_message : string;
  err_code : option string;
  err_status : option Z;
  err_responseMessage : option string;
  err_dataMessage : option string
}.

Definition newError (msg : string) : ApiError :=
  {| err_message := msg; err_code := None; err_status := None;
     err_responseMessage := None; err_dataMessage := None |}.

(** How the registration request went: an image could not be prepared,
    [fetch] rejected, the backend answered with an error status (a conflict
    is such an answer; [message] is the one in its body), or it
    answered with success. *)
Inductive Fetch :=
| PrepareFailed (message : string)
| Rejected (error : ApiError)
| NotOk (status : Z) (message : option string)
| Ok (data : ResponseData).

Definition msgMaybeCreated : string :=
  "انتهت مهلة الاتصال، لكن الحساب قد يكون تم إنشاؤه. يرجى محاولة تسجيل الدخول.".
Definition msgTimeout : string :=
  "انتهت مهلة الاتصال. يرجى التحقق من الاتصال بالإنترنت والمحاولة مرة أخرى.".
Definition msgConnection : string :=
  "فشل الاتصال بالخادم. يرجى التحقق من الاتصال بالإنترنت والمحاولة مرة أخرى.".

Definition codeIs (c : string) (e : ApiError) : bool :=
  match err_code e with
  | Some c' => String.eqb c c'
  | None => false
  end.

Section Serialisation.

(** [JSON.stringify] of the stored user and of the stored face data. *)
Variable stringifyUser : User -> string.

(** The user as stored: without an inline [data:] profile image. *)
Definition userForStorage (u : option User) : User :=
  match u with
  | Some u =>
      match user_profileImage u with
      | Some img =>
          if String.prefix "data:" img
          then {| user_email := user_email u;
                  user_employeeNumber := user_employeeNumber u;
                  user_profileImage := None |}
          else u
      | None => u
      end
  | None => {| user_email := None; user_employeeNumber := None; user_profileImage := None |}
  end.

(** The [catch] block of [completeRegistration]. *)
Definition rethrow (requestTime : Z) (error : ApiError) : ApiError :=
  let network :=
    String.eqb (err_message error) "Network Error" || codeIs "ERR_NETWORK" error in
  if (25000 <=? requestTime)%Z && (codeIs "ECONNABORTED" error || network)
  then newError msgMaybeCreated
  else if codeIs "ECONNABORTED" error || Str.includes "timeout" (err_message error)
  then newError msgTimeout
  else if network then newError msgConnection
  else error.

(** The value thrown for an error status. *)
Definition statusError (status : Z) (message : option string) : ApiError :=
  {| err_message :=
       default ("Request failed with status " +:+ Text.to_radix 10 status)
         (Str.truthy message);
     err_code := Some "ERR_NETWORK";
     err_status := Some status;
     err_responseMessage := message;
     err_dataMessage := None |}.

Definition completeRegistration (requestTime : Z) (outcome : Fetch) (st : Storage)
    : Storage * (ApiError + ResponseData) :=
  match outcome with
  | PrepareFailed message => (st, inl (rethrow requestTime (newError message)))
  | Rejected error => (st, inl (rethrow requestTime error))
  | NotOk status message => (st, inl (rethrow requestTime (statusError status message)))
  | Ok data =>
      match Str.truthy (resp_token data) with
      | Some token =>
          (setItem "user" (stringifyUser (userForStorage (resp_user data)))
             (setItem "token" token st),
           inr data)
      | None => (st, inr data)
      end
  end.

(** *** The screen *)

(** The [faceData] state object. *)
Record FaceState := {
  fs_faceId : option string;
  fs_faceEmbedding : option (list Q);
  fs_faceFeatures : option FaceFeatures;
  fs_face : option FaceData
}.

Record FaceDataForStorage := {
  stored_faceId : string;
  stored_faceFeatures : option FaceFeatures;
  stored_face : option FaceData
}.

Variable stringifyFaceData : FaceDataForStorage -> string.
Variable stringifyObservation : option FaceData -> string.

(** The registration form handed over by the previous screen; its account
    and profile fields are forwarded unchanged. *)
Record RegistrationData := {
  reg_employeeNumber : string;
  reg_email : string;
  reg_password : string;
  reg_fullName : string
}.

(** Props and React state of the screen. *)
Record Setup := {
  biometricAvailable : bool;
  isModal : bool;
  registrationData : option RegistrationData;
  fingerprintPublicKey : option string;
  fingerprintCompleted : bool;
  faceData : option FaceState;
  capturedImageUri : option string;
  faceCompleted : bool
}.

Record RegistrationPayload := {
  pay_registration : RegistrationData;
  pay_fingerprintPublicKey : string;
  pay_faceEmbedding : option (list Q);
  pay_faceImageUri : option string;
  pay_faceId : string;
  pay_faceFeatures : option FaceFeatures;
  pay_faceData : option (list FaceData)
}.

Inductive ConflictTitle :=
| registrationError
| alreadyRegistered
| faceAlreadyRegistered
| deviceAlreadyUsed
| fingerprintAlreadyRegistered.

Inductive Alert :=
| notAvailable
| verificationFailed
| biometricKeysFailed
| biometricSetupComplete
| captureFaceFirst
| completeFingerprintFirst
| registrationDataNotFound
| registrationComplete
| serverUnavailable
| cannotConnectServer
| conflict (title : ConflictTitle) (message : string)
| plainError (message : string).

(** What a handler leaves behind: the state, the storage, the request it
    sent to the backend if it sent one, and the alert it showed. *)
Record Result := {
  state : Setup;
  storage : Storage;
  request : option RegistrationPayload;
  alert : option Alert
}.

Definition set_fingerprint (key : string) (s : Setup) : Setup :=
  {| biometricAvailable := biometricAvailable s; isModal := isModal s;
     registrationData := registrationData s;
     fingerprintPublicKey := Some key; fingerprintCompleted := true;
     faceData := faceData s; capturedImageUri := capturedImageUri s;
     faceCompleted := faceCompleted s |}.

Definition set_faceCompleted (s : Setup) : Setup :=
  {| biometricAvailable := biometricAvailable s; isModal := isModal s;
     registrationData := registrationData s;
     fingerprintPublicKey := fingerprintPublicKey s;
     fingerprintCompleted := fingerprintCompleted s;
     faceData := faceData s; capturedImageUri := capturedImageUri s;
     faceCompleted := true |}.

(** [handleEnableBiometric]: [authOk] is the result of the system prompt,
    [publicKey] the key [createBiometricKeys] returned, if it succeeded. *)
Definition handleEnableBiometric (authOk : bool) (publicKey : option string)
    (s : Setup) (st : Storage) : Result :=
  let stop a := {| state := s; storage := st; request := None; alert := Some a |} in
  if negb (biometricAvailable s) then stop notAvailable
  else if negb authOk then stop verificationFailed
  else
    match Str.truthy publicKey with
    | None => stop biometricKeysFailed
    | Some key =>
        {| state := set_fingerprint (Str.trim key) s; storage := st;
           request := None; alert := Some biometricSetupComplete |}
    end.

(** The markers the [catch] block looks for in the error message. *)
Definition isDuplicateFace (m : string) : bool :=
  Str.includes "الوجه مسجل" m || Str.includes "الوجه مسجل مسبقاً" m.
Definition isDuplicateFingerprint (m : string) : bool :=
  Str.includes "البصمة مسجلة" m || Str.includes "البصمة مسجلة مسبقاً" m.
Definition isDeviceAlreadyUsed (m : string) : bool :=
  Str.includes "هذا الجهاز مستخدم" m || Str.includes "الجهاز مستخدم" m.
Definition isAlreadyRegistered (m : string) : bool :=
  Str.includes "مسجل بالفعل على هذا الجهاز" m || Str.includes "أنت مسجل بالفعل" m
  || Str.includes "الوجه والبصمة مسجلان" m.

Definition conflictTitle (m : string) : ConflictTitle :=
  if isAlreadyRegistered m && Str.includes "الوجه والبصمة" m then alreadyRegistered
  else if isDuplicateFace m then faceAlreadyRegistered
  else if isDeviceAlreadyUsed m then deviceAlreadyUsed
  else if isAlreadyRegistered m then alreadyRegistered
  else if isDuplicateFingerprint m then fingerprintAlreadyRegistered
  else registrationError.

(** The [catch] block of [handleFaceCaptureComplete]: it reads the stored
    key for its log and shows an alert. *)
Definition registrationFailed (fallbackText : string) (error : ApiError) : Alert :=
  if bool_decide (err_status error = Some 502%Z) || codeIs "ECONNREFUSED" error
     || Str.includes "502" (err_message error)
  then serverUnavailable
  else if Str.includes "Network Error" (err_message error) || codeIs "NETWORK_ERROR" error
  then cannotConnectServer
  else
    let errorMessage :=
      match Str.truthy (err_responseMessage error), Str.truthy (err_dataMessage error),
            Str.truthy (Some (err_message error)) with
      | Some m, _, _ => m
      | None, Some m, _ => m
      | None, None, Some m => m
      | None, None, None => fallbackText
      end in
    if isDuplicateFace errorMessage || isDuplicateFingerprint errorMessage
       || isDeviceAlreadyUsed errorMessage || isAlreadyRegistered errorMessage
    then conflict (conflictTitle errorMessage) errorMessage
    else plainError errorMessage.

(** What the handler awaits: the embedding generator, the registration
    request and the time it took. *)
Record External := {
  ext_embedding : option (list Q);
  ext_fetch : Fetch;
  ext_requestTime : Z;
  ext_fallbackText : string
}.

Definition handleFaceCaptureComplete (ext : External) (s : Setup) (st : Storage) : Result :=
  let stop a := {| state := s; storage := st; request := None; alert := Some a |} in
  match faceData s with
  | None => stop captureFaceFirst
  | Some fdata =>
      if negb (defined (Str.truthy (fs_faceId fdata))) && negb (defined (fs_face fdata))
      then stop captureFaceFirst
      else
        match (if fingerprintCompleted s then Str.truthy (fingerprintPublicKey s) else None) with
        | None => stop completeFingerprintFirst
        | Some key =>
            let faceId :=
              match Str.truthy (fs_faceId fdata) with
              | Some id => id
              | None => FaceRecognition.generateFaceId stringifyObservation (fs_face fdata) None
              end in
            let faceEmbedding :=
              match fs_faceEmbedding fdata, fs_face fdata with
              | Some emb, _ => Some emb
              | None, Some _ => ext_embedding ext
              | None, None => None
              end in
            let forStorage :=
              {| stored_faceId := faceId;
                 stored_faceFeatures := fs_faceFeatures fdata;
                 stored_face := fs_face fdata |} in
            match registrationData s with
            | None =>
                if isModal s then
                  {| state := set_faceCompleted s;
                     storage :=
                       setItem "biometricEnabled" "true"
                         (setItem "fingerprintPublicKey" key
                            (setItem "faceData" (stringifyFaceData forStorage) st));
                     request := None; alert := None |}
                else stop registrationDataNotFound
            | Some regData =>
                if String.eqb (Str.trim faceId) "" then
                  {| state := s; storage := st; request := None;
                     alert := Some (registrationFailed (ext_fallbackText ext)
                                      (newError "faceId is missing or invalid")) |}
                else if String.eqb (Str.trim key) "" then
                  {| state := s; storage := st; request := None;
                     alert := Some (registrationFailed (ext_fallbackText ext)
                                      (newError "fingerprintPublicKey is missing or invalid")) |}
                else
                  let payload :=
                    {| pay_registration := regData;
                       pay_fingerprintPublicKey := key;
                       pay_faceEmbedding := faceEmbedding;
                       pay_faceImageUri := Str.truthy (capturedImageUri s);
                       pay_faceId := faceId;
                       pay_faceFeatures := fs_faceFeatures fdata;
                       pay_faceData := (fun f => [f]) <$> fs_face fdata |} in
                  match completeRegistration (ext_requestTime ext) (ext_fetch ext) st with
                  | (st1, inl error) =>
                      {| state := s; storage := st1; request := Some payload;
                         alert := Some (registrationFailed (ext_fallbackText ext) error) |}
                  | (st1, inr response) =>
                      let st2 :=
                        setItem "biometricEnabled" "true"
                          (setItem "fingerprintPublicKey" (Str.trim key)
                             (setItem "faceData" (stringifyFaceData forStorage) st1)) in
                      let st3 :=
                        match resp_user response with
                        | Some u =>
                            let st' :=
                              match Str.truthy (user_email u) with
                              | Some e => setItem "biometricEmail" e st2
                              | None => st2
                              end in
                            match Str.truthy (user_employeeNumber u) with
                            | Some n => setItem "biometricEmployeeNumber" n st'
                            | None => st'
                            end
                        | None => st2
                        end in
                      {| state := set_faceCompleted s;
                         storage := multiRemove ["token"; "user"; "cookies"] st3;
                         request := Some payload;
                         alert := Some registrationComplete |}
                  end
            end
        end
  end.

End Serialisation.

End BiometricSetup.

(** ** Matching face ids ([compareFaceIds]) *)

Module ParseInt.

Local Open Scope Z_scope.

(** The value of a digit of radix 16, in either case. *)
Definition hexDigit (c : ascii) : option Z :=
  let n := Text.charCode c in
  if (48 <=? n) && (n <=? 57) then Some (n - 48)
  else if (97 <=? n) && (n <=? 102) then Some (n - 87)
  else if (65 <=? n) && (n <=? 70) then Some (n - 55)
  else None.

(** The value of the longest prefix of digits, read on top of the digits
    already seen ([None]: none seen yet). *)
Fixpoint digitsValue (s : string) (seen : option Z) : option Z :=
  match s with
  | String c rest =>
      match hexDigit c with
      | Some d => digitsValue rest (Some (default 0 seen * 16 + d))
      | None => seen
      end
  | EmptyString => seen
  end.

Definition stripSign (s : string) : bool * string :=
  match s with
  | String "-" rest => (true, rest)
  | String "+" rest => (false, rest)
  | _ => (false, s)
  end.

Definition stripPrefix (s : string) : string :=
  match s with
  | String "0" (String "x" rest) => rest
  | String "0" (String "X" rest) => rest
  | _ => s
  end.

(** [parseInt(s, 16)]; [None] is [NaN].  Leading white space, a sign and
    a prefix [0x] are skipped and the longest run of digits is read.  The
    integer is exact (the ids of the generators have at most ten digits,
    which a JavaScript number holds exactly), and the white space skipped
    is the ASCII one, which is all there is in a string of ASCII
    characters. *)
Definition parseInt16 (s : string) : option Z :=
  let '(negative, digits) := stripSign (Str.trimStart s) in
  (fun v => if negative then - v else v) <$> digitsValue (stripPrefix digits) None.

Definition isAscii (s : string) : bool :=
  forallb (fun c => Text.charCode c <? 128) (list_ascii_of_string s).

(** A digit that [n.toString(16)] prints. *)
Definition isLowerHex (c : ascii) : bool :=
  let n := Text.charCode c in
  (48 <=? n) && (n <=? 57) || (97 <=? n) && (n <=? 102).

End ParseInt.

Module FaceMatch.

Import ParseInt.

(** [Math.min]. *)
Definition min (a b : Q) : Q := if Num.ltb b a then b else a.

(** [compareFaceIds]; [None] is [NaN]. *)
Definition compareFaceIds (faceId1 faceId2 : string) : option Q :=
  if String.eqb faceId1 faceId2 then Some 1%Q
  else
    match parseInt16 faceId1, parseInt16 faceId2 with
    | Some hash1, Some hash2 =>
        let distance := Z.abs (hash1 - hash2) in
        let maxDistance := Z.max hash1 hash2 in
        let similarity :=
          (1 - inject_Z distance / inject_Z (if (maxDistance =? 0)%Z then 1 else maxDistance))%Q in
        Some (Num.max 0 (min 1 similarity))
    | _, _ => None
    end.

End FaceMatch.

(** ** The face crop of the capture screen ([captureFaceFeaturesFromPhoto]) *)

Module FaceCrop.

Import Num.
Local Open Scope Q_scope.

(** The fields of [frame] (or [bounds]) the crop reads. *)
Record Frame := {
  left : option Q;
  originX : option Q;
  x : option Q;
  top : option Q;
  originY : option Q;
  y : option Q;
  width : option Q;
  height : option Q;
  size : option Dim;
  right : option Q;
  bottom : option Q
}.

Definition noFrame : Frame :=
  {| left := None; originX := None; x := None; top := None; originY := None;
     y := None; width := None; height := None; size := None; right := None;
     bottom := None |}.

Record Rect := { rect_x : Q; rect_y : Q; rect_width : Q; rect_height : Q }.

(** [Math.min]. *)
Definition min (a b : Q) : Q := if ltb b a then b else a.

(** [a ?? b ?? c ?? 0]. *)
Definition firstDefined (a b c : option Q) : Q :=
  default 0 (FaceRecognition.nullish a (FaceRecognition.nullish b c)).

(** [frame.width ?? frame.size?.width ?? (frame.right ? frame.right - left : 0)]. *)
Definition extent (direct sized far : option Q) (near : Q) : Q :=
  match FaceRecognition.nullish direct sized with
  | Some v => v
  | None =>
      match truthy far with
      | Some f => f - near
      | None => 0
      end
  end.

(** [analyzedFace?.frame || analyzedFace?.bounds || {}]. *)
Definition frameOf (frame bounds : option Frame) : Frame :=
  match frame with
  | Some f => f
  | None => default noFrame bounds
  end.

Definition faceLeft (f : Frame) : Q := firstDefined (left f) (originX f) (x f).
Definition faceTop (f : Frame) : Q := firstDefined (top f) (originY f) (y f).
Definition faceWidth (f : Frame) : Q :=
  extent (width f) (dim_width <$> size f) (right f) (faceLeft f).
Definition faceHeight (f : Frame) : Q :=
  extent (height f) (dim_height <$> size f) (bottom f) (faceTop f).

(** The rectangle handed to [PhotoManipulator.crop]. *)
Definition cropRect (frame bounds : option Frame) (photoWidth photoHeight : Q) : Rect :=
  let f := frameOf frame bounds in
  let left := faceLeft f in
  let top := faceTop f in
  let width := faceWidth f in
  let height := faceHeight f in
  let padding := max width height * (2 # 10) in
  let cropX := max 0 (inject_Z (round (left - padding))) in
  let cropY := max 0 (inject_Z (round (top - padding))) in
  let cropWidth := min (photoWidth - cropX) (inject_Z (round (width + padding * 2))) in
  let cropHeight := min (photoHeight - cropY) (inject_Z (round (height + padding * 2))) in
  {| rect_x := cropX; rect_y := cropY; rect_width := cropWidth; rect_height := cropHeight |}.

End FaceCrop.

(** ** The native embedding module ([FaceRecognitionModule.kt]) *)

Module FaceRecognitionModule.

Local Open Scope Z_scope.

Definition INPUT_SIZE : Z := 112.
Definition IMAGE_MEAN : Q := 128.
Definition IMAGE_STD : Q := 128.

(** Kotlin's [v.coerceIn(lo, hi)]; it throws when [lo > hi]. *)
Definition coerceIn (v lo hi : Z) : option Z :=
  if hi <? lo then None
  else Some (if v <? lo then lo else if hi <? v then hi else v).

(** What [generateEmbeddingWithCrop] feeds to the resize: the whole bitmap,
    or the region handed to [Bitmap.createBitmap]. *)
Inductive Region :=
| WholeBitmap
| Crop (x y width height : Z).

(** The crop block; an exception inside it falls back to the whole
    bitmap. *)
Definition cropRegion (cropRect : option (Z * Z * Z * Z)) (bitmapWidth bitmapHeight : Z)
    : Region :=
  match cropRect with
  | None => WholeBitmap
  | Some (x, y, width, height) =>
      let region :=
        cropX ← coerceIn x 0 bitmapWidth;
        cropY ← coerceIn y 0 bitmapHeight;
        cropWidth ← coerceIn width 0 (bitmapWidth - cropX);
        cropHeight ← coerceIn height 0 (bitmapHeight - cropY);
        Some (if (0 <? cropWidth) && (0 <? cropHeight)
              then Crop cropX cropY cropWidth cropHeight
              else WholeBitmap) in
      default WholeBitmap region
  end.

(** [((pixelValue shr s) and 0xFF) - IMAGE_MEAN) / IMAGE_STD]. *)
Definition channel (shift pixelValue : Z) : Q :=
  ((inject_Z (Z.land (Z.shiftr pixelValue shift) 255) - IMAGE_MEAN) / IMAGE_STD)%Q.

(** The floats [processImage] puts into the input buffer, in order. *)
Definition inputBuffer (intValues : list Z) : list Q :=
  i ← seqZ 0 INPUT_SIZE;
  j ← seqZ 0 INPUT_SIZE;
  let pixelValue := intValues !!! Z.to_nat (i * INPUT_SIZE + j) in
  [channel 16 pixelValue; channel 8 pixelValue; channel 0 pixelValue].

(** The capacity of the buffer, in floats of four bytes:
    [allocateDirect(1 * INPUT_SIZE * INPUT_SIZE * 3 * 4)]. *)
Definition bufferFloats : Z := 1 * INPUT_SIZE * INPUT_SIZE * 3 * 4 / 4.

End FaceRecognitionModule.

(** ** The camera permission of the capture screen ([checkPermission]) *)

Module Permission.

Inductive Platform := android | ios.

(** How one run of [checkPermission] went: the permission was already
    granted (Android's [check]), the request was answered, or a call threw
    an error with this message. *)
Inductive Outcome :=
| AlreadyGranted
| Answered (granted : bool)
| Threw (message : option string).

(** [permissionRetryCountRef], the [hasPermission] state, and the delay of
    the retry timer the run scheduled. *)
Record State := {
  permissionRetryCount : nat;
  hasPermission : bool;
  retryDelay : option nat
}.

Definition messageIncludes (needle : string) (message : option string) : bool :=
  match message with
  | Some m => Str.includes needle m
  | None => false
  end.

(** The errors that are retried. *)
Definition activityNotReady (p : Platform) (message : option string) : bool :=
  match p with
  | android =>
      messageIncludes "not attached to an Activity" message
      || messageIncludes "IllegalStateException" message
  | ios =>
      messageIncludes "NO_ACTIVITY" message
      || messageIncludes "PermissionAwareActivity" message
  end.

Definition retryLimit (p : Platform) : nat :=
  match p with
  | android => 5
  | ios => 3
  end.

(** One run of [checkPermission]; [isScreenFocused] is the value its
    closure holds. *)
Definition checkPermission (p : Platform) (isScreenFocused : bool) (o : Outcome)
    (s : State) : State :=
  if negb isScreenFocused then
    {| permissionRetryCount := permissionRetryCount s; hasPermission := hasPermission s;
       retryDelay := None |}
  else
    match o with
    | AlreadyGranted =>
        {| permissionRetryCount := 0; hasPermission := true; retryDelay := None |}
    | Answered granted =>
        {| permissionRetryCount := 0; hasPermission := granted; retryDelay := None |}
    | Threw message =>
        if activityNotReady p message then
          let count := S (permissionRetryCount s) in
          if (retryLimit p <? count)%nat then
            {| permissionRetryCount := count; hasPermission := false; retryDelay := None |}
          else
            {| permissionRetryCount := count; hasPermission := false;
               retryDelay := Some (count * 1000) |}
        else
          {| permissionRetryCount := permissionRetryCount s; hasPermission := false;
             retryDelay := None |}
    end.

(** The runs chained by the retry timer: each outcome is that of the next
    run, and a run follows only when the one before scheduled a retry.
    The delays of the timers are collected. *)
Fixpoint retries (p : Platform) (outcomes : list Outcome) (s : State) : list nat * State :=
  match outcomes with
  | [] => ([], s)
  | o :: rest =>
      let s1 := checkPermission p true o s in
      match retryDelay s1 with
      | Some delay => let '(ds, s2) := retries p rest s1 in (delay :: ds, s2)
      | None => ([], s1)
      end
  end.

Definition retryable (p : Platform) (o : Outcome) : bool :=
  match o with
  | Threw message => activityNotReady p message
  | _ => false
  end.

End Permission.

(** ** The camera format ([FaceCaptureScreen], [BiometricSetupScreen]) *)

Module Camera.

Record Format := { photoWidth : Q; photoHeight : Q }.

(** The predicate given to [formats.find]. *)
Definition preferred (f : Format) : bool :=
  Num.leb 1080 (photoHeight f) && Num.leb (photoHeight f) 1920
  && Num.leb 720 (photoWidth f) && Num.leb (photoWidth f) 1440.

(** The [useMemo] that configures the camera: [device] holds the formats
    of the camera device, if there is a device. *)
Definition format (device : option (list Format)) : option Format :=
  match device with
  | None => None
  | Some formats =>
      match find preferred formats with
      | Some f => Some f
      | None => head formats
      end
  end.

End Camera.

(** ** The biometric type sent at registration ([mapBiometricType]) *)

Module BiometricType.

(** [toLowerCase] on the ASCII letters. *)
Definition lowerChar (c : ascii) : ascii :=
  let n := nat_of_ascii c in
  if ((65 <=? n) && (n <=? 90))%nat then ascii_of_nat (n + 32) else c.

Fixpoint toLowerCase (s : string) : string :=
  match s with
  | String c rest => String (lowerChar c) (toLowerCase rest)
  | EmptyString => EmptyString
  end.

Definition validTypes : list string := ["FaceID"; "TouchID"; "Fingerprint"; "FaceRecognition"].

(** [validTypes.includes(type)]. *)
Definition isValidType (type : string) : bool := existsb (String.eqb type) validTypes.

(** [mapBiometricType] of [BiometricSetupScreen.handleFaceCaptureComplete]. *)
Definition mapBiometricType (type : option string) : string :=
  match Str.truthy type with
  | None => "TouchID"
  | Some type =>
      if String.eqb type "Biometrics" || String.eqb type "biometrics" then "Fingerprint"
      else if isValidType type then type
      else if Str.includes "face" (toLowerCase type) then "FaceID"
      else if Str.includes "touch" (toLowerCase type)
              || Str.includes "finger" (toLowerCase type)
      then "Fingerprint"
      else "TouchID"
  end.

End BiometricType.

(** ** The axios instance and the session ([services/api], [AuthContext]) *)

Module Api.

Import BiometricSetup.

(** The part of an axios request the interceptors touch. *)
Record Config := {
  url : option string;
  headers : gmap string string;
  isFormData : bool
}.

(** How a request through the axios instance went: a response (with its
    [set-cookie] header and its body), or an error with the status of its
    response, if it has one. *)
Inductive Reply :=
| Replied (setCookie : option (list string)) (data : ResponseData)
| Failed (status : option Z).

Definition sessionKeys : list string := ["token"; "user"; "cookies"].

(** The request interceptor. *)
Definition onRequest (st : Storage) (config : Config) : Config :=
  let h := headers config in
  let h :=
    match Str.truthy (getItem "token" st) with
    | Some token => <["Authorization" := "Bearer " +:+ token]> h
    | None => h
    end in
  let h :=
    match Str.truthy (getItem "cookies" st) with
    | Some cookies => <["Cookie" := cookies]> h
    | None => h
    end in
  let h := if isFormData config then delete "Content-Type" h else h in
  {| url := url config; headers := h; isFormData := isFormData config |}.

(** The response interceptor: an array is truthy, empty or not. *)
Definition onResponse (setCookie : option (list string)) (st : Storage) : Storage :=
  match setCookie with
  | Some cookies => setItem "cookies" (Text.join "; " cookies) st
  | None => st
  end.

Definition isLoginRequest (url : option string) : bool :=
  match url with
  | Some u => Str.includes "/login" u || Str.includes "/auth/login" u
  | None => false
  end.

(** The error interceptor. *)
Definition onError (status : option Z) (url : option string) (st : Storage) : Storage :=
  if bool_decide (status = Some 401%Z) then
    if negb (isLoginRequest url) then multiRemove sessionKeys st else st
  else st.

Section Serialisation.

Variable stringifyUser : User -> string.

(** What [authAPI.login] and [authAPI.register] do with the response. *)
Definition saveSession (data : ResponseData) (st : Storage) : Storage :=
  match Str.truthy (resp_token data) with
  | Some token =>
      setItem "user" (stringifyUser (userForStorage (resp_user data)))
        (setItem "token" token st)
  | None => st
  end.

(** [authAPI.login]: storage after the call. *)
Definition login (reply : Reply) (st : Storage) : Storage :=
  match reply with
  | Replied setCookie data => saveSession data (onResponse setCookie st)
  | Failed status => onError status (Some "/auth/login") st
  end.

(** [authAPI.logout]: the removal follows the request only when the
    request succeeds. *)
Definition logout (reply : Reply) (st : Storage) : Storage :=
  match reply with
  | Replied setCookie _ => multiRemove sessionKeys (onResponse setCookie st)
  | Failed status => onError status (Some "/auth/logout") st
  end.

(** The loop of [loginWithBiometric] that writes the token and reads it
    back, up to [attempts] times. *)
Fixpoint saveToken (attempts : nat) (token : string) (st : Storage) : Storage * bool :=
  match attempts with
  | O => (st, false)
  | S more =>
      let st1 := setItem "token" token st in
      if bool_decide (getItem "token" st1 = Some token) then (st1, true)
      else saveToken more token st1
  end.

Definition msgNoToken : string := "الخادم لم يُرجع رمز التحقق. يرجى المحاولة مرة أخرى.".
Definition msgSaveFailed : string := "فشل حفظ رمز التحقق. يرجى المحاولة مرة أخرى.".
Definition msgVerifyFailed : string := "فشل التحقق من حفظ رمز التحقق. يرجى المحاولة مرة أخرى.".

(** How the [fetch] of [loginWithBiometric] went. *)
Inductive Fetched :=
| FetchRejected (error : ApiError)
| FetchNotOk (status : Z) (message : option string)
| FetchOk (data : ResponseData).

(** [authAPI.loginWithBiometric] after the request body is built: the
    request goes through [fetch], not through the axios instance. *)
Definition loginWithBiometric (outcome : Fetched) (st : Storage)
    : Storage * (ApiError + ResponseData) :=
  match outcome with
  | FetchRejected error => (st, inl error)
  | FetchNotOk status message => (st, inl (statusError status message))
  | FetchOk data =>
      match Str.truthy (resp_token data) with
      | None => (st, inl (newError msgNoToken))
      | Some token =>
          let '(st1, tokenSaved) := saveToken 5 token st in
          if negb tokenSaved then (st1, inl (newError msgSaveFailed))
          else
            let verified (s : Storage) :=
              bool_decide (Str.truthy (getItem "token" s) = Some token) in
            let resaved := setItem "token" token st1 in
            if negb (verified st1) && negb (verified resaved)
            then (resaved, inl (newError msgVerifyFailed))
            else
              let st2 := if verified st1 then st1 else resaved in
              let st3 :=
                setItem "user" (stringifyUser (userForStorage (resp_user data))) st2 in
              let st4 :=
                if negb (defined (Str.truthy (getItem "token" st3)))
                then setItem "token" token st3 else st3 in
              (st4, inr data)
      end
  end.

End Serialisation.

(** [AuthContext.logout]: the session data is removed first; the request
    to the backend follows, and nothing waits for it. *)
Definition contextLogout (reply : Reply) (st : Storage) : Storage :=
  logout reply (multiRemove ["token"; "user"; "cookies"; "biometricEnabled"] st).

End Api.

(** ** Face login ([AuthContext.loginWithFaceRecognition]) *)

Module FaceLogin.

Import AuthAPI.

(** Why [loginWithFaceRecognition] throws before it sends a request. *)
Inductive Refusal :=
| faceNotDetected
| faceIdNotCreated
| faceDataNotFound.

(** The payload [AuthContext.loginWithFaceRecognition] hands to
    [authAPI.loginWithBiometric].  [storedKey] is the device key read from
    storage.  Every entry of a typed embedding is a number, so the filter
    on the embedding keeps all of them. *)
Definition loginPayload (faceDetected : bool) (currentFaceId : option string)
    (capturedFaceData : option FaceCheckIn.CaptureResult) (storedKey : option string)
    : Refusal + LoginData :=
  if negb faceDetected then inl faceNotDetected
  else
    match Str.truthy currentFaceId with
    | None => inl faceIdNotCreated
    | Some currentFaceId =>
        let faceLandmarksPayload := capturedFaceData ≫= FaceCheckIn.landmarksPayload in
        let faceImageBase64 := Str.truthy (capturedFaceData ≫= FaceCheckIn.res_imageBase64) in
        let faceEmbedding := nonEmpty (capturedFaceData ≫= FaceCheckIn.res_faceEmbedding) in
        let payload emb img lms :=
          {| faceId := Some currentFaceId; faceEmbedding := emb; faceImage := img;
             faceLandmarks := lms; fingerprintPublicKey := Str.truthy storedKey;
             email := None; employeeNumber := None |} in
        match faceEmbedding, faceImageBase64, faceLandmarksPayload with
        | Some emb, _, _ => inr (payload (Some emb) None None)
        | None, Some img, _ => inr (payload None (Some img) None)
        | None, None, Some lms => inr (payload None None (Some lms))
        | None, None, None => inl faceDataNotFound
        end
    end.

End FaceLogin.

(** ** A failed check-in ([attendanceAPI], [FaceCheckInModal]) *)

Module Attendance.

Import BiometricSetup.

(** The [catch] block of [attendanceAPI.checkIn] and of [checkOut]. *)
Definition rethrow (error : ApiError) : ApiError :=
  if codeIs "ECONNABORTED" error || Str.includes "timeout" (err_message error)
  then newError msgTimeout
  else if String.eqb (err_message error) "Network Error" || codeIs "ERR_NETWORK" error
  then newError msgConnection
  else error.

Definition endpoint (type : FaceCheckIn.Kind) : string :=
  match type with
  | FaceCheckIn.checkin => "/attendance/checkin"
  | FaceCheckIn.checkout => "/attendance/checkout"
  end.

(** What [FaceCheckInModal.handleFaceCaptured] shows when the request
    fails. *)
Inductive Shown :=
| SessionExpired
| ErrorText (message : string).

Definition defaultText : string := "حدث خطأ أثناء التسجيل".

(** The two [catch] blocks of the handler, applied to what the API
    function threw. *)
Definition shown (thrown : ApiError) : Shown :=
  if bool_decide (err_status thrown = Some 401%Z) then SessionExpired
  else
    ErrorText
      match Str.truthy (err_responseMessage thrown), Str.truthy (Some (err_message thrown)) with
      | Some m, _ => m
      | None, Some m => m
      | None, None => defaultText
      end.

(** A failed request: the error passes the error interceptor of the axios
    instance, then the [catch] of the API function, then the handler. *)
Definition requestFailed (type : FaceCheckIn.Kind) (error : ApiError) (st : Storage)
    : Storage * Shown :=
  (Api.onError (err_status error) (Some (endpoint type)) st, shown (rethrow error)).

End Attendance.

(** ** Reverse geocoding ([services/location]) *)

Module Location.

(** The fields of a Nominatim [address] the function reads. *)
Record Address := {
  road : option string;
  street : option string;
  pedestrian : option string;
  path : option string;
  house_number : option string;
  neighbourhood : option string;
  suburb : option string;
  city : option string;
  town : option string;
  village : option string;
  state : option string;
  country : option string
}.

Record Geocoded := { address : option Address; display_name : option string }.

(** How the request went: it failed (the [fetch] rejected, the status was
    an error or the body was no JSON), or it gave this body ([None] is
    [null]). *)
Inductive Fetched :=
| Failed
| Body (data : option Geocoded).

Record Place := { streetName : string; fullAddress : string }.

Definition unknownStreet : string := "شارع غير معروف".
Definition unknownPlace : string := "موقع غير معروف".

(** [a || b], when the result is truthy. *)
Definition either (a b : option string) : option string :=
  match Str.truthy a with
  | Some v => Some v
  | None => Str.truthy b
  end.

(** [if (v) addressParts.push(v)]. *)
Definition part (v : option string) : list string :=
  match v with
  | Some s => [s]
  | None => []
  end.

Definition coordinates (latitude longitude : Q) : string :=
  Text.toFixed 6 latitude +:+ ", " +:+ Text.toFixed 6 longitude.

Definition getAddressFromCoordinates (latitude longitude : Q) (fetched : Fetched) : Place :=
  let fallback :=
    {| streetName := unknownPlace; fullAddress := coordinates latitude longitude |} in
  match fetched with
  | Failed => fallback
  | Body None => fallback
  | Body (Some data) =>
      match address data with
      | None => fallback
      | Some a =>
          let addressParts :=
            (part (either (road a) (street a))
             ++ part (Str.truthy (house_number a))
             ++ part (either (neighbourhood a) (suburb a))
             ++ part (either (either (city a) (town a)) (village a))
             ++ part (Str.truthy (state a))
             ++ part (Str.truthy (country a)))%list in
          {| streetName :=
               default unknownStreet
                 (either (either (either (road a) (street a)) (pedestrian a)) (path a));
             fullAddress :=
               match addressParts with
               | [] => default (coordinates latitude longitude)
                         (Str.truthy (display_name data))
               | _ => Text.join ", " addressParts
               end |}
      end
  end.

End Location.

(** ** The biometric prompt ([services/biometrics]) *)

Module Biometrics.

(** What a rejected promise carries: [null] or [undefined], whose
    properties cannot be read, or an object with these properties. *)
Inductive Thrown :=
| Nullish
| ErrorObject (name message : option string).

(** [rnBiometrics.isSensorAvailable()]. *)
Inductive Sensor :=
| SensorThrew
| SensorResult (available : bool) (biometryType : option string).

(** [FingerprintScanner.isSensorAvailable()]. *)
Inductive Scanner :=
| ScannerThrew (error : Thrown)
| ScannerResult (isAvailable : bool).

(** [rnBiometrics.simplePrompt] raced against the timer of 30 seconds: the
    race rejects, or resolves with a result ([None]: a falsy value). *)
Record PromptResult := { prompt_success : bool; prompt_error : option string }.

Inductive Prompt :=
| PromptThrew
| PromptResolved (result : option PromptResult).

(** [FingerprintScanner.authenticate]. *)
Inductive Scan :=
| Scanned
| ScanThrew (error : Thrown).

(** The outcome of each call the functions may make. *)
Record Device := {
  isIOS : bool;
  sensor : Sensor;
  scanner : Scanner;
  prompt : Prompt;
  scan : Scan
}.

Record BiometricResult := {
  available : bool;
  biometryType : option string;
  availabilityError : option string
}.

Record BiometricAuthResult := {
  success : bool;
  error : option string;
  message : option string
}.

(** The prompts shown to the user. *)
Inductive Call := SimplePrompt | ScannerAuthenticate.

Definition notAvailable : BiometricResult :=
  {| available := false; biometryType := None;
     availabilityError := Some "Biometric authentication not available on this device" |}.

(** [checkBiometricAvailability]; [None]: the promise rejects (the second
    [catch] reads [error.message]). *)
Definition checkBiometricAvailability (d : Device) : option BiometricResult :=
  let viaScanner :=
    match scanner d with
    | ScannerResult true =>
        Some {| available := true;
                biometryType := Some (if isIOS d then "TouchID" else "Fingerprint");
                availabilityError := None |}
    | ScannerResult false => Some notAvailable
    | ScannerThrew (ErrorObject _ _) => Some notAvailable
    | ScannerThrew Nullish => None
    end in
  match sensor d with
  | SensorResult true type =>
      Some {| available := true; biometryType := Str.truthy type; availabilityError := None |}
  | _ => viaScanner
  end.

Definition errorIs (kind : string) (name message : option string) : bool :=
  bool_decide (name = Some kind)
  || match message with
     | Some m => Str.includes kind m
     | None => false
     end.

Definition verified : BiometricAuthResult :=
  {| success := true; error := None; message := Some "تم التحقق بنجاح" |}.

(** The outer [catch]: the error it sees here is a [TypeError], whose
    message is not empty. *)
Definition unexpected (typeErrorMessage : string) : BiometricAuthResult :=
  {| success := false;
     error := Some (default "Unknown error" (Str.truthy (Some typeErrorMessage)));
     message := Some "حدث خطأ أثناء التحقق" |}.

Definition scanFailed (name message : option string) : BiometricAuthResult :=
  {| success := false;
     error :=
       Some (default (default "Authentication failed" (Str.truthy name)) (Str.truthy message));
     message :=
       Some (if errorIs "UserCancel" name message then "تم إلغاء العملية"
             else if errorIs "UserFallback" name message then "تم اختيار طريقة بديلة"
             else if errorIs "SystemCancel" name message then "تم إلغاء العملية من النظام"
             else if errorIs "AuthenticationFailed" name message then "فشل التحقق من الهوية"
             else default "تم إلغاء العملية أو فشل التحقق" (Str.truthy message)) |}.

Section TypeErrors.

(** The message of the [TypeError] raised by reading a property of [null]
    or [undefined]. *)
Variable typeErrorMessage : string.

(** [authenticateWithBiometrics]: its result and the prompts it showed. *)
Definition authenticateWithBiometrics (d : Device) : BiometricAuthResult * list Call :=
  match checkBiometricAvailability d with
  | None => (unexpected typeErrorMessage, [])
  | Some availability =>
      if negb (available availability) then
        ({| success := false; error := Some "Biometric authentication not available";
            message := Some "المصادقة الحيوية غير متاحة على هذا الجهاز" |}, [])
      else
        match prompt d with
        | PromptResolved None =>
            ({| success := false; error := Some "No result from biometric prompt";
                message := Some "فشل التحقق من الهوية" |}, [SimplePrompt])
        | PromptResolved (Some result) =>
            if prompt_success result then (verified, [SimplePrompt])
            else
              ({| success := false;
                  error :=
                    Some (default "User cancelled or failed" (Str.truthy (prompt_error result)));
                  message :=
                    Some (match prompt_error result with
                          | Some e => if Str.includes "cancel" e then "تم إلغاء العملية"
                                      else "تم إلغاء العملية أو فشل التحقق"
                          | None => "تم إلغاء العملية أو فشل التحقق"
                          end) |}, [SimplePrompt])
        | PromptThrew =>
            match scan d with
            | Scanned => (verified, [SimplePrompt; ScannerAuthenticate])
            | ScanThrew (ErrorObject name message) =>
                (scanFailed name message, [SimplePrompt; ScannerAuthenticate])
            | ScanThrew Nullish =>
                (unexpected typeErrorMessage, [SimplePrompt; ScannerAuthenticate])
            end
        end
  end.

End TypeErrors.

End Biometrics.

(** ** Fingerprint login ([AuthContext.loginWithBiometrics]) *)

Module BiometricLogin.

Import BiometricSetup.

(** The outcome of every call the function may await. *)
Record World := {
  biometricAvailable : bool;
  device : Biometrics.Device;
  (* [getExistingBiometricPublicKey]: [success] and [publicKey] *)
  existingKey : bool * option string;
  (* the [fetch] of [authAPI.loginWithBiometric], and whether the response
     has [approvalStatus === 'rejected'] *)
  fingerprintLogin : Api.Fetched;
  rejected : bool;
  getMe : Api.Reply;
  (* [authAPI.login], and the message of the error it throws *)
  passwordLogin : Api.Reply;
  passwordLoginMessage : option string
}.

(** The requests sent to the backend. *)
Inductive Request :=
| BiometricLogin (body : AuthAPI.LoginData)
| GetMe
| PasswordLogin (email employeeNumber : option string) (password : string).

(** How the function ends: it returns after [setUser(user)], or it throws
    an error with this message. *)
Inductive Ending :=
| LoggedIn (user : option User)
| Thrown (message : string).

Record Outcome := {
  requests : list Request;
  storage : Storage;
  ending : Ending
}.

Definition msgNotAvailable : string := "المصادقة الحيوية غير متاحة".
Definition msgNotVerified : string := "فشل التحقق".
Definition msgNoCredentials : string := "لم يتم حفظ بيانات تسجيل الدخول".
Definition msgPasswordFirst : string := "يرجى تسجيل الدخول بالبريد وكلمة المرور أولاً".
Definition msgFailed : string := "فشل تسجيل الدخول بالبيومترية".

(** [{ fingerprintPublicKey }], the argument of [loginWithBiometric]. *)
Definition keyOnly (key : string) : AuthAPI.LoginData :=
  {| AuthAPI.faceId := None; AuthAPI.faceEmbedding := None; AuthAPI.faceImage := None;
     AuthAPI.faceLandmarks := None; AuthAPI.fingerprintPublicKey := Some key;
     AuthAPI.email := None; AuthAPI.employeeNumber := None |}.

Definition setIfTruthy (k : string) (v : option string) (st : Storage) : Storage :=
  match Str.truthy v with
  | Some s => setItem k s st
  | None => st
  end.

(** A request that follows the biometric login: [getMe], or a login with
    the password found in storage. *)
Definition follows (st : Storage) (r : Request) : Prop :=
  r = GetMe
  \/ exists email employeeNumber password,
       r = PasswordLogin email employeeNumber password
       /\ Str.truthy (getItem "biometricPassword" st) = Some password.

Section Calls.

Variable stringifyUser : User -> string.
Variable typeErrorMessage : string.

(** The fallback on the stored credentials. *)
Definition storedCredentials (w : World) (sent : list Request) (st : Storage) : Outcome :=
  let storedEmail := Str.truthy (getItem "biometricEmail" st) in
  let storedEmployeeNumber := Str.truthy (getItem "biometricEmployeeNumber" st) in
  if negb (defined storedEmail) && negb (defined storedEmployeeNumber) then
    {| requests := sent; storage := st; ending := Thrown msgNoCredentials |}
  else
    match Str.truthy (getItem "biometricPassword" st) with
    | None =>
        match Str.truthy (getItem "token" st) with
        | Some _ =>
            match getMe w with
            | Api.Replied setCookie data =>
                {| requests := sent ++ [GetMe]; storage := Api.onResponse setCookie st;
                   ending := LoggedIn (resp_user data) |}
            | Api.Failed status =>
                {| requests := sent ++ [GetMe];
                   storage := Api.onError status (Some "/auth/me") st;
                   ending := Thrown msgPasswordFirst |}
            end
        | None => {| requests := sent; storage := st; ending := Thrown msgPasswordFirst |}
        end
    | Some storedPassword =>
        let request :=
          match storedEmail with
          | Some email => PasswordLogin (Some email) None storedPassword
          | None => PasswordLogin None storedEmployeeNumber storedPassword
          end in
        {| requests := sent ++ [request];
           storage := Api.login stringifyUser (passwordLogin w) st;
           ending :=
             match passwordLogin w with
             | Api.Replied _ data => LoggedIn (resp_user data)
             | Api.Failed _ => Thrown (default msgFailed (Str.truthy (passwordLoginMessage w)))
             end |}
    end.

(** The login with the device key, once there is one. *)
Definition fingerprintRoute (w : World) (key : string) (st : Storage) : Outcome :=
  let sent := [BiometricLogin (AuthAPI.cleanData (keyOnly key))] in
  match Api.loginWithBiometric stringifyUser (fingerprintLogin w) st with
  | (st2, inl _) => storedCredentials w sent st2
  | (st2, inr response) =>
      if rejected w then storedCredentials w sent st2
      else
        match resp_user response with
        | None => storedCredentials w sent st2
        | Some user =>
            let '(st3, shown) :=
              match getMe w with
              | Api.Replied setCookie fresh =>
                  let st' := Api.onResponse setCookie st2 in
                  (match resp_user fresh with
                   | Some freshUser => setItem "user" (stringifyUser freshUser) st'
                   | None => st'
                   end, resp_user fresh)
              | Api.Failed status =>
                  (setItem "user" (stringifyUser user)
                     (Api.onError status (Some "/auth/me") st2), Some user)
              end in
            {| requests := sent ++ [GetMe];
               storage :=
                 setIfTruthy "biometricEmployeeNumber" (user_employeeNumber user)
                   (setIfTruthy "biometricEmail" (user_email user) st3);
               ending := LoggedIn shown |}
        end
  end.

Definition loginWithBiometrics (w : World) (st : Storage) : Outcome :=
  if negb (biometricAvailable w) then
    {| requests := []; storage := st; ending := Thrown msgNotAvailable |}
  else
    let authResult := fst (Biometrics.authenticateWithBiometrics typeErrorMessage (device w)) in
    if negb (Biometrics.success authResult) then
      {| requests := []; storage := st;
         ending := Thrown (default msgNotVerified (Str.truthy (Biometrics.message authResult))) |}
    else
      match Str.truthy (getItem "fingerprintPublicKey" st) with
      | Some key => fingerprintRoute w key st
      | None =>
          match existingKey w with
          | (true, publicKey) =>
              match Str.truthy publicKey with
              | Some key => fingerprintRoute w key (setItem "fingerprintPublicKey" key st)
              | None => storedCredentials w [] st
              end
          | (false, _) => storedCredentials w [] st
          end
      end.

End Calls.

End BiometricLogin.

(** ** Password login ([AuthContext.login]) *)

Module PasswordLogin.

Import BiometricSetup.

Inductive Approval := pending | approvalRejected.

(** What the [catch] block reads from the error [authAPI.login] throws. *)
Record Failure := {
  fail_status : option Z;
  fail_message : option string;
  fail_approvalStatus : option Approval;
  fail_rejectionReason : option string;
  fail_responseMessage : option string
}.

(** How the request of [authAPI.login] went. *)
Inductive LoginReply :=
| LoginReplied (setCookie : option (list string)) (data : ResponseData)
| LoginFailed (failure : Failure).

(** The outcome of every call the function may await; [rejected],
    [rejectionReason] and [faceIdEnabled] are read from the response of
    the login ([approvalStatus === 'rejected'], [rejectionReason],
    [user.faceIdEnabled]). *)
Record World := {
  biometricAvailable : bool;
  loginReply : LoginReply;
  rejected : bool;
  rejectionReason : option string;
  faceIdEnabled : bool;
  getMe : Api.Reply
}.

Definition msgPending : string := "PENDING_APPROVAL: يرجى انتظار موافقة المدير على طلب التسجيل".
Definition msgLoginFailed : string := "فشل تسجيل الدخول".

Definition msgRejected (reason : option string) : string :=
  "REJECTED: تم رفض طلب التسجيل. "
  +:+ match Str.truthy reason with
      | Some r => "السبب: " +:+ r
      | None => "لا يمكنك تسجيل الدخول."
      end.

Definition reply (r : LoginReply) : Api.Reply :=
  match r with
  | LoginReplied setCookie data => Api.Replied setCookie data
  | LoginFailed failure => Api.Failed (fail_status failure)
  end.

Definition marked (message : option string) : bool :=
  match message with
  | Some m => Str.includes "PENDING_APPROVAL:" m || Str.includes "REJECTED:" m
  | None => false
  end.

(** The [catch] block: the message of the error it throws. *)
Definition rethrown (failure : Failure) : string :=
  if marked (fail_message failure) then default "" (fail_message failure)
  else
    match fail_approvalStatus failure with
    | Some pending => msgPending
    | Some approvalRejected => msgRejected (fail_rejectionReason failure)
    | None =>
        default (default msgLoginFailed (Str.truthy (fail_message failure)))
          (Str.truthy (fail_responseMessage failure))
    end.

(** An error without a response, thrown inside the function. *)
Definition thrownInside (message : string) : Failure :=
  {| fail_status := None; fail_message := Some message; fail_approvalStatus := None;
     fail_rejectionReason := None; fail_responseMessage := None |}.

Record Outcome := { storage : Storage; ending : BiometricLogin.Ending }.

(** The key the identifier is saved under. *)
Definition credentialKey (emailOrEmployeeNumber : string) : string :=
  if Str.includes "@" emailOrEmployeeNumber then "biometricEmail"
  else "biometricEmployeeNumber".

Section Calls.

Variable stringifyUser : User -> string.
Variable typeErrorMessage : string.

Definition login (w : World) (emailOrEmployeeNumber password : string) (st : Storage)
    : Outcome :=
  let st1 := Api.login stringifyUser (reply (loginReply w)) st in
  match loginReply w with
  | LoginFailed failure =>
      {| storage := st1; ending := BiometricLogin.Thrown (rethrown failure) |}
  | LoginReplied _ response =>
      if rejected w then
        {| storage := st1;
           ending :=
             BiometricLogin.Thrown (rethrown (thrownInside (msgRejected (rejectionReason w)))) |}
      else
        let '(st2, shown) :=
          match getMe w with
          | Api.Replied setCookie fresh =>
              let st' := Api.onResponse setCookie st1 in
              (match resp_user fresh with
               | Some freshUser => setItem "user" (stringifyUser freshUser) st'
               | None => st'
               end, resp_user fresh)
          | Api.Failed status =>
              let st' := Api.onError status (Some "/auth/me") st1 in
              (match resp_user response with
               | Some user => setItem "user" (stringifyUser user) st'
               | None => st'
               end, resp_user response)
          end in
        let st3 :=
          setItem "biometricPassword" password
            (setItem (credentialKey emailOrEmployeeNumber) emailOrEmployeeNumber st2) in
        if biometricAvailable w then
          match resp_user response with
          | None =>
              {| storage := st3;
                 ending := BiometricLogin.Thrown (rethrown (thrownInside typeErrorMessage)) |}
          | Some _ =>
              {| storage := if faceIdEnabled w then setItem "biometricEnabled" "true" st3 else st3;
                 ending := BiometricLogin.LoggedIn shown |}
          end
        else {| storage := st3; ending := BiometricLogin.LoggedIn shown |}
  end.

End Calls.

End PasswordLogin.

(** ** The stored capture result ([storeFaceCaptureResult], [checkFaceResult]) *)

(** The capture screen hands its result to the modal through the key
    [faceCaptureResult] of [AsyncStorage].  The text under the key is
    represented by the object [JSON.parse] reads from it. *)

Module CaptureStore.

Import FaceCheckIn.

Record Stored := { stored_result : CaptureResult; stored_timestamp : Z }.


(** [storeFaceCaptureResult]: what is under the key afterwards; [now] is
    [Date.now()]. *)
Definition storeFaceCaptureResult (payload : CaptureResult) (now : Z) : Stored :=
  {| stored_result :=
       {| res_faceId := res_faceId payload;
          res_faceEmbedding := res_faceEmbedding payload;
          res_faceData := res_faceData payload;
          res_faceFeatures := res_faceFeatures payload;
          res_imageBase64 := None |};
     stored_timestamp := now |}.

(** [checkFaceResult], run by the interval of the modal: the outcome of
    [handleFaceCaptured] when it is called. *)
Definition checkFaceResult (slot : option Stored) (now : Z) (capturing : bool)
    (amb : Ambient) : option Outcome :=
  match slot with
  | Some stored =>
      if (now - stored_timestamp stored <? 10000)%Z && capturing
      then Some (handleFaceCaptured amb (stored_result stored))
      else None
  | None => None
  end.

End CaptureStore.

(** ** Predicates on the enrolment state *)

Module Enrolment.

(** The key held in the screen state is free of surrounding white space. *)
Definition keyNormalised (s : BiometricSetup.Setup) : Prop :=
  forall k, BiometricSetup.fingerprintPublicKey s = Some k -> Str.trim k = k.

(** The three messages the [catch] block of [completeRegistration] puts in
    place of an error of code ERR_NETWORK. *)
Definition genericMessages : list string :=
  [BiometricSetup.msgMaybeCreated; BiometricSetup.msgTimeout; BiometricSetup.msgConnection].

End Enrolment.

(** ** The design document's wording, for comparison with the code *)

Module Spec.

Import Num Text FaceRecognition.
Local Open Scope Q_scope.

(** The polynomial rolling hash [h = h * 31 + charCode], wrapped to signed
    32 bits at every step. *)
Definition polyStep (h : Z) (c : ascii) : Z := ToInt32 (h * 31 + charCode c)%Z.

Definition polyHash (s : string) : Z :=
  fold_left polyStep (list_ascii_of_string s) 0%Z.

(** [computeFaceId]: the rounded features are concatenated and hashed, and
    the absolute value of the hash is printed in hexadecimal. *)
Definition computeFaceId (features : list feature) : string :=
  to_radix 16 (Z.abs (polyHash (featureString features))).

(** The hash in which the shift alone is wrapped: [h * 32] is reduced to
    signed 32 bits, the difference and the sum are not. *)
Definition shiftStep (h : Z) (c : ascii) : Z := (ToInt32 (h * 32) - h + charCode c)%Z.

Definition shiftHash (s : string) : Z :=
  fold_left shiftStep (list_ascii_of_string s) 0%Z.

(** Texts separated by commas. *)
Fixpoint commaSeparated (texts : list string) : string :=
  match texts with
  | [] => ""
  | t :: rest =>
      match rest with
      | [] => t
      | _ :: _ => t +:+ "," +:+ commaSeparated rest
      end
  end.

(** The value of a digit in a radix of at most 16 (letters in lower case),
    and the value of a numeral, which has at least one digit. *)
Definition digitOf (radix : Z) (c : ascii) : option Z :=
  let n := charCode c in
  let d :=
    (if (48 <=? n) && (n <=? 57) then n - 48
     else if (97 <=? n) && (n <=? 102) then n - 87
     else - 1)%Z in
  if ((0 <=? d) && (d <? radix))%Z then Some d else None.

Fixpoint digitsOf (radix : Z) (cs : list ascii) (acc : Z) : option Z :=
  match cs with
  | [] => Some acc
  | c :: rest =>
      match digitOf radix c with
      | Some d => digitsOf radix rest (acc * radix + d)%Z
      | None => None
      end
  end.

Definition numeral (radix : Z) (cs : list ascii) : option Z :=
  match cs with
  | [] => None
  | _ :: _ => digitsOf radix cs 0%Z
  end.

(** A digit of the radix; it is neither a point nor a minus sign. *)
Definition isDigit (radix : Z) (c : ascii) : Prop :=
  is_Some (digitOf radix c) /\ Ascii.eqb c "." = false /\ c <> "-"%char.

(** The characters before the first point, and those after it. *)
Fixpoint uptoPoint (cs : list ascii) : list ascii * option (list ascii) :=
  match cs with
  | [] => ([], None)
  | c :: rest =>
      if Ascii.eqb c "." then ([], Some rest)
      else let '(before, after) := uptoPoint rest in (c :: before, after)
  end.

(** A decimal: an optional minus sign, a numeral, a point and a numeral.
    Its value, and the number of digits after the point. *)
Definition decimal (s : string) : option (Q * nat) :=
  let cs := list_ascii_of_string s in
  let '(negative, body) :=
    match cs with
    | "-"%char :: rest => (true, rest)
    | _ => (false, cs)
    end in
  match uptoPoint body with
  | (whole, Some fraction) =>
      match numeral 10 whole, numeral 10 fraction with
      | Some i, Some f =>
          let v := inject_Z i + inject_Z f / inject_Z (10 ^ Z.of_nat (length fraction)) in
          Some (if negative then - v else v, length fraction)
      | _, _ => None
      end
  | (_, None) => None
  end.

(** [v] is the value of the feature rounded to four decimal digits: it is
    within half a unit of the fourth digit of the value.  For the eye
    distance [sqrt s / w], which has the sign of [w], the bounds on the
    magnitude are compared after squaring. *)
Definition rounds4 (f : feature) (v : Q) : Prop :=
  match f with
  | Rat q => Qabs (v - q) <= 1 # 20000
  | SqrtOver s w =>
      let lo := Qabs v - (1 # 20000) in
      let hi := Qabs v + (1 # 20000) in
      (lo <= 0 \/ lo * lo * (w * w) <= s) /\ s <= hi * hi * (w * w) /\ 0 <= v * w
  end.

(** A feature the generator pushes: the eye distance is the root of a
    sum of squares over a width that is not zero. *)
Definition properFeature (f : feature) : Prop :=
  match f with
  | Rat _ => True
  | SqrtOver s w => 0 <= s /\ ~ w == 0
  end.



















(** A uniform translation of an observation: the frame, the bounds and
    every landmark move by [(dx, dy)]; sizes, scores and angles stay. *)
Definition movePoint (dx dy : Q) (p : Point) : Point :=
  {| pt_x := pt_x p + dx; pt_y := pt_y p + dy |}.

Definition moveBox (dx dy : Q) (b : Box) : Box :=
  {| box_left := (fun v => v + dx) <$> box_left b;
     box_top := (fun v => v + dy) <$> box_top b;
     box_width := box_width b;
     box_height := box_height b;
     box_origin := movePoint dx dy <$> box_origin b;
     box_size := box_size b |}.

Definition moveLandmark (dx dy : Q) (l : Landmark) : Landmark :=
  {| lm_x := (fun v => v + dx) <$> lm_x l;
     lm_y := (fun v => v + dy) <$> lm_y l;
     lm_position := movePoint dx dy <$> lm_position l |}.

Definition moveLandmarks (dx dy : Q) (l : Landmarks) : Landmarks :=
  {| leftEye := moveLandmark dx dy <$> leftEye l;
     rightEye := moveLandmark dx dy <$> rightEye l;
     noseBase := moveLandmark dx dy <$> noseBase l;
     mouthLeft := moveLandmark dx dy <$> mouthLeft l;
     mouthRight := moveLandmark dx dy <$> mouthRight l;
     mouthBottom := moveLandmark dx dy <$> mouthBottom l;
     leftEar := moveLandmark dx dy <$> leftEar l;
     rightEar := moveLandmark dx dy <$> rightEar l;
     leftCheek := moveLandmark dx dy <$> leftCheek l;
     rightCheek := moveLandmark dx dy <$> rightCheek l |}.

Definition translate (dx dy : Q) (fd : FaceData) : FaceData :=
  {| frame := moveBox dx dy <$> frame fd;
     bounds := moveBox dx dy <$> bounds fd;
     landmarks := moveLandmarks dx dy <$> landmarks fd;
     smilingProbability := smilingProbability fd;
     leftEyeOpenProbability := leftEyeOpenProbability fd;
     rightEyeOpenProbability := rightEyeOpenProbability fd;
     headEulerAngleX := headEulerAngleX fd;
     headEulerAngleY := headEulerAngleY fd;
     headEulerAngleZ := headEulerAngleZ fd;
     rotationX := rotationX fd;
     rotationY := rotationY fd;
     rotationZ := rotationZ fd |}.






(** The length of the run of elements satisfying [p] that starts a
    sequence, and of the run that ends it. *)
Fixpoint leading {A : Type} (p : A -> bool) (l : list A) : nat :=
  match l with
  | x :: rest => if p x then S (leading p rest) else 0
  | [] => 0
  end.

Definition trailing {A : Type} (p : A -> bool) (l : list A) : nat :=
  leading p (rev l).

End Spec.

(** ** What the detection loop sees *)

Module Tracker.

Import FaceRecognition FaceCapture.

(** One detection result handled by the loop: the detector's answer for a
    photo, or an error other than a closed camera. *)
Inductive Observation :=
| Seen (faces : list FaceData) (photoWidth photoHeight : Q)
| Failed.

Definition observe (env : Env) (s : Screen) (o : Observation) : Screen :=
  match o with
  | Seen faces w h => onFaces env faces w h s
  | Failed => detectionError false s
  end.

Definition isCentred (o : Observation) : bool :=
  match o with
  | Seen (face :: _) w h => centered (isFaceCentered face w h)
  | _ => false
  end.

End Tracker.

(** ** One capture per attempt: the invariant of a session *)

Module Session.

Import FaceRecognition FaceCapture.

(** The part of the screen the capture flag and its counters live in. *)
Definition view (s : Screen)
    : bool * nat * option (Env * FaceData * nat) * option CaptureJob * option Photo :=
  (hasCapturedRef s, captureStarts s, waiting s, capturing s, lastDetectionPhotoRef s).

(** The photo kept for the capture passed the quality gate. *)
Definition photoValid (s : Screen) : Prop :=
  forall p, lastDetectionPhotoRef s = Some p ->
            valid (validateFaceQuality (Some (photo_face p))) = true.

(** Either no capture was started since the count was [n], the flag is
    clear and no capture callback is suspended, or exactly one was started
    and the flag is set. *)
Definition oneShot (n : nat) (s : Screen) : Prop :=
  photoValid s
  /\ ((captureStarts s = n /\ hasCapturedRef s = false
       /\ waiting s = None /\ capturing s = None)
      \/ (captureStarts s = S n /\ hasCapturedRef s = true)).

(** An event that clears the capture flag: the screen regains focus, or a
    capture fails and allows a retry. *)
Definition resetsFlag (e : Event) : Prop := e = Focus \/ e = CaptureFailed.

(** The capture timer is pending and no capture was attempted: the
    session is stabilizing. *)
Definition stabilizing (s : Screen) : bool :=
  defined (captureTimerRef s) && negb (hasCapturedRef s).

Definition isCaptureTimer (t : nat * Callback) : bool :=
  match snd t with
  | CaptureTimer _ _ => true
  | _ => false
  end.

End Session.

(** ** Concrete inputs *)

Module Examples.

Import Num FaceRecognition FaceCapture.
Local Open Scope Q_scope.

Definition at_ (a b : Q) : option Landmark :=
  Some {| lm_x := Some a; lm_y := Some b; lm_position := None |}.

Definition box (l t w h : Q) : option Box :=
  Some {| box_left := Some l; box_top := Some t; box_width := Some w;
          box_height := Some h; box_origin := None; box_size := None |}.

Definition faceLandmarks : Landmarks :=
  {| leftEye := at_ 150 280; rightEye := at_ 250 282; noseBase := at_ 200 330;
     mouthLeft := at_ 165 370; mouthRight := at_ 236 371; mouthBottom := None;
     leftEar := None; rightEar := None; leftCheek := None; rightCheek := None |}.

(** A frontal face, eyes open, 200 pixels wide. *)
Definition frontalFace : FaceData :=
  {| frame := box 100 200 200 220; bounds := None;
     landmarks := Some faceLandmarks;
     smilingProbability := Some (3 # 100);
     leftEyeOpenProbability := Some (99 # 100);
     rightEyeOpenProbability := Some (98 # 100);
     headEulerAngleX := Some 1; headEulerAngleY := Some (- (35 # 10));
     headEulerAngleZ := Some 0;
     rotationX := None; rotationY := None; rotationZ := None |}.




(** One detection of [frontalFace], centred in a 400 x 620 photo. *)
Definition sighting : list Event := [PhotoTaken 400 620; Detected [frontalFace]].

(** Permission is granted, the start timer (0) runs the first detection
    and installs the interval (1), whose tick runs the second detection;
    the face is centred twice and the capture timer (2) is armed. *)
Definition untilStabilizing : list Event :=
  [Permission true; Fire 0%nat] ++ sighting ++ [Fire 1%nat] ++ sighting.

(** The capture timer fires and the capture completes. *)
Definition oneCapture : list Event := untilStabilizing ++ [Fire 2%nat; CaptureSucceeded].

(** The capture fails instead; the effect restarts detection (timer 3,
    interval 4), the face is seen again and a second capture timer (5)
    fires. *)
Definition failThenRetry : list Event :=
  untilStabilizing ++ [Fire 2%nat; CaptureFailed; Fire 3%nat] ++ sighting ++ [Fire 5%nat].

(** While the capture timer is pending the interval starts a third
    detection; the screen blurs while the detector is still working on the
    photo; the detector answers, a new capture timer (3) is armed and
    fires, and the capture completes. *)
Definition blurWhileDetecting : list Event :=
  untilStabilizing ++ [Fire 1%nat; PhotoTaken 400 620; Blur].

Definition captureAfterBlur : list Event :=
  blurWhileDetecting ++ [Detected [frontalFace]; Fire 3%nat; CaptureSucceeded].

Definition signedIn : FaceCheckIn.Ambient :=
  {| FaceCheckIn.amb_type := FaceCheckIn.checkin;
     FaceCheckIn.amb_token := Some "token";
     FaceCheckIn.amb_isAuthenticated := true;
     FaceCheckIn.amb_user := true;
     FaceCheckIn.amb_recoveredToken := None;
     FaceCheckIn.amb_location :=
       Some {| FaceCheckIn.loc_latitude := 24713552 # 1000000;
               FaceCheckIn.loc_longitude := 46675296 # 1000000 |};
     FaceCheckIn.amb_deviceFingerprint := Some "MIIBIjANBgkq" |}.

(** A device that already holds a key, a screen that generated a new one
    and captured a face, and a backend that answers 409, duplicate face. *)
Definition enrolledStore : gmap string string :=
  <["fingerprintPublicKey" := " OLDKEY "]> (<["biometricEnabled" := "true"]> ∅).

Definition newcomer : BiometricSetup.Setup :=
  {| BiometricSetup.biometricAvailable := true;
     BiometricSetup.isModal := false;
     BiometricSetup.registrationData :=
       Some {| BiometricSetup.reg_employeeNumber := "E-17";
               BiometricSetup.reg_email := "a@b.c";
               BiometricSetup.reg_password := "secret";
               BiometricSetup.reg_fullName := "A B" |};
     BiometricSetup.fingerprintPublicKey := Some "NEWKEY";
     BiometricSetup.fingerprintCompleted := true;
     BiometricSetup.faceData :=
       Some {| BiometricSetup.fs_faceId := Some "27a488313";
               BiometricSetup.fs_faceEmbedding := Some [1 # 10];
               BiometricSetup.fs_faceFeatures := None;
               BiometricSetup.fs_face := Some frontalFace |};
     BiometricSetup.capturedImageUri := None;
     BiometricSetup.faceCompleted := false |}.

Definition duplicateFace : BiometricSetup.External :=
  {| BiometricSetup.ext_embedding := None;
     BiometricSetup.ext_fetch := BiometricSetup.NotOk 409 (Some "الوجه مسجل مسبقاً");
     BiometricSetup.ext_requestTime := 800;
     BiometricSetup.ext_fallbackText := "registration failed" |}.

End Examples.

(** ** Concrete inputs for the services and the helpers *)

Module Samples.

(** An image text of 321 characters: 120, then one, then 200. *)
Definition head120 : string := string_of_list_ascii (repeat "A"%char 120).
Definition tail200 : string := string_of_list_ascii (repeat "B"%char 200).

(** The frame of a face 200 wide and 250 high in a photo of 1080 x 1920. *)
Definition faceFrame : FaceCrop.Frame :=
  {| FaceCrop.left := Some 100%Q; FaceCrop.originX := None; FaceCrop.x := None;
     FaceCrop.top := Some 200%Q; FaceCrop.originY := None; FaceCrop.y := None;
     FaceCrop.width := Some 200%Q; FaceCrop.height := Some 250%Q;
     FaceCrop.size := None; FaceCrop.right := None; FaceCrop.bottom := None |}.

(** A face box of 100 x 100 that lies beyond a photo of 1080 x 1920. *)
Definition farFrame : FaceCrop.Frame :=
  {| FaceCrop.left := Some 1200%Q; FaceCrop.originX := None; FaceCrop.x := None;
     FaceCrop.top := Some 2000%Q; FaceCrop.originY := None; FaceCrop.y := None;
     FaceCrop.width := Some 100%Q; FaceCrop.height := Some 100%Q;
     FaceCrop.size := None; FaceCrop.right := None; FaceCrop.bottom := None |}.

(** The features object of a capture of the frontal face. *)
Definition features : FaceFeatures :=
  {| ff_faceId := "27a488313"; ff_observation := Examples.frontalFace |}.

(** A capture result with a face id, an embedding and an image. *)
Definition captured : FaceCheckIn.CaptureResult :=
  {| FaceCheckIn.res_faceId := Some "27a488313";
     FaceCheckIn.res_faceEmbedding := Some [(1 # 10)%Q; (- (2 # 10))%Q];
     FaceCheckIn.res_faceData := Some [Examples.frontalFace];
     FaceCheckIn.res_faceFeatures := None;
     FaceCheckIn.res_imageBase64 := Some "data:image/jpeg;base64,AAAA" |}.

(** A face reported with [bounds] of the origin and size shape only. *)
Definition originFace : FaceData :=
  {| frame := None;
     bounds :=
       Some {| box_left := None; box_top := None; box_width := None; box_height := None;
               box_origin := Some {| pt_x := 100%Q; pt_y := 200%Q |};
               box_size := Some {| dim_width := 200%Q; dim_height := 220%Q |} |};
     landmarks := None;
     smilingProbability := None; leftEyeOpenProbability := None;
     rightEyeOpenProbability := None; headEulerAngleX := None;
     headEulerAngleY := None; headEulerAngleZ := None;
     rotationX := None; rotationY := None; rotationZ := None |}.

(** A device whose prompt is passed, a stored device key, a backend that
    accepts the key and then answers [getMe] with 401. *)
Definition employee : BiometricSetup.User :=
  {| BiometricSetup.user_email := Some "a@b.c";
     BiometricSetup.user_employeeNumber := Some "E-17";
     BiometricSetup.user_profileImage := None |}.

Definition accepted : BiometricSetup.ResponseData :=
  {| BiometricSetup.resp_token := Some "eyJhbGciOi"; BiometricSetup.resp_user := Some employee |}.

Definition promptPassed : Biometrics.Device :=
  {| Biometrics.isIOS := false;
     Biometrics.sensor := Biometrics.SensorResult true (Some "Biometrics");
     Biometrics.scanner := Biometrics.ScannerResult false;
     Biometrics.prompt :=
       Biometrics.PromptResolved
         (Some {| Biometrics.prompt_success := true; Biometrics.prompt_error := None |});
     Biometrics.scan := Biometrics.Scanned |}.

Definition unauthorizedGetMe : BiometricLogin.World :=
  {| BiometricLogin.biometricAvailable := true;
     BiometricLogin.device := promptPassed;
     BiometricLogin.existingKey := (false, None);
     BiometricLogin.fingerprintLogin := Api.FetchOk accepted;
     BiometricLogin.rejected := false;
     BiometricLogin.getMe := Api.Failed (Some 401%Z);
     BiometricLogin.passwordLogin := Api.Failed None;
     BiometricLogin.passwordLoginMessage := None |}.

Definition keyStore : gmap string string := <["fingerprintPublicKey" := "MIIBIjANBgkq"]> ∅.
(** A login by employee number that the backend accepts, on a device where
    an email address was saved before; then a device without a key whose
    prompt is passed. *)
Definition byEmployeeNumber : PasswordLogin.World :=
  {| PasswordLogin.biometricAvailable := false;
     PasswordLogin.loginReply := PasswordLogin.LoginReplied None accepted;
     PasswordLogin.rejected := false;
     PasswordLogin.rejectionReason := None;
     PasswordLogin.faceIdEnabled := false;
     PasswordLogin.getMe := Api.Replied None accepted |}.

Definition earlierEmail : gmap string string := <["biometricEmail" := "old@b.c"]> ∅.

Definition noDeviceKey : BiometricLogin.World :=
  {| BiometricLogin.biometricAvailable := true;
     BiometricLogin.device := promptPassed;
     BiometricLogin.existingKey := (false, None);
     BiometricLogin.fingerprintLogin := Api.FetchNotOk 401 None;
     BiometricLogin.rejected := false;
     BiometricLogin.getMe := Api.Failed None;
     BiometricLogin.passwordLogin := Api.Failed (Some 401%Z);
     BiometricLogin.passwordLoginMessage := None |}.

End Samples.

(** * Properties *)

(** ** Strings *)

Module StringFacts.

Lemma append_String (x : ascii) (s r : string) : String x s +:+ r = String x (s +:+ r).
Proof. reflexivity. Qed.

Lemma append_empty_r (s : string) : s +:+ "" = s.
Proof.
  induction s as [|x s IH]; [reflexivity|]. rewrite append_String, IH. reflexivity.
Qed.

Lemma append_cons_assoc (ds : string) (c : ascii) (rest : string) :
  (ds +:+ String c "") +:+ rest = ds +:+ String c rest.
Proof.
  induction ds as [|x ds IH]; [reflexivity|]. rewrite !append_String, IH. reflexivity.
Qed.

Lemma length_snoc (ds : string) (c : ascii) :
  String.length (ds +:+ String c "") = S (String.length ds).
Proof.
  induction ds as [|x ds IH]; [reflexivity|].
  rewrite append_String. cbn [String.length]. rewrite IH. reflexivity.
Qed.

Lemma length_append (a b : string) :
  String.length (a +:+ b) = String.length a + String.length b.
Proof.
  induction a as [|x a IH]; [reflexivity|].
  rewrite append_String. cbn [String.length]. rewrite IH. reflexivity.
Qed.

Lemma append_nonempty_l (a b : string) : a <> "" -> a +:+ b <> "".
Proof. destruct a; [congruence|discriminate]. Qed.

Lemma append_nonempty_r (a b : string) : b <> "" -> a +:+ b <> "".
Proof.
  intros H. destruct a; [exact H|discriminate].
Qed.

Lemma truthy_Some (o : option string) (k : string) : Str.truthy o = Some k -> o = Some k.
Proof.
  destruct o as [s|]; [|discriminate]. unfold Str.truthy.
  destruct (String.eqb s ""); [discriminate|]. intros [= <-]. reflexivity.
Qed.

Lemma truthy_idem (o : option string) (k : string) :
  Str.truthy o = Some k -> Str.truthy (Some k) = Some k.
Proof.
  intros H. pose proof (truthy_Some o k H) as ->. exact H.
Qed.

Lemma truthy_nonempty (o : option string) (v : string) : Str.truthy o = Some v -> v <> "".
Proof.
  destruct o as [s|]; [|discriminate]. unfold Str.truthy.
  destruct (String.eqb s "") eqn:E; [discriminate|].
  intros [= <-]. apply String.eqb_neq. exact E.
Qed.

End StringFacts.

(** ** Comparisons of numbers *)

Module NumFacts.
Import Num.
Local Open Scope Q_scope.

Lemma leb_true (a b : Q) : leb a b = true <-> a <= b.
Proof. apply Qle_bool_iff. Qed.

Lemma leb_false (a b : Q) : leb a b = false <-> b < a.
Proof.
  unfold leb. split; intros H.
  - apply Qnot_le_lt. intros Hle. apply Qle_bool_iff in Hle. congruence.
  - destruct (Qle_bool a b) eqn:E; [|reflexivity].
    apply Qle_bool_iff in E. exfalso. apply (Qlt_not_le _ _ H E).
Qed.

Lemma ltb_true (a b : Q) : ltb a b = true <-> a < b.
Proof. unfold ltb. rewrite negb_true_iff. apply leb_false. Qed.

Lemma ltb_false (a b : Q) : ltb a b = false <-> b <= a.
Proof. unfold ltb. rewrite negb_false_iff. apply leb_true. Qed.

Lemma is_zero_true (a : Q) : is_zero a = true <-> a == 0.
Proof. apply Qeq_bool_iff. Qed.

Lemma is_zero_false (a : Q) : is_zero a = false <-> ~ a == 0.
Proof.
  unfold is_zero. split; intros H.
  - intros E. apply Qeq_bool_iff in E. congruence.
  - destruct (Qeq_bool a 0) eqn:E; [|reflexivity]. apply Qeq_bool_iff in E. tauto.
Qed.

(** The comparisons decide the order of [Q]. *)
Ltac order_cases :=
  repeat match goal with
    | H : leb _ _ = true |- _ => apply leb_true in H
    | H : leb _ _ = false |- _ => apply leb_false in H
    | H : ltb _ _ = true |- _ => apply ltb_true in H
    | H : ltb _ _ = false |- _ => apply ltb_false in H
    | H : Qle_bool _ _ = true |- _ => apply Qle_bool_iff in H
    | H : Qle_bool _ _ = false |- _ => apply leb_false in H
    | H : is_zero _ = true |- _ => apply is_zero_true in H
    | H : is_zero _ = false |- _ => apply is_zero_false in H
    | H : Qeq_bool _ _ = true |- _ => apply Qeq_bool_iff in H
    | H : Qeq_bool _ _ = false |- _ => apply is_zero_false in H
    end.


Lemma abs_le (a k : Q) : abs a <= k <-> - k <= a /\ a <= k.
Proof.
  unfold abs. destruct (ltb a 0) eqn:E; order_cases; lra.
Qed.

Lemma max_ge_1 (h : Q) : 1 <= max h 1.
Proof. unfold max. destruct (ltb h 1) eqn:E; order_cases; lra. Qed.


Lemma or_num_nonzero (a : option Q) (d : Q) : ~ d == 0 -> ~ or_num a d == 0.
Proof.
  intros Hd. unfold or_num, truthy. destruct a as [v|]; simpl; [|exact Hd].
  destruct (is_zero v) eqn:E; simpl; order_cases; assumption.
Qed.

End NumFacts.

(** ** The quality gate *)

Module QualityFacts.
Import Num FaceRecognition NumFacts.
Local Open Scope Q_scope.








End QualityFacts.


(** ** Centring *)

Module CenterFacts.
Import Num FaceRecognition NumFacts.
Local Open Scope Q_scope.

(** A percentage offset [a / W * 100] compared with a bound, for a
    positive dimension [W]. *)
Lemma pct_le (a W c : Q) : 0 < W -> (a / W * 100 <= c <-> 100 * a <= c * W).
Proof.
  intros HW. assert (E : a / W * W == a) by (field; lra).
  split; intros H; nra.
Qed.

Lemma pct_ge (a W c : Q) : 0 < W -> (c <= a / W * 100 <-> c * W <= 100 * a).
Proof.
  intros HW. assert (E : a / W * W == a) by (field; lra).
  split; intros H; nra.
Qed.

Lemma div_positive (a W : Q) : 0 < W -> div a W = XFin (a / W).
Proof.
  intros HW. unfold div.
  assert (E : is_zero W = false) by (apply is_zero_false; lra).
  rewrite E. reflexivity.
Qed.

(** The offset is within the threshold exactly when the centre of the face
    lies in the middle half of the dimension. *)
Lemma within_threshold (c W : Q) :
  0 < W ->
  (xleb (xabs (xscale (div (c - W / 2) W) 100)) threshold = true
   <-> W <= 4 * c /\ 4 * c <= 3 * W).
Proof.
  intros HW. rewrite div_positive by exact HW. simpl.
  unfold threshold. rewrite leb_true, abs_le.
  rewrite pct_le, pct_ge by exact HW.
  assert (E : W / 2 == W * (1 # 2)) by field.
  split; intros [H1 H2]; split; lra.
Qed.

Lemma beyond_threshold (c W : Q) :
  0 < W ->
  (xgtb (xscale (div (c - W / 2) W) 100) threshold = true <-> 3 * W < 4 * c).
Proof.
  intros HW. rewrite div_positive by exact HW. simpl. unfold gtb, threshold.
  assert (E : W / 2 == W * (1 # 2)) by field.
  rewrite ltb_true. split; intros H.
  - apply Qnot_le_lt. intros Hle. apply (Qlt_not_le _ _ H).
    apply pct_le; [exact HW | lra].
  - apply Qnot_le_lt. intros Hle. apply pct_le in Hle; [lra | exact HW].
Qed.

Lemma below_threshold (c W : Q) :
  0 < W ->
  (xltb (xscale (div (c - W / 2) W) 100) (- threshold) = true <-> 4 * c < W).
Proof.
  intros HW. rewrite div_positive by exact HW. simpl. unfold threshold.
  assert (E : W / 2 == W * (1 # 2)) by field.
  rewrite ltb_true. split; intros H.
  - apply Qnot_le_lt. intros Hle. apply (Qlt_not_le _ _ H).
    apply pct_ge; [exact HW | lra].
  - apply Qnot_le_lt. intros Hle. apply pct_ge in Hle; [lra | exact HW].
Qed.

(** Without a width or without a height the offsets are not numbers
    within the threshold, and the face is not centred. *)
Lemma degenerate_frame_not_centred (face : FaceData) (W H : Q) :
  is_zero W = true \/ is_zero H = true -> centered (isFaceCentered face W H) = false.
Proof.
  unfold isFaceCentered, div. cbn [centered].
  intros [E|E]; rewrite E;
    repeat match goal with
      | |- context [if ?b then _ else _] => destruct b
      end;
    cbn; rewrite ?andb_false_r; reflexivity.
Qed.






End CenterFacts.


(** ** The face id hash *)

Module HashFacts.
Import Num Text FaceRecognition.
Local Open Scope Z_scope.

Lemma ToInt32_shift (z : Z) : exists k, ToInt32 z = z - 2 ^ 32 * k.
Proof.
  exists ((z + 2 ^ 31) / 2 ^ 32). unfold ToInt32.
  rewrite Z.mod_eq by lia. lia.
Qed.

Lemma ToInt32_periodic (z k : Z) : ToInt32 (z - 2 ^ 32 * k) = ToInt32 z.
Proof.
  unfold ToInt32. f_equal.
  replace (z - 2 ^ 32 * k + 2 ^ 31) with (z + 2 ^ 31 + (- k) * 2 ^ 32) by lia.
  apply Z_mod_plus_full.
Qed.

Lemma ToInt32_range (z : Z) : - 2 ^ 31 <= ToInt32 z < 2 ^ 31.
Proof.
  unfold ToInt32. pose proof (Z.mod_pos_bound (z + 2 ^ 31) (2 ^ 32) ltac:(lia)). lia.
Qed.

(** One step of the code's reducer agrees, modulo 2^32, with one step of
    the wrapped polynomial hash. *)
Lemma hashStep_polyStep (acc : Z) (c : ascii) :
  ToInt32 (hashStep acc c) = Spec.polyStep (ToInt32 acc) c.
Proof.
  unfold hashStep, Spec.polyStep, shl5.
  destruct (ToInt32_shift acc) as [k1 E1].
  destruct (ToInt32_shift (ToInt32 acc * 2 ^ 5)) as [k2 E2].
  rewrite E2, E1.
  replace ((acc - 2 ^ 32 * k1) * 2 ^ 5 - 2 ^ 32 * k2 - acc + charCode c)
    with (acc * 31 + charCode c - 2 ^ 32 * (32 * k1 + k2)) by lia.
  replace ((acc - 2 ^ 32 * k1) * 31 + charCode c)
    with (acc * 31 + charCode c - 2 ^ 32 * (31 * k1)) by lia.
  rewrite !ToInt32_periodic. reflexivity.
Qed.

Lemma fold_hash_poly (l : list ascii) (acc : Z) :
  ToInt32 (fold_left hashStep l acc) = fold_left Spec.polyStep l (ToInt32 acc).
Proof.
  revert acc. induction l as [|c l IH]; intros acc; simpl; [reflexivity|].
  rewrite IH, hashStep_polyStep. reflexivity.
Qed.

Lemma hashString_polyHash (s : string) : ToInt32 (hashString s) = Spec.polyHash s.
Proof. unfold hashString, Spec.polyHash. rewrite fold_hash_poly. reflexivity. Qed.

(** The accumulator grows by less than 2^32 per character: on a feature
    string it stays far below 2^53, where doubles are exact. *)
Lemma charCode_range (c : ascii) : 0 <= charCode c < 256.
Proof.
  unfold charCode. pose proof (N_ascii_bounded c). lia.
Qed.

Lemma fold_hash_bound (l : list ascii) (acc : Z) :
  Z.abs (fold_left hashStep l acc) <= Z.abs acc + 2 ^ 32 * Z.of_nat (length l).
Proof.
  revert acc. induction l as [|c l IH]; intros acc; simpl length; simpl fold_left; [lia|].
  specialize (IH (hashStep acc c)).
  assert (Z.abs (hashStep acc c) <= Z.abs acc + 2 ^ 32).
  { unfold hashStep, shl5.
    pose proof (ToInt32_range (ToInt32 acc * 2 ^ 5)). pose proof (charCode_range c). lia. }
  lia.
Qed.

Lemma length_chars (s : string) : length (list_ascii_of_string s) = String.length s.
Proof. induction s as [|a s IH]; simpl; [reflexivity | f_equal; exact IH]. Qed.

Lemma hashString_bound (s : string) :
  Z.abs (hashString s) <= 2 ^ 32 * Z.of_nat (String.length s).
Proof.
  unfold hashString. pose proof (fold_hash_bound (list_ascii_of_string s) 0) as H.
  rewrite length_chars in H. lia.
Qed.

(** The shift, whose operand is converted to 32 bits first, is the
    product by 32 reduced to 32 bits. *)
Lemma shl5_wraps_product (acc : Z) : shl5 acc = ToInt32 (acc * 32).
Proof.
  unfold shl5. destruct (ToInt32_shift acc) as [k E]. rewrite E.
  change (2 ^ 5) with 32.
  replace ((acc - 2 ^ 32 * k) * 32) with (acc * 32 - 2 ^ 32 * (32 * k)) by lia.
  apply ToInt32_periodic.
Qed.

Lemma fold_hash_shift (l : list ascii) (acc : Z) :
  fold_left hashStep l acc = fold_left Spec.shiftStep l acc.
Proof.
  revert acc. induction l as [|c l IH]; intros acc; [reflexivity|].
  cbn [fold_left]. rewrite IH. unfold hashStep, Spec.shiftStep.
  rewrite shl5_wraps_product. reflexivity.
Qed.

Lemma hashString_shiftHash (s : string) : hashString s = Spec.shiftHash s.
Proof. apply fold_hash_shift. Qed.

Lemma join_commaSeparated (texts : list string) : join "," texts = Spec.commaSeparated texts.
Proof.
  induction texts as [|t rest IH]; [reflexivity|].
  cbn [join Spec.commaSeparated]. destruct rest as [|u rest]; [reflexivity|].
  rewrite IH. reflexivity.
Qed.

End HashFacts.

(** ** Numerals *)

Module NumeralFacts.
Import Num Text FaceRecognition StringFacts.
Local Open Scope Z_scope.

Lemma chars_append (a b : string) :
  list_ascii_of_string (a +:+ b) = (list_ascii_of_string a ++ list_ascii_of_string b)%list.
Proof.
  induction a as [|x a IH]; [reflexivity|].
  rewrite append_String. cbn [list_ascii_of_string]. rewrite IH. reflexivity.
Qed.

Lemma digit_char_charCode (d : Z) :
  0 <= d < 16 -> charCode (digit_char d) = if d <? 10 then 48 + d else 87 + d.
Proof.
  intros H.
  assert (E : exists k, d = Z.of_nat k /\ (k < 16)%nat) by (exists (Z.to_nat d); lia).
  destruct E as (k & -> & Hk).
  do 16 (destruct k as [|k]; [vm_compute; reflexivity|]). lia.
Qed.

(** A digit that [digit_char] prints reads back in every radix above it,
    and is neither a point nor a minus sign. *)
Lemma digitOf_digit_char (radix d : Z) :
  0 <= d < radix -> radix <= 16 ->
  Spec.digitOf radix (digit_char d) = Some d
  /\ Ascii.eqb (digit_char d) "." = false
  /\ digit_char d <> "-"%char.
Proof.
  intros Hd Hr.
  pose proof (digit_char_charCode d ltac:(lia)) as Hc.
  split; [|split].
  - unfold Spec.digitOf. rewrite Hc. destruct (d <? 10) eqn:E.
    + apply Z.ltb_lt in E.
      replace ((48 <=? 48 + d) && (48 + d <=? 57)) with true
        by (symmetry; apply andb_true_iff; split; apply Z.leb_le; lia).
      replace ((0 <=? 48 + d - 48) && (48 + d - 48 <? radix)) with true
        by (symmetry; apply andb_true_iff; split; [apply Z.leb_le|apply Z.ltb_lt]; lia).
      f_equal. lia.
    + apply Z.ltb_ge in E.
      replace ((48 <=? 87 + d) && (87 + d <=? 57)) with false
        by (symmetry; apply andb_false_iff; right; apply Z.leb_gt; lia).
      replace ((97 <=? 87 + d) && (87 + d <=? 102)) with true
        by (symmetry; apply andb_true_iff; split; apply Z.leb_le; lia).
      replace ((0 <=? 87 + d - 87) && (87 + d - 87 <? radix)) with true
        by (symmetry; apply andb_true_iff; split; [apply Z.leb_le|apply Z.ltb_lt]; lia).
      f_equal. lia.
  - destruct (Ascii.eqb_spec (digit_char d) ".") as [E|E]; [|reflexivity].
    rewrite E in Hc. change (charCode ".") with 46 in Hc. destruct (d <? 10); lia.
  - intros E. rewrite E in Hc. change (charCode "-") with 45 in Hc. destruct (d <? 10); lia.
Qed.

(** The digits [digits_aux] puts before [rest] read as [n]. *)
Lemma digits_aux_reads (radix : Z) (fuel : nat) :
  2 <= radix <= 16 ->
  forall (n : Z) (rest : string),
    0 <= n < radix ^ Z.of_nat (S fuel) ->
    exists ds : list ascii,
      list_ascii_of_string (digits_aux (S fuel) radix n rest)
      = (ds ++ list_ascii_of_string rest)%list
      /\ ds <> []
      /\ Forall (Spec.isDigit radix) ds
      /\ forall (tail : list ascii) (acc : Z),
           Spec.digitsOf radix (ds ++ tail) acc
           = Spec.digitsOf radix tail (acc * radix ^ Z.of_nat (length ds) + n).
Proof.
  intros Hr. induction fuel as [|k IH]; intros n rest Hn;
    assert (Hd : 0 <= n mod radix < radix) by (apply Z.mod_pos_bound; lia);
    pose proof (Z.div_mod n radix ltac:(lia)) as Hdm;
    destruct (digitOf_digit_char radix (n mod radix) Hd ltac:(lia)) as (D1 & D2 & D3);
    cbn [digits_aux]; destruct (n / radix =? 0) eqn:E.
  1,3: apply Z.eqb_eq in E;
      exists [digit_char (n mod radix)];
      (split; [reflexivity|]); (split; [discriminate|]); split;
      [ constructor; [split; [rewrite D1; eexists; reflexivity|split; assumption]|constructor]
      | intros tail acc; cbn [app Spec.digitsOf length]; rewrite D1; f_equal;
        change (radix ^ Z.of_nat 1) with (radix ^ 1); rewrite Z.pow_1_r; lia ].
  - apply Z.eqb_neq in E. change (radix ^ Z.of_nat 1) with (radix ^ 1) in Hn.
    rewrite Z.pow_1_r in Hn. exfalso. apply E. apply Z.div_small. lia.
  - apply Z.eqb_neq in E.
    assert (Hq : 0 <= n / radix < radix ^ Z.of_nat (S k)).
    { split; [apply Z.div_pos; lia|].
      apply Z.div_lt_upper_bound; [lia|].
      replace (radix * radix ^ Z.of_nat (S k)) with (radix ^ Z.of_nat (S (S k))); [lia|].
      rewrite (Nat2Z.inj_succ (S k)), Z.pow_succ_r by lia. reflexivity. }
    destruct (IH (n / radix) (String (digit_char (n mod radix)) rest) Hq)
      as (ds & Eds & Hne & Hall & Hval).
    exists (ds ++ [digit_char (n mod radix)])%list.
    split; [etransitivity; [exact Eds|]; rewrite <- app_assoc; reflexivity|].
    split; [destruct ds; [congruence|discriminate]|].
    split.
    { apply Forall_app. split; [exact Hall|].
      constructor; [split; [rewrite D1; eexists; reflexivity|split; assumption]|constructor]. }
    intros tail acc. rewrite <- app_assoc, Hval. cbn [app Spec.digitsOf]. rewrite D1.
    f_equal. rewrite length_app. cbn [length]. rewrite Nat.add_1_r.
    rewrite Nat2Z.inj_succ, Z.pow_succ_r by lia.
    generalize (radix ^ Z.of_nat (length ds)). intros p. nia.
Qed.

(** [n.toString(radix)] is a numeral that reads as [n]. *)
Lemma to_radix_reads (radix n : Z) :
  2 <= radix <= 16 -> 0 <= n ->
  exists ds : list ascii,
    list_ascii_of_string (to_radix radix n) = ds
    /\ Forall (Spec.isDigit radix) ds
    /\ Spec.numeral radix ds = Some n.
Proof.
  intros Hr Hn. unfold to_radix.
  assert (Hb : 0 <= n < radix ^ Z.of_nat (S (Z.to_nat (Z.log2 n)))).
  { split; [exact Hn|].
    destruct (Z.eq_dec n 0) as [->|Hne]; [apply Z.pow_pos_nonneg; lia|].
    pose proof (Z.log2_spec n ltac:(lia)) as [_ Hlt].
    pose proof (Z.log2_nonneg n) as Hl.
    rewrite Nat2Z.inj_succ, Z2Nat.id by exact Hl.
    eapply Z.lt_le_trans; [exact Hlt|].
    apply Z.pow_le_mono_l. lia. }
  destruct (digits_aux_reads radix _ Hr n "" Hb) as (ds & Eds & Hne & Hall & Hval).
  exists ds. cbn [list_ascii_of_string] in Eds. rewrite app_nil_r in Eds.
  split; [exact Eds|]. split; [exact Hall|].
  unfold Spec.numeral. destruct ds as [|c ds]; [congruence|].
  specialize (Hval [] 0). rewrite app_nil_r in Hval. rewrite Hval. reflexivity.
Qed.

(** [pad d m] is [d] decimal digits that read as [m mod 10^d]. *)
Lemma pad_reads (d : nat) :
  forall m : Z,
    exists ds : list ascii,
      list_ascii_of_string (pad d m) = ds
      /\ length ds = d
      /\ Forall (Spec.isDigit 10) ds
      /\ forall (tail : list ascii) (acc : Z),
           Spec.digitsOf 10 (ds ++ tail) acc
           = Spec.digitsOf 10 tail (acc * 10 ^ Z.of_nat d + m mod 10 ^ Z.of_nat d).
Proof.
  induction d as [|d IH]; intros m.
  - exists []. repeat split; [constructor|]. intros tail acc. cbn [app]. f_equal.
    change (10 ^ Z.of_nat 0) with 1. rewrite Z.mod_1_r. lia.
  - destruct (IH (m / 10)) as (ds & Eds & Hlen & Hall & Hval).
    assert (Hd : 0 <= m mod 10 < 10) by (apply Z.mod_pos_bound; lia).
    destruct (digitOf_digit_char 10 (m mod 10) Hd ltac:(lia)) as (D1 & D2 & D3).
    exists (ds ++ [digit_char (m mod 10)])%list. cbn [pad].
    split; [rewrite chars_append, Eds; reflexivity|].
    split; [rewrite length_app, Hlen; cbn [length]; lia|].
    split.
    { apply Forall_app. split; [exact Hall|].
      constructor; [split; [rewrite D1; eexists; reflexivity|split; assumption]|constructor]. }
    intros tail acc. rewrite <- app_assoc, Hval. cbn [app Spec.digitsOf]. rewrite D1.
    f_equal. rewrite Nat2Z.inj_succ, Z.pow_succ_r by lia.
    assert (Hp : 0 < 10 ^ Z.of_nat d) by (apply Z.pow_pos_nonneg; lia).
    rewrite (Z.rem_mul_r m 10 (10 ^ Z.of_nat d)) by lia.
    generalize ((m / 10) mod 10 ^ Z.of_nat d). generalize (10 ^ Z.of_nat d).
    intros p r. lia.
Qed.

Lemma uptoPoint_digits (radix : Z) (ds rest : list ascii) :
  Forall (Spec.isDigit radix) ds ->
  Spec.uptoPoint (ds ++ "."%char :: rest) = (ds, Some rest).
Proof.
  induction 1 as [|c ds (_ & Hc & _) _ IH]; [reflexivity|].
  cbn [app Spec.uptoPoint]. rewrite Hc, IH. reflexivity.
Qed.

(** A text that starts with a digit carries no sign. *)
Lemma unsigned_digits (radix : Z) (c : ascii) (cs : list ascii) :
  Spec.isDigit radix c ->
  match c :: cs with
  | "-"%char :: rest => (true, rest)
  | _ => (false, c :: cs)
  end = (false, c :: cs).
Proof.
  intros (_ & _ & Hc).
  destruct c as [[] [] [] [] [] [] [] []]; try reflexivity. congruence.
Qed.

(** The text of [toFixed] reads as a decimal with [d] digits after the
    point whose value is the rounded magnitude with its sign. *)
Lemma fixedText_reads (d : nat) (neg : bool) (n : Z) :
  (0 < d)%nat -> 0 <= n ->
  exists v : Q,
    Spec.decimal (fixedText d neg n) = Some ((if neg then - v else v)%Q, d)
    /\ (v == inject_Z n / inject_Z (10 ^ Z.of_nat d))%Q.
Proof.
  intros Hd Hn.
  assert (Hp : 0 < 10 ^ Z.of_nat d) by (apply Z.pow_pos_nonneg; lia).
  destruct (to_radix_reads 10 (n / 10 ^ Z.of_nat d) ltac:(lia) ltac:(apply Z.div_pos; lia))
    as (whole & Ew & Hw & Vw).
  destruct (pad_reads d (n mod 10 ^ Z.of_nat d)) as (fraction & Ef & Lf & Hf & Vf).
  exists (inject_Z (n / 10 ^ Z.of_nat d)
          + inject_Z (n mod 10 ^ Z.of_nat d) / inject_Z (10 ^ Z.of_nat d))%Q.
  split.
  - unfold Spec.decimal, fixedText. rewrite !chars_append, Ew, Ef.
    change (list_ascii_of_string ".") with ["."%char].
    assert (Hbody : Spec.uptoPoint (whole ++ ["."%char] ++ fraction) = (whole, Some fraction))
      by (apply (uptoPoint_digits 10); exact Hw).
    assert (Vf' : Spec.numeral 10 fraction = Some (n mod 10 ^ Z.of_nat d)).
    { unfold Spec.numeral. destruct fraction as [|c fr]; [cbn [length] in Lf; lia|].
      specialize (Vf [] 0). rewrite app_nil_r in Vf. rewrite Vf.
      cbn [Spec.digitsOf]. f_equal. rewrite Z.mod_mod by lia. lia. }
    destruct neg.
    + change (list_ascii_of_string "-") with ["-"%char]. cbn [app].
      cbn [app] in Hbody. rewrite Hbody, Vw, Vf', Lf. reflexivity.
    + change (list_ascii_of_string "") with (@nil ascii). cbn [app].
      destruct whole as [|c whole]; [discriminate Vw|].
      inversion Hw as [|? ? Hc Hrest]; subst.
      cbn [app]. rewrite (unsigned_digits 10 c _ Hc).
      cbn [app] in Hbody. rewrite Hbody, Vw, Vf', Lf. reflexivity.
  - pose proof (Z.div_mod n (10 ^ Z.of_nat d) ltac:(lia)) as E.
    rewrite E at 3. rewrite inject_Z_plus, inject_Z_mult. field.
    intros H0.
    assert (Hq : (inject_Z 0 < inject_Z (10 ^ Z.of_nat d))%Q) by (rewrite <- Zlt_Qlt; exact Hp).
    change (inject_Z 0) with 0%Q in Hq. lra.
Qed.

End NumeralFacts.

(** ** Rounding to four decimal digits *)

Module RoundingFacts.
Import Num Text FaceRecognition NumFacts NumeralFacts.
Local Open Scope Q_scope.

Lemma Qfloor_nonneg (a : Q) : 0 <= a -> (0 <= Qfloor a)%Z.
Proof. intros H. apply (Qfloor_resp_le 0 a) in H. exact H. Qed.

(** The printed magnitude of a rational feature is the nearest multiple of
    10^-4. *)
Lemma fixed4_rat (q : Q) :
  let n := Qfloor (abs q * inject_Z (10 ^ 4) + (1 # 2)) in
  (0 <= n)%Z
  /\ forall v : Q, v == inject_Z n / inject_Z (10 ^ Z.of_nat 4) ->
       Spec.rounds4 (Rat q) (if ltb q 0 then - v else v).
Proof.
  intros n.
  pose proof (Qfloor_le (abs q * inject_Z (10 ^ 4) + (1 # 2))) as H1.
  pose proof (Qlt_floor (abs q * inject_Z (10 ^ 4) + (1 # 2))) as H2.
  fold n in H1, H2. rewrite inject_Z_plus in H2.
  change (inject_Z (10 ^ 4)) with 10000 in H1, H2. change (inject_Z 1) with 1 in H2.
  assert (Ha : 0 <= abs q) by (unfold abs; destruct (ltb q 0) eqn:E; order_cases; lra).
  split.
  - apply Qfloor_nonneg. change (inject_Z (10 ^ 4)) with 10000. lra.
  - intros v Ev. change (inject_Z (10 ^ Z.of_nat 4)) with 10000 in Ev.
    assert (Ev' : v * 10000 == inject_Z n) by (rewrite Ev; field).
    unfold Spec.rounds4. apply Qabs_Qle_condition.
    unfold abs in H1, H2. destruct (ltb q 0) eqn:E; order_cases; split; lra.
Qed.

Lemma square_pos (w : Q) : ~ w == 0 -> 0 < w * w.
Proof.
  intros Hw. destruct (Qlt_le_dec 0 w) as [H|H]; [nra|].
  destruct (Qlt_le_dec w 0) as [H'|H']; [nra|]. exfalso. apply Hw. lra.
Qed.

(** The printed magnitude of the eye distance is the nearest multiple of
    10^-4, by comparison of the squares. *)
Lemma sqrt_rounding (s w : Q) :
  0 <= s -> ~ w == 0 ->
  let n := ((Z.sqrt (Qfloor (400000000 * s / (w * w))) + 1) / 2)%Z in
  (0 <= n)%Z
  /\ (n = 0%Z
      \/ (2 * inject_Z n - 1) * (2 * inject_Z n - 1) * (w * w) <= 400000000 * s)
  /\ 400000000 * s <= (2 * inject_Z n + 1) * (2 * inject_Z n + 1) * (w * w)
  /\ (s == 0 -> n = 0%Z).
Proof.
  intros Hs Hw n.
  pose proof (square_pos w Hw) as Hww.
  set (y := 400000000 * s / (w * w)) in *.
  assert (Ey : y * (w * w) == 400000000 * s) by (unfold y; field; lra).
  assert (Hy : 0 <= y) by (unfold y; apply Qle_shift_div_l; lra).
  pose proof (Qfloor_le y) as HF1. pose proof (Qlt_floor y) as HF2.
  pose proof (Qfloor_nonneg y Hy) as HF0.
  set (F := Qfloor y) in *.
  pose proof (Z.sqrt_spec F HF0) as [Hr1 Hr2]. pose proof (Z.sqrt_nonneg F) as Hr0.
  set (r := Z.sqrt F) in *.
  pose proof (Z.div_mod (r + 1) 2 ltac:(lia)) as Hdm.
  pose proof (Z.mod_pos_bound (r + 1) 2 ltac:(lia)) as Hm.
  fold n in Hdm.
  assert (Hn : (0 <= n)%Z) by lia.
  split; [exact Hn|]. split; [|split].
  - destruct (Z.eq_dec n 0%Z) as [E|E]; [left; exact E|right].
    assert (Hz : ((2 * n + - (1)) * (2 * n + - (1)) <= F)%Z) by nia.
    rewrite Zle_Qle in Hz. rewrite inject_Z_mult, inject_Z_plus, inject_Z_mult in Hz.
    change (inject_Z 2) with 2 in Hz. change (inject_Z (- (1))) with (- (1)) in Hz.
    assert (Hq : (2 * inject_Z n - 1) * (2 * inject_Z n - 1) * (w * w) <= y * (w * w)).
    { apply Qmult_le_compat_r; lra. }
    lra.
  - assert (Hz : (F + 1 <= (2 * n + 1) * (2 * n + 1))%Z) by nia.
    rewrite Zle_Qle in Hz. rewrite inject_Z_mult, !inject_Z_plus, inject_Z_mult in Hz.
    change (inject_Z 2) with 2 in Hz. change (inject_Z 1) with 1 in Hz.
    rewrite inject_Z_plus in HF2. change (inject_Z 1) with 1 in HF2.
    assert (Hq : y * (w * w) <= (2 * inject_Z n + 1) * (2 * inject_Z n + 1) * (w * w)).
    { apply Qmult_le_compat_r; lra. }
    lra.
  - intros E0.
    assert (Ey0 : y == 0) by (unfold y; rewrite E0; field; lra).
    assert (EF : F = 0%Z) by (unfold F; rewrite (Qfloor_comp _ _ Ey0); reflexivity).
    subst n r. rewrite EF. reflexivity.
Qed.

(** Every feature of the generator prints as a decimal with four digits
    after the point that is its value rounded to four decimal digits. *)
Lemma toFixed4_rounds (f : feature) :
  Spec.properFeature f ->
  exists v : Q, Spec.decimal (toFixed4 f) = Some (v, 4%nat) /\ Spec.rounds4 f v.
Proof.
  destruct f as [q|s w]; unfold toFixed4, fixed4; intros Hf.
  - destruct (fixed4_rat q) as [Hn Hr].
    destruct (fixedText_reads 4 (ltb q 0) _ ltac:(lia) Hn) as (v & Ed & Ev).
    eexists. split; [exact Ed|]. apply Hr. exact Ev.
  - destruct Hf as [Hs Hw].
    destruct (sqrt_rounding s w Hs Hw) as (Hn & Hlo & Hhi & Hzero).
    set (n := ((Z.sqrt (Qfloor (400000000 * s / (w * w))) + 1) / 2)%Z) in *.
    destruct (fixedText_reads 4 (ltb w 0 && ltb 0 s) n ltac:(lia) Hn) as (v & Ed & Ev).
    eexists. split; [exact Ed|].
    change (inject_Z (10 ^ Z.of_nat 4)) with 10000 in Ev.
    assert (Ev' : v * 10000 == inject_Z n) by (rewrite Ev; field).
    assert (Hv : 0 <= v).
    { rewrite Zle_Qle in Hn. change (inject_Z 0) with 0 in Hn. lra. }
    pose proof (square_pos w Hw) as Hww.
    assert (Ha : Qabs (if ltb w 0 && ltb 0 s then - v else v) == v).
    { destruct (ltb w 0 && ltb 0 s); [rewrite Qabs_opp|]; apply Qabs_pos; exact Hv. }
    unfold Spec.rounds4. rewrite Ha.
    assert (Elo : (v - (1 # 20000)) * (v - (1 # 20000)) * (w * w) * 400000000
                  == (2 * inject_Z n - 1) * (2 * inject_Z n - 1) * (w * w))
      by (rewrite <- Ev'; ring).
    assert (Ehi : (v + (1 # 20000)) * (v + (1 # 20000)) * (w * w) * 400000000
                  == (2 * inject_Z n + 1) * (2 * inject_Z n + 1) * (w * w))
      by (rewrite <- Ev'; ring).
    split; [|split].
    + destruct Hlo as [E|Hlo].
      * left. rewrite E in Ev'. change (inject_Z 0) with 0 in Ev'. lra.
      * right. lra.
    + lra.
    + destruct (ltb w 0) eqn:E1; [destruct (ltb 0 s) eqn:E2|]; cbn [andb]; order_cases.
      * nra.
      * assert (E0 : s == 0) by lra. rewrite (Hzero E0) in Ev'.
        change (inject_Z 0) with 0 in Ev'. assert (E : v == 0) by lra. rewrite E. lra.
      * nra.
Qed.

Lemma relativePos_proper (p : option Point) (cx cy w h : Q) :
  Forall Spec.properFeature (relativePos p cx cy w h).
Proof. destruct p; repeat constructor. Qed.

Lemma rotationFeature_proper (rot : option Q) : Forall Spec.properFeature (rotationFeature rot).
Proof. destruct rot; repeat constructor. Qed.

Lemma faceFeatures_proper (fd : FaceData) : Forall Spec.properFeature (faceFeatures fd).
Proof.
  unfold faceFeatures.
  set (w := or_num (box_width (landmarkFrame fd)) 1).
  assert (Hw : ~ w == 0) by (apply or_num_nonzero; discriminate).
  assert (Hl : forall cx cy h, Forall Spec.properFeature (landmarkFeatures fd cx cy w h)).
  { intros cx cy h. unfold landmarkFeatures. cbv zeta.
    repeat (apply Forall_app; split); try apply relativePos_proper.
    unfold eyeDistance.
    destruct (getLandmarkPos (leftEye _)) as [l|]; [|constructor].
    destruct (getLandmarkPos (rightEye _)) as [r|]; repeat constructor.
    - assert (Hsq : forall a : Q, 0 <= a ^ 2) by (intros a; change (a ^ 2) with (a * a); nra).
      pose proof (Hsq (pt_x r - pt_x l)). pose proof (Hsq (pt_y r - pt_y l)). lra.
    - exact Hw. }
  apply Forall_app. split.
  - destruct (landmarkFeatures fd _ _ w _) eqn:E; [|rewrite <- E; apply Hl].
    unfold frameFallback. repeat (apply Forall_app; split);
      try apply rotationFeature_proper; repeat constructor.
  - unfold classifierFeatures. repeat (apply Forall_app; split);
      try apply rotationFeature_proper; [destruct (smilingProbability fd)|];
      repeat constructor.
Qed.

End RoundingFacts.

(** C7 as amended.  [generateFaceIdFromLandmarks] prints every feature as
    a decimal with four digits after the point, the value of the feature
    rounded to four decimal digits; it joins the texts with commas and
    hashes the characters with [h = (h * 32 wrapped to signed 32 bits) - h
    + charCode]; the face id reads, in hexadecimal, as the absolute value
    of that hash.  Only the product is wrapped: the hash is congruent
    modulo 2^32 to the polynomial hash [h = h * 31 + charCode] wrapped at
    every step, without being reduced to 32 bits itself, and its magnitude
    is below 2^32 times the length of the text.  The face id is a function
    of the printed texts: observations whose features print alike get the
    same face id. *)
Theorem generateFaceIdFromLandmarks_hash (fd : FaceData) :
  let features := FaceRecognition.faceFeatures fd in
  let texts := map FaceRecognition.toFixed4 features in
  let text := Spec.commaSeparated texts in
  let hash := Spec.shiftHash text in
  Forall (fun f => exists v : Q,
            Spec.decimal (FaceRecognition.toFixed4 f) = Some (v, 4%nat) /\ Spec.rounds4 f v)
    features
  /\ Spec.numeral 16 (list_ascii_of_string (FaceRecognition.generateFaceIdFromLandmarks fd))
     = Some (Z.abs hash)
  /\ Num.ToInt32 hash = Spec.polyHash text
  /\ (Z.abs hash <= 2 ^ 32 * Z.of_nat (String.length text))%Z
  /\ forall fd' : FaceData,
       map FaceRecognition.toFixed4 (FaceRecognition.faceFeatures fd') = texts ->
       FaceRecognition.generateFaceIdFromLandmarks fd'
       = FaceRecognition.generateFaceIdFromLandmarks fd.
Proof.
  intros features texts text hash.
  assert (Eh : FaceRecognition.hashString
                 (FaceRecognition.featureString (FaceRecognition.faceFeatures fd)) = hash).
  { unfold FaceRecognition.featureString. rewrite HashFacts.join_commaSeparated.
    apply HashFacts.hashString_shiftHash. }
  split.
  { eapply Forall_impl; [apply RoundingFacts.faceFeatures_proper|].
    intros f Hf. apply RoundingFacts.toFixed4_rounds. exact Hf. }
  split.
  { unfold FaceRecognition.generateFaceIdFromLandmarks, FaceRecognition.hashToId.
    rewrite Eh.
    destruct (NumeralFacts.to_radix_reads 16 (Z.abs hash) ltac:(lia) (Z.abs_nonneg hash))
      as (ds & -> & _ & Hv). exact Hv. }
  split.
  { subst hash. rewrite <- HashFacts.hashString_shiftHash. apply HashFacts.hashString_polyHash. }
  split.
  { subst hash. rewrite <- HashFacts.hashString_shiftHash. apply HashFacts.hashString_bound. }
  intros fd' E. unfold FaceRecognition.generateFaceIdFromLandmarks,
    FaceRecognition.featureString. rewrite E. reflexivity.
Qed.

(** C7, the claim as stated fails: on a frontal face the accumulator ends
    at 10641507091, outside the signed 32-bit range, and the face id has
    nine hexadecimal digits where the wrapped hash gives eight. *)
Lemma generateFaceIdFromLandmarks_not_wrapped :
  FaceRecognition.hashString
    (FaceRecognition.featureString (FaceRecognition.faceFeatures Examples.frontalFace))
  = 10641507091%Z
  /\ FaceRecognition.generateFaceIdFromLandmarks Examples.frontalFace = "27a488313"
  /\ Spec.computeFaceId (FaceRecognition.faceFeatures Examples.frontalFace) = "7a488313"
  /\ FaceRecognition.generateFaceIdFromLandmarks Examples.frontalFace
     <> Spec.computeFaceId (FaceRecognition.faceFeatures Examples.frontalFace).
Proof.
  assert (E1 : FaceRecognition.generateFaceIdFromLandmarks Examples.frontalFace = "27a488313")
    by (vm_compute; reflexivity).
  assert (E2 : Spec.computeFaceId (FaceRecognition.faceFeatures Examples.frontalFace)
               = "7a488313") by (vm_compute; reflexivity).
  split; [vm_compute; reflexivity|]. split; [exact E1|]. split; [exact E2|].
  rewrite E1, E2. discriminate.
Qed.

(** ** Translation of an observation *)

Module InvarianceFacts.
Import Num Text FaceRecognition NumFacts.
Local Open Scope Q_scope.

















End InvarianceFacts.


(** ** The centring counter *)

Module TrackerFacts.
Import FaceRecognition FaceCapture Tracker.

(** Case analysis on a test whose subject contains no other test, so that
    every occurrence of the subject is decided at once. *)
Ltac decide_test :=
  match goal with
  | |- context [match ?x with _ => _ end] =>
      lazymatch x with
      | context [match _ with _ => _ end] => fail
      | _ => destruct x eqn:?
      end
  end.

(** Unfolding the small state transformers and deciding their tests. *)
Ltac run_handlers :=
  unfold andThen, detectionError, finishDetection, armCaptureTimer,
    clearCaptureTimer, clearDetectionInterval, clearTimer, setTimer;
  cbn -[validateFaceQuality isFaceCentered Nat.leb];
  repeat (decide_test; cbn -[validateFaceQuality isFaceCentered Nat.leb]).

Lemma observe_count (env : Env) (s : Screen) (o : Observation) :
  centeredCountRef (observe env s o)
  = if isCentred o then S (centeredCountRef s) else 0.
Proof.
  destruct o as [[|face rest] w h|]; unfold observe, isCentred, onFaces;
    [run_handlers; reflexivity | | run_handlers; reflexivity].
  destruct (centered (isFaceCentered face w h)); run_handlers; lia.
Qed.

Lemma observe_flag (env : Env) (s : Screen) (o : Observation) :
  faceCentered (observe env s o)
  = isCentred o && (2 <=? S (centeredCountRef s))%nat.
Proof.
  destruct o as [[|face rest] w h|]; unfold observe, isCentred, onFaces;
    [run_handlers; reflexivity | | run_handlers; reflexivity].
  destruct (centered (isFaceCentered face w h)); [|run_handlers; reflexivity].
  unfold andThen at 1. cbn -[validateFaceQuality isFaceCentered Nat.leb].
  replace (centeredCountRef s + 1) with (S (centeredCountRef s)) by lia.
  destruct (2 <=? S (centeredCountRef s))%nat; run_handlers; reflexivity.
Qed.

Lemma trailing_snoc {A : Type} (p : A -> bool) (l : list A) (x : A) :
  Spec.trailing p (l ++ [x]) = if p x then S (Spec.trailing p l) else 0.
Proof. unfold Spec.trailing. rewrite rev_app_distr. reflexivity. Qed.

Lemma count_is_trailing (env : Env) (s : Screen) (obs : list Observation) :
  centeredCountRef s = 0 ->
  centeredCountRef (fold_left (observe env) obs s) = Spec.trailing isCentred obs.
Proof.
  intros H0. induction obs as [|o obs IH] using rev_ind; [exact H0|].
  rewrite fold_left_app, trailing_snoc. simpl.
  rewrite observe_count, IH. reflexivity.
Qed.

End TrackerFacts.

(** C6.  Starting from a counter at zero, after any sequence of handled
    detection results the counter equals the number of centred
    observations that end the sequence: each centred observation adds one
    and a non-centred one, an empty answer or an error resets it to zero.
    The screen shows the face as centred exactly when that run has reached
    two. *)
Theorem centred_after_two_consecutive (env : FaceCapture.Env) (s : FaceCapture.Screen)
    (obs : list Tracker.Observation) (o : Tracker.Observation) :
  let s' := fold_left (Tracker.observe env) (obs ++ [o])
              (FaceCapture.set_centeredCountRef 0 s) in
  FaceCapture.centeredCountRef s' = Spec.trailing Tracker.isCentred (obs ++ [o])
  /\ FaceCapture.faceCentered s' = (2 <=? Spec.trailing Tracker.isCentred (obs ++ [o]))%nat
  /\ FaceCapture.centeredCountRef s'
     = (if Tracker.isCentred o then S (Spec.trailing Tracker.isCentred obs) else 0).
Proof.
  intros s'. subst s'.
  assert (H0 : FaceCapture.centeredCountRef (FaceCapture.set_centeredCountRef 0 s) = 0)
    by reflexivity.
  split; [apply TrackerFacts.count_is_trailing; exact H0|].
  rewrite fold_left_app. simpl.
  rewrite TrackerFacts.observe_flag, TrackerFacts.observe_count.
  rewrite (TrackerFacts.count_is_trailing env _ obs H0), TrackerFacts.trailing_snoc.
  destruct (Tracker.isCentred o); split; reflexivity.
Qed.

(** ** The capture flag *)

Module SessionFacts.
Import FaceRecognition FaceCapture Session.
Import TrackerFacts.

Ltac run_all :=
  unfold captureSucceeded, captureFailed, captureAborted, waitTick, fire,
    captureTimerFired, proceedToCapture, captureFaceFeaturesFromPhoto,
    captureFaceFeatures, detectFaces, photoTaken, onFaces;
  run_handlers.

(** [oneShot] reads the screen through [view] only. *)
Lemma oneShot_view (n : nat) (s s' : Screen) :
  view s' = view s -> oneShot n s -> oneShot n s'.
Proof.
  unfold view, oneShot, photoValid. intros E H.
  injection E as E1 E2 E3 E4 E5. rewrite E1, E2, E3, E4, E5. exact H.
Qed.

Lemma commit_view (s : Screen) : view (commit s) = view s.
Proof.
  unfold commit, cleanupEffect, runEffect, view. run_handlers; congruence.
Qed.

(** A handler keeps the invariant when the event does not reset the flag. *)
Lemma handle_oneShot (autoSubmit : bool) (n : nat) (e : Event) (s : Screen) :
  ~ resetsFlag e -> oneShot n s -> oneShot n (handle autoSubmit e s).
Proof.
  intros Hne [Hvalid Hcase]. unfold resetsFlag in Hne.
  destruct e; try (exfalso; apply Hne; auto; fail); clear Hne;
    unfold oneShot, photoValid in *; unfold handle;
    run_all;
    repeat match goal with
      | H : _ && _ = true |- _ => apply andb_true_iff in H; destruct H
      | H : negb _ = true |- _ => apply negb_true_iff in H
      end;
    try match goal with
      | Hf : valid (validateFaceQuality (Some (photo_face ?p))) = false |- _ =>
          assert (valid (validateFaceQuality (Some (photo_face p))) = true)
            by (apply Hvalid; congruence);
          congruence
      end;
    (split;
     [ intros q Hq; cbn in Hq;
       first [ apply Hvalid; congruence
             | injection Hq as <-; assumption
             | congruence ]
     | first [ exact Hcase
             | destruct Hcase as [(? & ? & ? & ?)|(? & ?)];
               first [ left; repeat split; (assumption || congruence || lia)
                     | right; repeat split; (assumption || congruence || lia)
                     | exfalso; congruence ] ] ]).
Qed.

Lemma step_oneShot (autoSubmit : bool) (n : nat) (e : Event) (s : Screen) :
  ~ resetsFlag e -> oneShot n s -> oneShot n (step autoSubmit s e).
Proof.
  intros Hne H. unfold step.
  apply (oneShot_view n (handle autoSubmit e s)); [apply commit_view|].
  apply handle_oneShot; assumption.
Qed.

Lemma run_oneShot (autoSubmit : bool) (n : nat) (trace : list Event) (s : Screen) :
  Forall (fun e => ~ resetsFlag e) trace ->
  oneShot n s -> oneShot n (run autoSubmit s trace).
Proof.
  intros Htrace. revert s.
  induction Htrace as [|e trace He _ IH]; intros s H; [exact H|].
  simpl. apply IH. apply step_oneShot; assumption.
Qed.

Lemma mounted_oneShot : oneShot 0 mounted.
Proof.
  split; [intros p Hp; discriminate|]. left. repeat split.
Qed.

(** With the flag set, a firing timer starts no capture and leaves the
    flag set. *)
Lemma fire_blocked (autoSubmit : bool) (id : nat) (s : Screen) :
  hasCapturedRef s = true ->
  captureStarts (step autoSubmit s (Fire id)) = captureStarts s
  /\ hasCapturedRef (step autoSubmit s (Fire id)) = true.
Proof.
  intros Hflag. unfold step, handle.
  pose proof (commit_view (fire id s)) as E.
  unfold view in E. injection E as E1 E2 _ _ _. rewrite E1, E2. clear E1 E2.
  unfold fire. destruct (snd <$> find _ (timers s)) as [[env|env|env face0]|];
    unfold captureTimerFired, detectFaces, andThen, clearTimer, setTimer;
    cbn; rewrite ?Hflag; cbn; rewrite ?orb_true_r; cbn;
    repeat (decide_test; cbn); split; congruence.
Qed.

(** The flag [pendingDetectionRef] is set exactly while a [detectFaces]
    call is suspended, which is why the effect-local [isDetecting] adds
    nothing to the entry guard. *)
Lemma commit_pending (s : Screen) :
  pendingDetectionRef (commit s) = pendingDetectionRef s
  /\ detection (commit s) = detection s.
Proof.
  unfold commit, cleanupEffect, runEffect. run_handlers; split; reflexivity.
Qed.

Lemma handle_pending (autoSubmit : bool) (e : Event) (s : Screen) :
  pendingDetectionRef s = defined (detection s) ->
  pendingDetectionRef (handle autoSubmit e s)
  = defined (detection (handle autoSubmit e s)).
Proof.
  intros H. destruct e; unfold handle; run_all; cbn in *; try congruence;
    match goal with
    | E : detection s = _ |- _ => rewrite E; cbn; congruence
    end.
Qed.

Lemma pending_while_detecting (autoSubmit : bool) (trace : list Event) :
  let s := run autoSubmit mounted trace in
  pendingDetectionRef s = defined (detection s).
Proof.
  intros s. subst s. unfold run.
  assert (H : pendingDetectionRef mounted = defined (detection mounted)) by reflexivity.
  revert H. generalize mounted as s.
  induction trace as [|e trace IH]; intros s H; [exact H|].
  simpl. apply IH. unfold step.
  destruct (commit_pending (handle autoSubmit e s)) as [E1 E2]. rewrite E1, E2.
  apply handle_pending. exact H.
Qed.

End SessionFacts.

(** C4 as amended.  In a session in which the screen does not regain
    focus and no capture fails, the capture callback sets the flag at most
    once: at most one capture is started.  While the flag is set, a firing
    timer starts no capture and leaves the flag set.  (A failed capture
    clears the flag to allow a retry.) *)
Theorem one_capture_per_attempt (autoSubmit : bool) (trace : list FaceCapture.Event) :
  Forall (fun e => ~ Session.resetsFlag e) trace ->
  let s := FaceCapture.run autoSubmit FaceCapture.mounted trace in
  FaceCapture.captureStarts s <= 1
  /\ (FaceCapture.hasCapturedRef s = true ->
      forall id : nat,
        FaceCapture.captureStarts (FaceCapture.step autoSubmit s (FaceCapture.Fire id))
        = FaceCapture.captureStarts s
        /\ FaceCapture.hasCapturedRef (FaceCapture.step autoSubmit s (FaceCapture.Fire id))
           = true).
Proof.
  intros Htrace s.
  pose proof (SessionFacts.run_oneShot autoSubmit 0 trace FaceCapture.mounted Htrace
                SessionFacts.mounted_oneShot) as [_ Hcase].
  fold s in Hcase. split.
  - destruct Hcase as [(H & _)|(H & _)]; lia.
  - intros Hflag id. apply SessionFacts.fire_blocked. exact Hflag.
Qed.

(** The happy path: the face is centred twice, the capture timer fires and
    the capture completes; one capture was started. *)
Lemma one_capture_per_attempt_witness :
  Forall (fun e => ~ Session.resetsFlag e) Examples.oneCapture
  /\ FaceCapture.captureStarts (FaceCapture.run true FaceCapture.mounted Examples.oneCapture)
     <= 1.
Proof.
  assert (H : Forall (fun e => ~ Session.resetsFlag e) Examples.oneCapture).
  { repeat constructor; intros [E|E]; discriminate E. }
  split; [exact H|].
  exact (proj1 (one_capture_per_attempt true Examples.oneCapture H)).
Defined.

(** C4, the claim as stated fails: the screen keeps its focus throughout,
    the first capture fails and clears the flag, detection restarts and a
    second capture timer starts a second capture. *)
Lemma second_capture_after_failure :
  Forall (fun e => e <> FaceCapture.Focus) Examples.failThenRetry
  /\ FaceCapture.captureStarts
       (FaceCapture.run true FaceCapture.mounted Examples.failThenRetry) = 2.
Proof.
  split; [repeat constructor; discriminate | vm_compute; reflexivity].
Qed.

(** C5, the code at the failing input.  After two centred detections the
    session is stabilizing (capture timer 2 pending); the interval starts a
    third detection; the screen blurs while the detector works on the
    photo.  The blur clears the pending capture timer, so no capture timer
    is left.  The detector then answers, the callback arms a new capture
    timer although the screen is blurred, that timer fires, its guard reads
    the focus flag it closed over, and a capture result is produced while
    the screen is not focused. *)
Lemma capture_after_blur :
  let before := FaceCapture.run true FaceCapture.mounted
                  (Examples.untilStabilizing
                   ++ [FaceCapture.Fire 1; FaceCapture.PhotoTaken 400 620]) in
  let blurred := FaceCapture.step true before FaceCapture.Blur in
  let final := FaceCapture.run true FaceCapture.mounted Examples.captureAfterBlur in
  Session.stabilizing before = true
  /\ FaceCapture.captureTimerRef blurred = None
  /\ filter (fun t => Session.isCaptureTimer t = true) (FaceCapture.timers blurred) = []
  /\ FaceCapture.isScreenFocused blurred = false
  /\ FaceCapture.captureEvents blurred = 0
  /\ FaceCapture.isScreenFocused final = false
  /\ FaceCapture.captureEvents final = 1.
Proof.
  vm_compute. repeat split.
Qed.





(** ** Enrolment *)

(** C1.  When the registration request was sent and the backend answered
    with an error status (a conflict is reported that way), the handler
    leaves [AsyncStorage] as it was: the stored device key reads, trimmed,
    as before, and the screen state, which holds the new key, is
    unchanged.  Generating the key ([handleEnableBiometric]) writes
    nothing either: the new key lives in the state only. *)
Theorem conflict_preserves_credential
    (stringifyUser : BiometricSetup.User -> string)
    (stringifyFaceData : BiometricSetup.FaceDataForStorage -> string)
    (stringifyObservation : option FaceData -> string)
    (ext : BiometricSetup.External) (s : BiometricSetup.Setup)
    (st : gmap string string) (status : Z) (message : option string) :
  BiometricSetup.ext_fetch ext = BiometricSetup.NotOk status message ->
  let r := BiometricSetup.handleFaceCaptureComplete stringifyUser stringifyFaceData
             stringifyObservation ext s st in
  is_Some (BiometricSetup.request r) ->
  BiometricSetup.storage r = st
  /\ BiometricSetup.state r = s
  /\ Str.trim <$> BiometricSetup.getItem "fingerprintPublicKey" (BiometricSetup.storage r)
     = Str.trim <$> BiometricSetup.getItem "fingerprintPublicKey" st
  /\ forall (authOk : bool) (publicKey : option string),
       BiometricSetup.storage (BiometricSetup.handleEnableBiometric authOk publicKey s st) = st.
Proof.
  intros Hfetch r Hsent.
  assert (Hst : BiometricSetup.storage r = st /\ BiometricSetup.state r = s).
  { subst r. revert Hsent. unfold BiometricSetup.handleFaceCaptureComplete.
    rewrite Hfetch. unfold BiometricSetup.completeRegistration.
    repeat case_match; simpl; intros [? Hsent]; try discriminate Hsent;
      simplify_eq; split; reflexivity. }
  destruct Hst as [E1 E2]. rewrite E1. repeat split; try assumption.
  intros authOk publicKey. unfold BiometricSetup.handleEnableBiometric.
  repeat case_match; reflexivity.
Qed.

(** A device that holds a key, a new key in the screen state, and a
    backend that reports a duplicate face. *)
Lemma conflict_preserves_credential_witness :
  BiometricSetup.storage
    (BiometricSetup.handleFaceCaptureComplete (fun _ => "") (fun _ => "") (fun _ => "")
       Examples.duplicateFace Examples.newcomer Examples.enrolledStore)
  = Examples.enrolledStore.
Proof.
  refine (proj1 (conflict_preserves_credential (fun _ => "") (fun _ => "") (fun _ => "")
                   Examples.duplicateFace Examples.newcomer Examples.enrolledStore
                   409 (Some "الوجه مسجل مسبقاً") eq_refl _)).
  vm_compute. eexists. reflexivity.
Defined.

(** ** Evidence *)

Module EvidenceFacts.
Import FaceCheckIn.

(** The check-in payload carries the embedding when it is a non-empty
    array, otherwise the image when there is one, otherwise the landmarks;
    it always carries the face id and the device key read from storage. *)
Lemma attendancePayload_priority (id : string) (result : CaptureResult)
    (location : Location) (key : option string) :
  let p := attendancePayload id result location key in
  let emb := nonEmpty (res_faceEmbedding result) in
  let img := Str.truthy (res_imageBase64 result) in
  faceEmbedding p = emb
  /\ faceImage p = (if defined emb then None else img)
  /\ faceLandmarks p = (if defined emb || defined img then None else landmarksPayload result)
  /\ faceId p = id
  /\ fingerprintPublicKey p = key.
Proof.
  intros p emb img. subst p emb img. unfold attendancePayload.
  destruct (nonEmpty _), (Str.truthy _), (landmarksPayload _); simpl; repeat split.
Qed.

(** Without a face id the handler closes with an alert before it calls
    the network. *)
Lemma faceId_guard (amb : Ambient) (result : CaptureResult) :
  Str.truthy (res_faceId result) = None ->
  handleFaceCaptured amb result = closeWith false faceIdNotFound.
Proof.
  intros E. unfold handleFaceCaptured. rewrite E. reflexivity.
Qed.


End EvidenceFacts.

(** C2, the code at the failing input.  A capture with an embedding and
    the face id "27a488313" is stored by the capture screen and handed to
    [AuthContext.loginWithFaceRecognition], which composes a payload with
    the embedding, the device key and the face id (its comment: REQUIRED,
    always include faceId).  [authAPI.loginWithBiometric] builds the
    request from that payload and leaves the face id out: the request
    carries the embedding and the device key only.  The check-in composer,
    given the same capture, sends the embedding together with the face
    id. *)
Lemma loginWithBiometric_drops_faceId :
  let capture :=
    CaptureStore.stored_result (CaptureStore.storeFaceCaptureResult Samples.captured 1000) in
  let embedding := [(1 # 10)%Q; (- (2 # 10))%Q] in
  exists payload : AuthAPI.LoginData,
    FaceLogin.loginPayload true (Some "27a488313") (Some capture) (Some "MIIBIjANBgkq")
    = inr payload
    /\ AuthAPI.faceEmbedding payload = Some embedding
    /\ AuthAPI.faceId payload = Some "27a488313"
    /\ AuthAPI.faceEmbedding (AuthAPI.cleanData payload) = Some embedding
    /\ AuthAPI.faceId (AuthAPI.cleanData payload) = None
    /\ AuthAPI.fingerprintPublicKey (AuthAPI.cleanData payload) = Some "MIIBIjANBgkq"
    /\ forall (location : FaceCheckIn.Location) (key : option string),
         FaceCheckIn.faceEmbedding
           (FaceCheckIn.attendancePayload "27a488313" capture location key) = Some embedding
         /\ FaceCheckIn.faceId
              (FaceCheckIn.attendancePayload "27a488313" capture location key) = "27a488313".
Proof.
  eexists. split; [reflexivity|]. repeat split.
Qed.




(** * Properties of the services and the helpers *)

(** ** Hexadecimal ids *)

Module HexFacts.
Import Text ParseInt FaceRecognition StringFacts.
Local Open Scope Z_scope.

Lemma digit_char_code (d : Z) :
  0 <= d < 16 -> charCode (digit_char d) = if d <? 10 then 48 + d else 87 + d.
Proof.
  intros H. unfold charCode, digit_char.
  assert (E : exists k, d = Z.of_nat k /\ (k < 16)%nat).
  { exists (Z.to_nat d). lia. }
  destruct E as (k & -> & Hk).
  do 16 (destruct k as [|k]; [vm_compute; reflexivity|]). lia.
Qed.

Lemma hexDigit_digit_char (d : Z) : 0 <= d < 16 -> hexDigit (digit_char d) = Some d.
Proof.
  intros H. unfold hexDigit. rewrite digit_char_code by exact H.
  destruct (d <? 10) eqn:E.
  - apply Z.ltb_lt in E.
    replace ((48 <=? 48 + d) && (48 + d <=? 57)) with true
      by (symmetry; apply andb_true_iff; split; apply Z.leb_le; lia).
    f_equal. lia.
  - apply Z.ltb_ge in E.
    replace ((48 <=? 87 + d) && (87 + d <=? 57)) with false
      by (symmetry; apply andb_false_iff; right; apply Z.leb_gt; lia).
    replace ((97 <=? 87 + d) && (87 + d <=? 102)) with true
      by (symmetry; apply andb_true_iff; split; apply Z.leb_le; lia).
    f_equal. lia.
Qed.

Lemma isLowerHex_digit_char (d : Z) : 0 <= d < 16 -> isLowerHex (digit_char d) = true.
Proof.
  intros H. unfold isLowerHex. rewrite digit_char_code by exact H.
  destruct (d <? 10) eqn:E.
  - apply Z.ltb_lt in E. apply orb_true_iff. left.
    apply andb_true_iff; split; apply Z.leb_le; lia.
  - apply Z.ltb_ge in E. apply orb_true_iff. right.
    apply andb_true_iff; split; apply Z.leb_le; lia.
Qed.

(** The digits [digits_aux] puts before [rest] are hexadecimal digits that
    read as [n]. *)
Lemma digits_aux_spec (fuel : nat) :
  forall (n : Z) (rest : string),
    0 <= n < 16 ^ Z.of_nat (S fuel) ->
    exists ds : string,
      digits_aux (S fuel) 16 n rest = ds +:+ rest
      /\ ds <> ""
      /\ Forall (fun c => isLowerHex c = true) (list_ascii_of_string ds)
      /\ forall (tail : string) (seen : option Z),
           digitsValue (ds +:+ tail) seen
           = digitsValue tail (Some (default 0 seen * 16 ^ Z.of_nat (String.length ds) + n)).
Proof.
  induction fuel as [|k IH]; intros n rest Hn;
    assert (Hd : 0 <= n mod 16 < 16) by (apply Z.mod_pos_bound; lia);
    pose proof (Z.div_mod n 16 ltac:(lia)) as Hdm;
    cbn [digits_aux]; destruct (n / 16 =? 0) eqn:E.
  1,3: apply Z.eqb_eq in E;
      exists (String (digit_char (n mod 16)) "");
      (split; [reflexivity|]); (split; [discriminate|]); split;
      [ constructor; [apply isLowerHex_digit_char; exact Hd|constructor]
      | intros tail seen; rewrite append_String; cbn [digitsValue String.length];
        rewrite hexDigit_digit_char by exact Hd; f_equal; f_equal;
        change (16 ^ Z.of_nat 1) with 16; lia ].
  - apply Z.eqb_neq in E. change (16 ^ Z.of_nat 1) with 16 in Hn.
    exfalso. apply E. apply Z.div_small. lia.
  - apply Z.eqb_neq in E.
    assert (Hq : 0 <= n / 16 < 16 ^ Z.of_nat (S k)).
    { split; [apply Z.div_pos; lia|].
      apply Z.div_lt_upper_bound; [lia|].
      replace (16 * 16 ^ Z.of_nat (S k)) with (16 ^ Z.of_nat (S (S k))); [lia|].
      rewrite (Nat2Z.inj_succ (S k)), Z.pow_succ_r by lia. reflexivity. }
    destruct (IH (n / 16) (String (digit_char (n mod 16)) rest) Hq)
      as (ds & Eds & Hne & Hall & Hval).
    exists (ds +:+ String (digit_char (n mod 16)) "").
    split; [rewrite append_cons_assoc; exact Eds|].
    split; [destruct ds; [congruence|discriminate]|].
    split.
    { clear - Hall Hd. induction ds as [|c ds IHds].
      - constructor; [apply isLowerHex_digit_char; exact Hd|constructor].
      - rewrite append_String. cbn [list_ascii_of_string] in *.
        inversion Hall; subst. constructor; [assumption|]. apply IHds. assumption. }
    intros tail seen. rewrite append_cons_assoc, Hval. cbn [digitsValue].
    rewrite hexDigit_digit_char by exact Hd. f_equal. f_equal. cbn [default].
    rewrite length_snoc, Nat2Z.inj_succ, Z.pow_succ_r by lia.
    unfold id. generalize (16 ^ Z.of_nat (String.length ds)). intros p. nia.
Qed.

(** [n.toString(16)] is a non-empty string of lower-case hexadecimal
    digits that [parseInt] reads back as [n]. *)
Lemma to_radix_16_spec (n : Z) :
  0 <= n ->
  to_radix 16 n <> ""
  /\ Forall (fun c => isLowerHex c = true) (list_ascii_of_string (to_radix 16 n))
  /\ parseInt16 (to_radix 16 n) = Some n.
Proof.
  intros Hn. unfold to_radix.
  assert (Hb : 0 <= n < 16 ^ Z.of_nat (S (Z.to_nat (Z.log2 n)))).
  { split; [exact Hn|].
    destruct (Z.eq_dec n 0) as [->|Hne]; [vm_compute; reflexivity|].
    pose proof (Z.log2_spec n ltac:(lia)) as [_ Hlt].
    pose proof (Z.log2_nonneg n) as Hl.
    rewrite Nat2Z.inj_succ, Z2Nat.id by exact Hl.
    eapply Z.lt_le_trans; [exact Hlt|].
    apply Z.pow_le_mono_l. lia. }
  destruct (digits_aux_spec _ n "" Hb) as (ds & Eds & Hne & Hall & Hval).
  rewrite Eds.
  rewrite append_empty_r. split; [exact Hne|]. split; [exact Hall|].
  unfold parseInt16.
  destruct ds as [|c1 r1]; [congruence|].
  cbn [list_ascii_of_string] in Hall. inversion Hall as [|? ? H1 Hall1]; subst.
  assert (Et : Str.trimStart (String c1 r1) = String c1 r1).
  { cbn [Str.trimStart]. clear - H1.
    destruct c1 as [[] [] [] [] [] [] [] []]; try reflexivity;
      vm_compute in H1; discriminate H1. }
  assert (Es : stripSign (String c1 r1) = (false, String c1 r1)).
  { clear - H1.
    destruct c1 as [[] [] [] [] [] [] [] []]; try reflexivity;
      vm_compute in H1; discriminate H1. }
  assert (Ep : stripPrefix (String c1 r1) = String c1 r1).
  { clear - H1 Hall1.
    destruct c1 as [[] [] [] [] [] [] [] []]; try reflexivity.
    destruct r1 as [|c2 r2]; [reflexivity|].
    cbn [list_ascii_of_string] in Hall1. inversion Hall1 as [|? ? H2 _]; subst.
    destruct c2 as [[] [] [] [] [] [] [] []]; try reflexivity;
      vm_compute in H2; discriminate H2. }
  rewrite Et, Es, Ep.
  specialize (Hval "" None). rewrite append_empty_r in Hval. rewrite Hval.
  cbn. f_equal; lia.
Qed.

(** [Math.abs(hash).toString(16)] reads back as [Math.abs(hash)]. *)
Lemma hashToId_spec (h : Z) :
  hashToId h <> ""
  /\ Forall (fun c => isLowerHex c = true) (list_ascii_of_string (hashToId h))
  /\ exists n : Z, 0 <= n /\ parseInt16 (hashToId h) = Some n.
Proof.
  unfold hashToId.
  destruct (to_radix_16_spec (Z.abs h) (Z.abs_nonneg h)) as (H1 & H2 & H3).
  split; [exact H1|]. split; [exact H2|].
  exists (Z.abs h). split; [apply Z.abs_nonneg|exact H3].
Qed.

End HexFacts.

(** X1.  Every id [generateFaceId] returns, from the landmarks, from the
    image or from the serialised observation, is a non-empty string of
    lower-case hexadecimal digits, and [parseInt(id, 16)] reads a natural
    number from it. *)
Theorem generated_id_wellformed (stringify : option FaceData -> string)
    (faceData : option FaceData) (base64Image : option string) :
  let id := FaceRecognition.generateFaceId stringify faceData base64Image in
  id <> ""
  /\ Forall (fun c => ParseInt.isLowerHex c = true) (list_ascii_of_string id)
  /\ exists n : Z, (0 <= n)%Z /\ ParseInt.parseInt16 id = Some n.
Proof.
  intros id. subst id. unfold FaceRecognition.generateFaceId.
  destruct faceData as [fd|]; [destruct (FaceRecognition.hasGeometry fd)|];
    try destruct base64Image as [img|]; try destruct (negb _);
    unfold FaceRecognition.generateFaceIdFromLandmarks, FaceRecognition.generateFaceIdFallback;
    apply HexFacts.hashToId_spec.
Qed.

(** ** Similarity of ids *)

Module MatchFacts.
Import ParseInt FaceMatch.

Lemma clamp_range (q : Q) : (0 <= Num.max 0 (min 1 q) <= 1)%Q.
Proof.
  unfold Num.max, min.
  destruct (Num.ltb q 1) eqn:E1; [apply NumFacts.ltb_true in E1|apply NumFacts.ltb_false in E1].
  all: destruct (Num.ltb 0 _) eqn:E2;
    [apply NumFacts.ltb_true in E2|apply NumFacts.ltb_false in E2]; lra.
Qed.

End MatchFacts.

(** X2.  [compareFaceIds] is symmetric, gives 1 for an id compared with
    itself (hexadecimal or not), and every number it returns lies between 0
    and 1; for two different ids of ASCII characters of which one does
    not start with a hexadecimal number (the empty id, for one) the result
    is [NaN]. *)
Theorem compareFaceIds_symmetric_bounded (faceId1 faceId2 : string) :
  FaceMatch.compareFaceIds faceId1 faceId2 = FaceMatch.compareFaceIds faceId2 faceId1
  /\ FaceMatch.compareFaceIds faceId1 faceId1 = Some 1%Q
  /\ (forall q, FaceMatch.compareFaceIds faceId1 faceId2 = Some q -> (0 <= q <= 1)%Q)
  /\ (ParseInt.isAscii faceId1 = true -> ParseInt.isAscii faceId2 = true ->
      faceId1 <> faceId2 ->
      ParseInt.parseInt16 faceId1 = None \/ ParseInt.parseInt16 faceId2 = None ->
      FaceMatch.compareFaceIds faceId1 faceId2 = None)
  /\ (faceId1 <> "" -> FaceMatch.compareFaceIds faceId1 "" = None).
Proof.
  assert (He : faceId1 <> "" -> FaceMatch.compareFaceIds faceId1 "" = None).
  { intros Hne. unfold FaceMatch.compareFaceIds.
    destruct (String.eqb faceId1 "") eqn:E; [apply String.eqb_eq in E; congruence|].
    destruct (ParseInt.parseInt16 faceId1); reflexivity. }
  unfold FaceMatch.compareFaceIds in *. rewrite (String.eqb_sym faceId2 faceId1).
  rewrite (String.eqb_refl faceId1).
  destruct (String.eqb faceId1 faceId2) eqn:E.
  - split; [reflexivity|]. split; [reflexivity|]. split; [|split; [|exact He]].
    + intros q [= <-]. lra.
    + apply String.eqb_eq in E. intros _ _ Hne. congruence.
  - destruct (ParseInt.parseInt16 faceId1) as [h1|], (ParseInt.parseInt16 faceId2) as [h2|].
    + split.
      { rewrite (Z.max_comm h2 h1). replace (h2 - h1)%Z with (- (h1 - h2))%Z by lia.
        rewrite Z.abs_opp. reflexivity. }
      split; [reflexivity|]. split; [|split; [|exact He]].
      * intros q [= <-]. apply MatchFacts.clamp_range.
      * intros _ _ _ [H|H]; discriminate H.
    + repeat split; try discriminate; exact He.
    + repeat split; try discriminate; exact He.
    + repeat split; try discriminate; exact He.
Qed.

(** X3.  For two ids printed by the generators ([Math.abs(h).toString(16)]),
    [compareFaceIds] returns 1 when the absolute hashes are equal, and
    otherwise the ratio of the smaller absolute hash to the larger one (in
    exact arithmetic), which is below 1. *)
Theorem compareFaceIds_generated (h1 h2 : Z) :
  let a := Z.abs h1 in
  let b := Z.abs h2 in
  exists q : Q,
    FaceMatch.compareFaceIds (FaceRecognition.hashToId h1) (FaceRecognition.hashToId h2) = Some q
    /\ (a = b -> q = 1%Q)
    /\ (a <> b -> (q == inject_Z (Z.min a b) / inject_Z (Z.max a b))%Q /\ (q < 1)%Q).
Proof.
  intros a b.
  destruct (HexFacts.to_radix_16_spec a (Z.abs_nonneg h1)) as (_ & _ & P1).
  destruct (HexFacts.to_radix_16_spec b (Z.abs_nonneg h2)) as (_ & _ & P2).
  unfold FaceMatch.compareFaceIds, FaceRecognition.hashToId. fold a b.
  destruct (String.eqb (Text.to_radix 16 a) (Text.to_radix 16 b)) eqn:E.
  - apply String.eqb_eq in E.
    assert (a = b) by congruence.
    exists 1%Q. split; [reflexivity|]. split; [reflexivity|]. intros Hne. congruence.
  - apply String.eqb_neq in E.
    assert (Hne : a <> b) by (intros ->; apply E; reflexivity).
    rewrite P1, P2.
    pose proof (Z.abs_nonneg h1) as Ha. pose proof (Z.abs_nonneg h2) as Hb.
    fold a in Ha. fold b in Hb.
    destruct (Z.max a b =? 0)%Z eqn:E0; [apply Z.eqb_eq in E0; lia|].
    set (sim := (1 - inject_Z (Z.abs (a - b)) / inject_Z (Z.max a b))%Q).
    exists (Num.max 0 (FaceMatch.min 1 sim)).
    split; [reflexivity|]. split; [intros; congruence|]. intros _.
    assert (HMq : (0 < inject_Z (Z.max a b))%Q).
    { replace 0%Q with (inject_Z 0) by reflexivity. rewrite <- Zlt_Qlt. lia. }
    assert (Hmq : (0 <= inject_Z (Z.min a b))%Q).
    { replace 0%Q with (inject_Z 0) by reflexivity. rewrite <- Zle_Qle. lia. }
    assert (Hlt : (inject_Z (Z.min a b) < inject_Z (Z.max a b))%Q).
    { rewrite <- Zlt_Qlt. lia. }
    assert (Es : (sim == inject_Z (Z.min a b) / inject_Z (Z.max a b))%Q).
    { subst sim. replace (Z.abs (a - b)) with (Z.max a b + - Z.min a b)%Z by lia.
      rewrite inject_Z_plus, inject_Z_opp. field. lra. }
    assert (Hr : (0 <= inject_Z (Z.min a b) / inject_Z (Z.max a b) < 1)%Q).
    { split.
      - apply Qle_shift_div_l; lra.
      - apply Qlt_shift_div_r; lra. }
    clearbody sim. generalize dependent (inject_Z (Z.min a b) / inject_Z (Z.max a b))%Q.
    intros r Es Hr. unfold Num.max, FaceMatch.min.
    destruct (Num.ltb sim 1) eqn:E1;
      [apply NumFacts.ltb_true in E1|apply NumFacts.ltb_false in E1; lra].
    destruct (Num.ltb 0 sim) eqn:E2;
      [apply NumFacts.ltb_true in E2|apply NumFacts.ltb_false in E2]; split; lra.
Qed.

(** ** The samples of the fallback id *)

Module SampleFacts.
Import FaceRecognition StringFacts.

(** A window that does not cover position [length a] reads the same
    characters whatever stands there. *)
Lemma substring_outside (a : string) :
  forall (from len : nat) (c c' : ascii) (b : string),
    String.length a < from \/ from + len <= String.length a ->
    String.substring from len (a +:+ String c b)
    = String.substring from len (a +:+ String c' b).
Proof.
  induction a as [|x a IH]; intros from len c c' b H.
  - cbn [String.length] in H. change ("" +:+ ?s) with s.
    destruct from as [|from]; [|reflexivity].
    destruct len as [|len]; [reflexivity|lia].
  - rewrite !append_String. cbn [String.length] in H.
    destruct from as [|from].
    + destruct len as [|len]; [reflexivity|].
      cbn [String.substring]. f_equal. apply IH. lia.
    + cbn [String.substring]. apply IH. lia.
Qed.

End SampleFacts.

(** X4.  [generateFaceIdFallback] reads the first 100 characters, the 100
    from the middle and the last 100 only: changing a character at any
    other position leaves the id unchanged. *)
Theorem fallback_reads_three_samples (a b : string) (c c' : ascii) :
  let n := String.length (a +:+ String c b) in
  let i := String.length a in
  (100 <= i /\ i < n / 2) \/ (n / 2 + 100 <= i /\ i < n - 100) ->
  FaceRecognition.generateFaceIdFallback (a +:+ String c' b)
  = FaceRecognition.generateFaceIdFallback (a +:+ String c b).
Proof.
  intros n i H. unfold FaceRecognition.generateFaceIdFallback, FaceRecognition.substring.
  assert (En : String.length (a +:+ String c' b) = n).
  { subst n. rewrite !StringFacts.length_append. reflexivity. }
  rewrite En. fold n.
  assert (Hn : n = i + S (String.length b)).
  { subst n i. rewrite StringFacts.length_append. reflexivity. }
  assert (Hdiv : 2 * (n / 2) <= n < 2 * (n / 2) + 2).
  { pose proof (Nat.div_mod_eq n 2). pose proof (Nat.mod_upper_bound n 2). lia. }
  rewrite (SampleFacts.substring_outside a 0 (100 - 0) c' c b) by (fold i; lia).
  rewrite (SampleFacts.substring_outside a (n / 2) (n / 2 + 100 - n / 2) c' c b) by (fold i; lia).
  rewrite (SampleFacts.substring_outside a (n - 100) (n - (n - 100)) c' c b) by (fold i; lia).
  reflexivity.
Qed.

(** A text of 321 characters whose character 120 changes. *)
Lemma fallback_reads_three_samples_witness :
  FaceRecognition.generateFaceIdFallback (Samples.head120 +:+ String "y" Samples.tail200)
  = FaceRecognition.generateFaceIdFallback (Samples.head120 +:+ String "x" Samples.tail200).
Proof.
  apply (fallback_reads_three_samples Samples.head120 Samples.tail200 "x" "y").
  left. vm_compute. lia.
Defined.

(** X5.  The verdict of [validateFaceQuality] does not depend on where the
    face is: moving [frame], [bounds] and the landmarks by the same offset
    gives the same result. *)
Theorem validateFaceQuality_ignores_position (dx dy : Q) (fd : FaceData) :
  FaceRecognition.validateFaceQuality (Some (Spec.translate dx dy fd))
  = FaceRecognition.validateFaceQuality (Some fd).
Proof.
  unfold FaceRecognition.validateFaceQuality.
  assert (Ew : FaceRecognition.qualityWidth (FaceRecognition.frameOrBounds (Spec.translate dx dy fd))
               = FaceRecognition.qualityWidth (FaceRecognition.frameOrBounds fd)).
  { unfold FaceRecognition.frameOrBounds, FaceRecognition.qualityWidth.
    destruct fd as [[fr|] [bd|] ? ? ? ? ? ? ? ? ? ?]; reflexivity. }
  assert (Eh : FaceRecognition.qualityHeight (FaceRecognition.frameOrBounds (Spec.translate dx dy fd))
               = FaceRecognition.qualityHeight (FaceRecognition.frameOrBounds fd)).
  { unfold FaceRecognition.frameOrBounds, FaceRecognition.qualityHeight.
    destruct fd as [[fr|] [bd|] ? ? ? ? ? ? ? ? ? ?]; reflexivity. }
  rewrite Ew, Eh.
  assert (Ed : negb (defined (frame (Spec.translate dx dy fd)))
               && negb (defined (bounds (Spec.translate dx dy fd)))
               = negb (defined (frame fd)) && negb (defined (bounds fd))).
  { destruct fd as [[fr|] [bd|] ? ? ? ? ? ? ? ? ? ?]; reflexivity. }
  rewrite Ed. reflexivity.
Qed.

(** ** The face crop *)

Module CropFacts.
Import Num NumFacts FaceCrop.
Local Open Scope Q_scope.

Lemma max_spec (a b : Q) : a <= max a b /\ b <= max a b /\ (max a b = a \/ max a b = b).
Proof.
  unfold max. destruct (ltb a b) eqn:E;
    [apply ltb_true in E|apply ltb_false in E]; repeat split; auto; lra.
Qed.

Lemma min_spec (a b : Q) : min a b <= a /\ min a b <= b /\ (min a b = a \/ min a b = b).
Proof.
  unfold min. destruct (ltb b a) eqn:E;
    [apply ltb_true in E|apply ltb_false in E]; repeat split; auto; lra.
Qed.

(** [Math.round] is within one half of its argument. *)
Lemma round_spec (a : Q) : a - (1 # 2) < inject_Z (round a) <= a + (1 # 2).
Proof.
  unfold round. pose proof (Qfloor_le (a + (1 # 2))). pose proof (Qlt_floor (a + (1 # 2))) as H1.
  rewrite inject_Z_plus in H1. change (inject_Z 1) with 1 in H1. lra.
Qed.

(** [Math.round] of a number that is not negative is not negative. *)
Lemma round_nonneg (a : Q) : 0 <= a -> 0 <= inject_Z (round a).
Proof.
  intros H. unfold round.
  assert (H' : (0 <= Qfloor (a + (1 # 2)))%Z).
  { apply (Qfloor_resp_le 0 (a + (1 # 2))). lra. }
  rewrite Zle_Qle in H'. exact H'.
Qed.

End CropFacts.

(** X6.  The rectangle handed to [PhotoManipulator.crop] starts at
    integer, non-negative coordinates, and its right and lower edges
    (x + width, y + height) are not beyond those of the photo.  For a face
    box of non-negative size whose left (top) edge lies at least half a
    pixel inside the photo the width (height) of the rectangle is not
    negative, so that the rectangle lies within the photo.  For a box whose
    padded left (top) edge lies half a pixel or more beyond the right
    (lower) edge of the photo the width (height) is negative. *)
Theorem cropRect_within_photo (frame bounds : option FaceCrop.Frame)
    (photoWidth photoHeight : Q) :
  let f := FaceCrop.frameOf frame bounds in
  let r := FaceCrop.cropRect frame bounds photoWidth photoHeight in
  let padding := (Num.max (FaceCrop.faceWidth f) (FaceCrop.faceHeight f) * (2 # 10))%Q in
  ((0 <= FaceCrop.rect_x r /\ 0 <= FaceCrop.rect_y r
    /\ FaceCrop.rect_x r + FaceCrop.rect_width r <= photoWidth
    /\ FaceCrop.rect_y r + FaceCrop.rect_height r <= photoHeight)
   /\ (exists i j : Z, FaceCrop.rect_x r = inject_Z i /\ FaceCrop.rect_y r = inject_Z j)
   /\ (0 <= FaceCrop.faceWidth f -> 0 <= FaceCrop.faceHeight f ->
       (FaceCrop.faceLeft f + (1 # 2) <= photoWidth -> 0 <= photoWidth ->
        0 <= FaceCrop.rect_width r)
       /\ (FaceCrop.faceTop f + (1 # 2) <= photoHeight -> 0 <= photoHeight ->
           0 <= FaceCrop.rect_height r))
   /\ (photoWidth + (1 # 2) <= FaceCrop.faceLeft f - padding -> FaceCrop.rect_width r < 0)
   /\ (photoHeight + (1 # 2) <= FaceCrop.faceTop f - padding -> FaceCrop.rect_height r < 0))%Q.
Proof.
  intros f r padding. subst r. unfold FaceCrop.cropRect. fold f. fold padding.
  cbn [FaceCrop.rect_x FaceCrop.rect_y FaceCrop.rect_width FaceCrop.rect_height].
  pose proof (CropFacts.round_spec (FaceCrop.faceLeft f - padding)) as Rl.
  pose proof (CropFacts.round_spec (FaceCrop.faceTop f - padding)) as Rt.
  pose proof (CropFacts.round_nonneg (FaceCrop.faceWidth f + padding * 2)) as Rw.
  pose proof (CropFacts.round_nonneg (FaceCrop.faceHeight f + padding * 2)) as Rh.
  pose proof (CropFacts.max_spec (FaceCrop.faceWidth f) (FaceCrop.faceHeight f)) as Hm.
  assert (Hpad : (0 <= FaceCrop.faceWidth f -> 0 <= padding)%Q) by (subst padding; lra).
  clearbody padding.
  generalize dependent (inject_Z (Num.round (FaceCrop.faceWidth f + padding * 2))).
  generalize dependent (inject_Z (Num.round (FaceCrop.faceHeight f + padding * 2))).
  intros rh Rh rw Rw.
  pose proof (CropFacts.max_spec 0 (inject_Z (Num.round (FaceCrop.faceLeft f - padding)))) as Hx.
  pose proof (CropFacts.max_spec 0 (inject_Z (Num.round (FaceCrop.faceTop f - padding)))) as Hy.
  assert (Hint : exists i j : Z,
             Num.max 0 (inject_Z (Num.round (FaceCrop.faceLeft f - padding))) = inject_Z i
             /\ Num.max 0 (inject_Z (Num.round (FaceCrop.faceTop f - padding))) = inject_Z j).
  { destruct Hx as (_ & _ & [->| ->]), Hy as (_ & _ & [->| ->]);
      eexists; eexists; split; first [reflexivity | exact (eq_refl (inject_Z 0))]. }
  generalize dependent (Num.max 0 (inject_Z (Num.round (FaceCrop.faceLeft f - padding)))).
  generalize dependent (Num.max 0 (inject_Z (Num.round (FaceCrop.faceTop f - padding)))).
  intros cy Hy cx Hx Hint.
  pose proof (CropFacts.min_spec (photoWidth - cx) rw) as Hw.
  pose proof (CropFacts.min_spec (photoHeight - cy) rh) as Hh.
  generalize dependent (FaceCrop.min (photoWidth - cx) rw).
  generalize dependent (FaceCrop.min (photoHeight - cy) rh).
  intros ch Hh cw Hw.
  generalize dependent (inject_Z (Num.round (FaceCrop.faceLeft f - padding))).
  generalize dependent (inject_Z (Num.round (FaceCrop.faceTop f - padding))).
  intros rt Rt Hy rl Rl Hx.
  split; [repeat split; lra|]. split; [exact Hint|].
  destruct Hx as (Hx1 & Hx2 & Hx3), Hy as (Hy1 & Hy2 & Hy3),
    Hw as (Hw1 & Hw2 & Hw3), Hh as (Hh1 & Hh2 & Hh3).
  split; [|split].
  - intros Hfw Hfh. specialize (Hpad Hfw). split; intros Hin Hpos.
    + destruct Hx3 as [E|E], Hw3 as [E'|E']; rewrite ?E' ; rewrite ?E in *; lra.
    + destruct Hy3 as [E|E], Hh3 as [E'|E']; rewrite ?E' ; rewrite ?E in *; lra.
  - intros Hout. lra.
  - intros Hout. lra.
Qed.

(** A box of 100 x 100 at (1200, 2000), beyond a photo of 1080 x 1920: the
    rectangle is x = 1180, y = 1980, width = -100, height = -60. *)
Lemma cropRect_within_photo_witness :
  let r := FaceCrop.cropRect (Some Samples.farFrame) None 1080 1920 in
  (FaceCrop.rect_width r < 0 /\ FaceCrop.rect_height r < 0
   /\ FaceCrop.rect_x r == 1180 /\ FaceCrop.rect_y r == 1980
   /\ FaceCrop.rect_width r == - (100) /\ FaceCrop.rect_height r == - (60))%Q.
Proof.
  destruct (cropRect_within_photo (Some Samples.farFrame) None 1080 1920)
    as (_ & _ & _ & Hw & Hh).
  split; [apply Hw; vm_compute; discriminate|].
  split; [apply Hh; vm_compute; discriminate|].
  vm_compute. repeat split.
Defined.

(** X7.  When the face box lies inside the photo and its larger side is
    at least 5 pixels, the crop rectangle contains the whole face box. *)
Theorem cropRect_contains_face (frame bounds : option FaceCrop.Frame)
    (photoWidth photoHeight : Q) :
  let f := FaceCrop.frameOf frame bounds in
  let r := FaceCrop.cropRect frame bounds photoWidth photoHeight in
  (0 <= FaceCrop.faceLeft f -> 0 <= FaceCrop.faceTop f ->
   FaceCrop.faceLeft f + FaceCrop.faceWidth f <= photoWidth ->
   FaceCrop.faceTop f + FaceCrop.faceHeight f <= photoHeight ->
   5 <= Num.max (FaceCrop.faceWidth f) (FaceCrop.faceHeight f) ->
   FaceCrop.rect_x r <= FaceCrop.faceLeft f
   /\ FaceCrop.faceLeft f + FaceCrop.faceWidth f <= FaceCrop.rect_x r + FaceCrop.rect_width r
   /\ FaceCrop.rect_y r <= FaceCrop.faceTop f
   /\ FaceCrop.faceTop f + FaceCrop.faceHeight f <= FaceCrop.rect_y r + FaceCrop.rect_height r)%Q.
Proof.
  intros f r Hl Ht Hr Hb Hp. subst r. unfold FaceCrop.cropRect. fold f.
  cbn [FaceCrop.rect_x FaceCrop.rect_y FaceCrop.rect_width FaceCrop.rect_height].
  generalize dependent (Num.max (FaceCrop.faceWidth f) (FaceCrop.faceHeight f)). intros m Hp.
  generalize dependent (FaceCrop.faceLeft f). generalize dependent (FaceCrop.faceTop f).
  generalize dependent (FaceCrop.faceWidth f). generalize dependent (FaceCrop.faceHeight f).
  intros h w t Ht Hb l Hl Hr.
  pose proof (CropFacts.round_spec (l - m * (2 # 10))).
  pose proof (CropFacts.round_spec (t - m * (2 # 10))).
  pose proof (CropFacts.round_spec (w + m * (2 # 10) * 2)).
  pose proof (CropFacts.round_spec (h + m * (2 # 10) * 2)).
  repeat match goal with
    | |- context [Num.max 0 ?a] =>
        let H := fresh "H" in
        pose proof (CropFacts.max_spec 0 a) as H; generalize dependent (Num.max 0 a); intros
    end.
  repeat match goal with
    | |- context [FaceCrop.min ?a ?b] =>
        let H := fresh "H" in
        pose proof (CropFacts.min_spec a b) as H; generalize dependent (FaceCrop.min a b); intros
    end.
  repeat match goal with
    | H : _ /\ _ |- _ => destruct H
    | H : _ = _ \/ _ = _ |- _ => destruct H as [->| ->]
    end; repeat split; lra.
Qed.

(** A face of 200 x 250 at (100, 200) in a photo of 1080 x 1920. *)
Lemma cropRect_contains_face_witness :
  let r := FaceCrop.cropRect (Some Samples.faceFrame) None 1080 1920 in
  (FaceCrop.rect_x r <= 100 /\ 100 + 200 <= FaceCrop.rect_x r + FaceCrop.rect_width r
   /\ FaceCrop.rect_y r <= 200 /\ 200 + 250 <= FaceCrop.rect_y r + FaceCrop.rect_height r)%Q.
Proof.
  apply (cropRect_contains_face (Some Samples.faceFrame) None 1080 1920);
    vm_compute; discriminate.
Defined.

(** ** The native module *)

Module NativeFacts.
Import FaceRecognitionModule.
Local Open Scope Z_scope.

Lemma coerceIn_range (v lo hi : Z) :
  lo <= hi -> exists r, coerceIn v lo hi = Some r /\ lo <= r <= hi.
Proof.
  intros H. unfold coerceIn.
  destruct (hi <? lo) eqn:E; [apply Z.ltb_lt in E; lia|].
  eexists. split; [reflexivity|].
  destruct (v <? lo) eqn:E1; [lia|]. apply Z.ltb_ge in E1.
  destruct (hi <? v) eqn:E2; [lia|]. apply Z.ltb_ge in E2. lia.
Qed.

Lemma channel_range (shift pixelValue : Z) :
  (-1 <= channel shift pixelValue <= 127 # 128)%Q.
Proof.
  unfold channel, IMAGE_MEAN, IMAGE_STD.
  assert (H : 0 <= Z.land (Z.shiftr pixelValue shift) 255 < 256).
  { change 255 with (Z.ones 8). rewrite Z.land_ones by lia.
    apply Z.mod_pos_bound. lia. }
  assert (H1 : (0 <= inject_Z (Z.land (Z.shiftr pixelValue shift) 255))%Q).
  { replace 0%Q with (inject_Z 0) by reflexivity. rewrite <- Zle_Qle. lia. }
  assert (H2 : (inject_Z (Z.land (Z.shiftr pixelValue shift) 255) <= 255)%Q).
  { replace 255%Q with (inject_Z 255) by reflexivity. rewrite <- Zle_Qle. lia. }
  generalize dependent (inject_Z (Z.land (Z.shiftr pixelValue shift) 255)). intros c H1 H2.
  split.
  - apply Qle_shift_div_l; lra.
  - apply Qle_shift_div_r; lra.
Qed.

End NativeFacts.

(** X8.  Whenever [generateEmbeddingWithCrop] crops, the region it hands
    to [Bitmap.createBitmap] has positive size and lies inside the bitmap,
    whatever rectangle was requested. *)
Theorem native_crop_within_bitmap (cropRect : option (Z * Z * Z * Z))
    (bitmapWidth bitmapHeight : Z) (x y width height : Z) :
  (0 <= bitmapWidth)%Z -> (0 <= bitmapHeight)%Z ->
  FaceRecognitionModule.cropRegion cropRect bitmapWidth bitmapHeight
  = FaceRecognitionModule.Crop x y width height ->
  (0 <= x /\ 0 <= y /\ 0 < width /\ 0 < height
   /\ x + width <= bitmapWidth /\ y + height <= bitmapHeight)%Z.
Proof.
  intros Hw Hh. unfold FaceRecognitionModule.cropRegion.
  destruct cropRect as [[[[x0 y0] w0] h0]|]; [|discriminate].
  destruct (NativeFacts.coerceIn_range x0 0 bitmapWidth Hw) as (cx & -> & Hcx).
  destruct (NativeFacts.coerceIn_range y0 0 bitmapHeight Hh) as (cy & -> & Hcy).
  cbn [mbind option_bind].
  destruct (NativeFacts.coerceIn_range w0 0 (bitmapWidth - cx) ltac:(lia)) as (cw & -> & Hcw).
  destruct (NativeFacts.coerceIn_range h0 0 (bitmapHeight - cy) ltac:(lia)) as (ch & -> & Hch).
  cbn [mbind option_bind default from_option].
  destruct (0 <? cw)%Z eqn:E1; destruct (0 <? ch)%Z eqn:E2; cbn; try discriminate.
  intros [= <- <- <- <-]. apply Z.ltb_lt in E1, E2. lia.
Qed.

(** A rectangle of 500 x 400 at (10, 20) requested on a bitmap of
    300 x 300. *)
Lemma native_crop_within_bitmap_witness :
  FaceRecognitionModule.cropRegion (Some (10, 20, 500, 400)%Z) 300 300
  = FaceRecognitionModule.Crop 10 20 290 280
  /\ (10 + 290 <= 300 /\ 20 + 280 <= 300)%Z.
Proof.
  split; [reflexivity|].
  pose proof (native_crop_within_bitmap (Some (10, 20, 500, 400)%Z) 300 300 10 20 290 280
                ltac:(lia) ltac:(lia) eq_refl) as H.
  split; apply H.
Defined.

(** X9.  [processImage] writes exactly as many floats as the input buffer
    holds (112 x 112 x 3), each between -1 and 127/128. *)
Theorem input_buffer_filled (intValues : list Z) :
  Z.of_nat (length (FaceRecognitionModule.inputBuffer intValues))
  = FaceRecognitionModule.bufferFloats
  /\ Forall (fun v => (-1 <= v <= 127 # 128)%Q) (FaceRecognitionModule.inputBuffer intValues).
Proof.
  unfold FaceRecognitionModule.inputBuffer. split.
  - assert (L : forall (A : Type) (l : list A) (f : A -> list Q) (k : nat),
               (forall a, length (f a) = k) -> length (l ≫= f) = (length l * k)%nat).
    { intros A l f k Hf. induction l as [|a l IH]; [reflexivity|].
      cbn. rewrite length_app, Hf, IH. reflexivity. }
    rewrite (L _ _ _ 336%nat).
    + rewrite length_seqZ, Nat2Z.inj_mul, Z2Nat.id by discriminate.
      change (Z.of_nat 336) with 336%Z. reflexivity.
    + intros i. rewrite (L _ _ _ 3%nat); [rewrite length_seqZ; reflexivity|reflexivity].
  - apply Forall_bind. apply Forall_forall. intros i _.
    apply Forall_bind. apply Forall_forall. intros j _.
    repeat constructor; apply NativeFacts.channel_range.
Qed.

(** ** The camera permission *)

Module PermissionFacts.
Import Permission.

(** A run schedules a retry only for an error that is retried, while the
    count is within the limit; the delay is the new count in seconds. *)
Lemma checkPermission_retry (p : Platform) (o : Outcome) (s : State) (delay : nat) :
  retryDelay (checkPermission p true o s) = Some delay ->
  retryable p o = true
  /\ S (permissionRetryCount s) <= retryLimit p
  /\ delay = S (permissionRetryCount s) * 1000
  /\ permissionRetryCount (checkPermission p true o s) = S (permissionRetryCount s).
Proof.
  unfold checkPermission, retryable. cbn [negb].
  destruct o as [|granted|message]; cbn [retryDelay]; try discriminate.
  destruct (activityNotReady p message); cbn [retryDelay]; [|discriminate].
  destruct (retryLimit p <? S (permissionRetryCount s))%nat eqn:El;
    cbn [retryDelay permissionRetryCount]; [discriminate|].
  apply Nat.ltb_ge in El. intros [= <-]. repeat split. exact El.
Qed.

End PermissionFacts.

(** X10.  The retries chained by [checkPermission]: from a retry count [c]
    at most [limit - c] timers are set (limit 5 on Android, 3 on iOS), the
    k-th of them for [c + 1 + k] seconds, each after an error of the
    activity-not-ready kind; while such errors go on, exactly that many
    timers are set and then the retrying stops. *)
Theorem permission_retries_bounded (p : Permission.Platform)
    (outcomes : list Permission.Outcome) (s : Permission.State) :
  let limit := Permission.retryLimit p in
  let c := Permission.permissionRetryCount s in
  let ds := fst (Permission.retries p outcomes s) in
  length ds <= limit - c
  /\ (forall (k delay : nat), ds !! k = Some delay -> delay = (c + 1 + k) * 1000)
  /\ (forall (k : nat), k < length ds -> (Permission.retryable p <$> outcomes !! k) = Some true)
  /\ (forallb (Permission.retryable p) outcomes = true ->
      length ds = Nat.min (length outcomes) (limit - c)).
Proof.
  intros limit c ds. subst limit c ds. revert s.
  induction outcomes as [|o rest IH]; intros s.
  - cbn. split; [lia|]. split; [intros k d H; discriminate H|].
    split; [intros k H; lia|reflexivity].
  - cbn [Permission.retries].
    destruct (Permission.retryDelay (Permission.checkPermission p true o s)) as [delay|] eqn:E.
    + specialize (IH (Permission.checkPermission p true o s)).
      destruct (PermissionFacts.checkPermission_retry p o s delay E) as (Er & El & -> & Ec).
      rewrite Ec in IH.
      destruct (Permission.retries p rest _) as [ds s2]. cbn [fst length] in *.
      destruct IH as (IH1 & IH2 & IH3 & IH4).
      split; [lia|]. split; [|split].
      * intros [|k] d H.
        -- injection H as <-. lia.
        -- rewrite (IH2 k d H). lia.
      * intros [|k] H.
        -- cbn [lookup list_lookup fmap option_fmap option_map]. rewrite Er. reflexivity.
        -- apply IH3. lia.
      * cbn [forallb]. rewrite Er. cbn [andb]. intros Hall. rewrite (IH4 Hall). lia.
    + cbn [fst length]. split; [lia|]. split; [intros k d H; discriminate H|].
      split; [intros k H; lia|].
      cbn [forallb]. intros Hall. apply andb_true_iff in Hall. destruct Hall as [Hr _].
      revert E. unfold Permission.checkPermission, Permission.retryable in *. cbn [negb].
      destruct o as [|granted|message]; try discriminate Hr. rewrite Hr.
      destruct (Permission.retryLimit p <? S (Permission.permissionRetryCount s))%nat eqn:El;
        cbn [Permission.retryDelay]; [|discriminate].
      apply Nat.ltb_lt in El. intros _. lia.
Qed.

(** X11.  [mapBiometricType] always returns one of the four types the
    backend accepts, and maps each of these to itself. *)
Theorem mapBiometricType_valid (type : option string) :
  let mapped := BiometricType.mapBiometricType type in
  In mapped BiometricType.validTypes
  /\ BiometricType.mapBiometricType (Some mapped) = mapped.
Proof.
  intros mapped.
  assert (Hin : In mapped BiometricType.validTypes).
  { subst mapped. unfold BiometricType.mapBiometricType.
    destruct (Str.truthy type) as [t|]; [|right; left; reflexivity].
    destruct (String.eqb t "Biometrics" || String.eqb t "biometrics");
      [do 2 right; left; reflexivity|].
    destruct (BiometricType.isValidType t) eqn:Ev.
    - unfold BiometricType.isValidType in Ev. apply existsb_exists in Ev.
      destruct Ev as (v & Hin & Ev). apply String.eqb_eq in Ev. subst v. exact Hin.
    - destruct (Str.includes "face" _); [left; reflexivity|].
      destruct (Str.includes "touch" _ || Str.includes "finger" _);
        [do 2 right; left; reflexivity|right; left; reflexivity]. }
  split; [exact Hin|].
  clearbody mapped. cbn in Hin.
  destruct Hin as [<-|[<-|[<-|[<-|[]]]]]; reflexivity.
Qed.

(** ** Registration errors *)

Module RegistrationFacts.
Import BiometricSetup Enrolment.

Lemma rethrow_status (requestTime status : Z) (message : option string) :
  exists m : string,
    In m genericMessages /\ rethrow requestTime (statusError status message) = newError m.
Proof.
  unfold rethrow, codeIs, statusError. cbn [err_code err_message].
  change (String.eqb "ERR_NETWORK" "ERR_NETWORK") with true.
  change (String.eqb "ECONNABORTED" "ERR_NETWORK") with false.
  rewrite orb_true_r. cbn [orb].
  destruct (25000 <=? requestTime)%Z; cbn [andb].
  - exists msgMaybeCreated. split; [left; reflexivity|reflexivity].
  - destruct (Str.includes "timeout" _).
    + exists msgTimeout. split; [right; left; reflexivity|reflexivity].
    + exists msgConnection. split; [do 2 right; left; reflexivity|reflexivity].
Qed.

Lemma generic_is_plain (fallbackText m : string) :
  In m genericMessages -> registrationFailed fallbackText (newError m) = plainError m.
Proof.
  intros [<-|[<-|[<-|[]]]]; vm_compute; reflexivity.
Qed.

End RegistrationFacts.

(** X12.  When the registration request is answered with an error status,
    [completeRegistration] replaces the error by one of its three
    connection messages (the thrown object has code ERR_NETWORK), so the
    handler shows that message in its plain error dialog: the text the
    backend sent and the status are not shown. *)
Theorem http_error_shows_generic_message
    (stringifyUser : BiometricSetup.User -> string)
    (stringifyFaceData : BiometricSetup.FaceDataForStorage -> string)
    (stringifyObservation : option FaceData -> string)
    (ext : BiometricSetup.External) (s : BiometricSetup.Setup)
    (st : gmap string string) (status : Z) (message : option string) :
  BiometricSetup.ext_fetch ext = BiometricSetup.NotOk status message ->
  let r := BiometricSetup.handleFaceCaptureComplete stringifyUser stringifyFaceData
             stringifyObservation ext s st in
  is_Some (BiometricSetup.request r) ->
  exists m : string,
    In m Enrolment.genericMessages
    /\ BiometricSetup.alert r = Some (BiometricSetup.plainError m)
    /\ snd (BiometricSetup.completeRegistration stringifyUser (BiometricSetup.ext_requestTime ext)
              (BiometricSetup.NotOk status message) st)
       = inl (BiometricSetup.newError m).
Proof.
  intros Hfetch r Hsent. subst r. revert Hsent.
  unfold BiometricSetup.handleFaceCaptureComplete.
  rewrite Hfetch. unfold BiometricSetup.completeRegistration.
  destruct (RegistrationFacts.rethrow_status (BiometricSetup.ext_requestTime ext) status message)
    as (m & Hin & ->).
  repeat case_match; cbn [BiometricSetup.request BiometricSetup.alert];
    intros [? Hsent]; try discriminate Hsent; simplify_eq.
  all: exists m; split; [exact Hin|]; split; [|reflexivity].
  all: f_equal; apply RegistrationFacts.generic_is_plain; exact Hin.
Qed.

(** The backend reports a duplicate face with status 409; the dialog shows
    the connection message. *)
Lemma http_error_shows_generic_message_witness :
  BiometricSetup.alert
    (BiometricSetup.handleFaceCaptureComplete (fun _ => "") (fun _ => "") (fun _ => "")
       Examples.duplicateFace Examples.newcomer Examples.enrolledStore)
  = Some (BiometricSetup.plainError BiometricSetup.msgConnection).
Proof.
  destruct (http_error_shows_generic_message (fun _ => "") (fun _ => "") (fun _ => "")
              Examples.duplicateFace Examples.newcomer Examples.enrolledStore
              409 (Some "الوجه مسجل مسبقاً") eq_refl
              ltac:(vm_compute; eexists; reflexivity)) as (m & _ & H & _).
  vm_compute. reflexivity.
Defined.

(** ** The device key *)

Module TrimFacts.
Import Str.

Lemma trimStart_suffix (s : string) : exists w, list_ascii_of_string s = (w ++ list_ascii_of_string (trimStart s))%list.
Proof.
  induction s as [|c s IH]; [exists []; reflexivity|].
  cbn [trimStart]. destruct (isSpace c).
  - destruct IH as (w & E). exists (c :: w). cbn. rewrite E. reflexivity.
  - exists []. reflexivity.
Qed.

Lemma trimStart_head (s : string) (c : ascii) (r : list ascii) :
  list_ascii_of_string (trimStart s) = c :: r -> isSpace c = false.
Proof.
  induction s as [|x s IH]; [discriminate|].
  cbn [trimStart]. destruct (isSpace x) eqn:E; [exact IH|].
  cbn. intros [= <- _]. exact E.
Qed.

Lemma trimStart_fixed (s : string) :
  (forall c r, list_ascii_of_string s = c :: r -> isSpace c = false) -> trimStart s = s.
Proof.
  destruct s as [|x s]; [reflexivity|]. intros H. cbn [trimStart].
  rewrite (H x (list_ascii_of_string s) eq_refl). reflexivity.
Qed.

Lemma chars_reverse (s : string) : list_ascii_of_string (reverse s) = rev (list_ascii_of_string s).
Proof. unfold reverse. apply list_ascii_of_string_of_list_ascii. Qed.

Lemma reverse_involutive (s : string) : reverse (reverse s) = s.
Proof.
  unfold reverse at 1. rewrite chars_reverse, rev_involutive.
  apply string_of_list_ascii_of_string.
Qed.

Lemma trimStart_trim (s : string) : trimStart (trim s) = trim s.
Proof.
  apply trimStart_fixed. intros c r E. unfold trim in E. rewrite chars_reverse in E.
  destruct (trimStart_suffix (reverse (trimStart s))) as (w & Ew).
  rewrite chars_reverse in Ew.
  assert (Eu : list_ascii_of_string (trimStart s) = c :: (r ++ rev w)%list).
  { rewrite <- (rev_involutive (list_ascii_of_string (trimStart s))), Ew, rev_app_distr, E. reflexivity. }
  exact (trimStart_head s c _ Eu).
Qed.

(** [trim] is idempotent. *)
Lemma trim_trim (s : string) : trim (trim s) = trim s.
Proof.
  unfold trim at 1. rewrite trimStart_trim. unfold trim at 1.
  rewrite reverse_involutive.
  rewrite (trimStart_fixed (trimStart (reverse (trimStart s)))).
  - reflexivity.
  - intros c r. apply trimStart_head.
Qed.

End TrimFacts.

Module EnrolmentFacts.
Import BiometricSetup.

Lemma complete_keeps_key
    (stringifyUser : User -> string) (stringifyFaceData : FaceDataForStorage -> string)
    (stringifyObservation : option FaceData -> string)
    (ext : External) (s : Setup) (st : gmap string string) :
  fingerprintPublicKey
    (state (handleFaceCaptureComplete stringifyUser stringifyFaceData stringifyObservation
              ext s st))
  = fingerprintPublicKey s.
Proof.
  unfold handleFaceCaptureComplete.
  destruct (faceData s) as [fdata|]; [|reflexivity].
  destruct (negb _ && negb _); [reflexivity|].
  destruct (if fingerprintCompleted s then _ else _) as [key|]; [|reflexivity].
  destruct (registrationData s) as [regData|]; [|destruct (isModal s); reflexivity].
  destruct (String.eqb (Str.trim _) ""); [reflexivity|].
  destruct (String.eqb (Str.trim key) ""); [reflexivity|].
  destruct (completeRegistration _ _ _ _) as [st1 [error|response]]; reflexivity.
Qed.

Lemma success_storage
    (stringifyUser : BiometricSetup.User -> string)
    (stringifyFaceData : BiometricSetup.FaceDataForStorage -> string)
    (stringifyObservation : option FaceData -> string)
    (ext : BiometricSetup.External) (s : BiometricSetup.Setup)
    (st : gmap string string) (data : BiometricSetup.ResponseData)
    (p : BiometricSetup.RegistrationPayload) :
  BiometricSetup.ext_fetch ext = BiometricSetup.Ok data ->
  let r := BiometricSetup.handleFaceCaptureComplete stringifyUser stringifyFaceData
             stringifyObservation ext s st in
  BiometricSetup.request r = Some p ->
  let after := BiometricSetup.storage r in
  BiometricSetup.getItem "token" after = None
  /\ BiometricSetup.getItem "user" after = None
  /\ BiometricSetup.getItem "cookies" after = None
  /\ BiometricSetup.getItem "biometricEnabled" after = Some "true"
  /\ BiometricSetup.getItem "fingerprintPublicKey" after
     = Some (Str.trim (BiometricSetup.pay_fingerprintPublicKey p))
  /\ BiometricSetup.fingerprintPublicKey s = Some (BiometricSetup.pay_fingerprintPublicKey p)
  /\ BiometricSetup.alert r = Some BiometricSetup.registrationComplete.
Proof.
  intros Hfetch r Hsent after. subst after r. revert Hsent.
  unfold BiometricSetup.handleFaceCaptureComplete.
  rewrite Hfetch. unfold BiometricSetup.completeRegistration.
  unfold BiometricSetup.getItem, BiometricSetup.setItem, BiometricSetup.multiRemove.
  destruct (BiometricSetup.faceData s) as [fdata|]; [|discriminate].
  destruct (negb _ && negb _); [discriminate|].
  destruct (if BiometricSetup.fingerprintCompleted s then _ else _) as [key|] eqn:Ekey;
    [|discriminate].
  assert (Ek : BiometricSetup.fingerprintPublicKey s = Some key).
  { destruct (BiometricSetup.fingerprintCompleted s); [|discriminate].
    apply StringFacts.truthy_Some. exact Ekey. }
  destruct (BiometricSetup.registrationData s) as [regData|];
    [|destruct (BiometricSetup.isModal s); discriminate].
  destruct (String.eqb (Str.trim _) ""); [discriminate|].
  destruct (String.eqb (Str.trim key) ""); [discriminate|].
  destruct (Str.truthy (BiometricSetup.resp_token data));
    cbn [BiometricSetup.request BiometricSetup.storage BiometricSetup.alert foldr];
    intros [= <-]; cbn [BiometricSetup.pay_fingerprintPublicKey];
    (destruct (BiometricSetup.resp_user data) as [u|];
     [destruct (Str.truthy (BiometricSetup.user_employeeNumber u)),
        (Str.truthy (BiometricSetup.user_email u))|]);
    repeat split; try exact Ek;
    repeat first
      [ rewrite lookup_delete_eq
      | rewrite lookup_delete_ne by discriminate
      | rewrite lookup_insert_eq
      | rewrite lookup_insert_ne by discriminate ];
    reflexivity.
Qed.

End EnrolmentFacts.

(** X13.  The two handlers of the enrolment screen keep the device key in
    the screen state free of surrounding white space; and after a
    successful registration the key in [AsyncStorage] is the key that was
    sent, [biometricEnabled] is "true", and no token, user or cookies are
    left: the new user has to log in. *)
Theorem registration_success_storage
    (stringifyUser : BiometricSetup.User -> string)
    (stringifyFaceData : BiometricSetup.FaceDataForStorage -> string)
    (stringifyObservation : option FaceData -> string) :
  (forall (authOk : bool) (publicKey : option string) (s : BiometricSetup.Setup)
          (st : gmap string string),
     Enrolment.keyNormalised s ->
     Enrolment.keyNormalised
       (BiometricSetup.state (BiometricSetup.handleEnableBiometric authOk publicKey s st)))
  /\ (forall (ext : BiometricSetup.External) (s : BiometricSetup.Setup) (st : gmap string string),
        Enrolment.keyNormalised s ->
        Enrolment.keyNormalised
          (BiometricSetup.state
             (BiometricSetup.handleFaceCaptureComplete stringifyUser stringifyFaceData
                stringifyObservation ext s st)))
  /\ (forall (ext : BiometricSetup.External) (s : BiometricSetup.Setup) (st : gmap string string)
             (data : BiometricSetup.ResponseData) (p : BiometricSetup.RegistrationPayload),
        Enrolment.keyNormalised s ->
        BiometricSetup.ext_fetch ext = BiometricSetup.Ok data ->
        BiometricSetup.request
          (BiometricSetup.handleFaceCaptureComplete stringifyUser stringifyFaceData
             stringifyObservation ext s st) = Some p ->
        let after :=
          BiometricSetup.storage
            (BiometricSetup.handleFaceCaptureComplete stringifyUser stringifyFaceData
               stringifyObservation ext s st) in
        BiometricSetup.getItem "fingerprintPublicKey" after
        = Some (BiometricSetup.pay_fingerprintPublicKey p)
        /\ BiometricSetup.getItem "biometricEnabled" after = Some "true"
        /\ BiometricSetup.getItem "token" after = None
        /\ BiometricSetup.getItem "user" after = None
        /\ BiometricSetup.getItem "cookies" after = None).
Proof.
  unfold Enrolment.keyNormalised. split; [|split].
  - intros authOk publicKey s st H k. unfold BiometricSetup.handleEnableBiometric.
    destruct (negb (BiometricSetup.biometricAvailable s)); [apply H|].
    destruct (negb authOk); [apply H|].
    destruct (Str.truthy publicKey) as [key|]; [|apply H].
    cbn. intros [= <-]. apply TrimFacts.trim_trim.
  - intros ext s st H k. rewrite EnrolmentFacts.complete_keeps_key. apply H.
  - intros ext s st data p H Hfetch Hsent.
    destruct (EnrolmentFacts.success_storage stringifyUser stringifyFaceData
                stringifyObservation ext s st data p Hfetch Hsent)
      as (Et & Eu & Ec & Ee & Ekey & Es & _).
    rewrite Ekey, (H _ Es). repeat split; assumption.
Qed.

(** ** The session *)

Module ApiFacts.
Import BiometricSetup Api.

(** The first write of the token is read back at once. *)
Lemma saveToken_first (more : nat) (token : string) (st : Storage) :
  saveToken (S more) token st = (setItem "token" token st, true).
Proof.
  cbn [saveToken]. unfold getItem, setItem. rewrite lookup_insert_eq.
  rewrite bool_decide_eq_true_2 by reflexivity. reflexivity.
Qed.

End ApiFacts.

(** X14.  [authAPI.loginWithBiometric]: when the backend answers with a
    token, the response is returned, the token and the user (without an
    inline profile image) are in [AsyncStorage], every other key is
    untouched and the next request of the axios instance carries
    "Bearer <token>"; without a token, or when the request fails, storage
    is unchanged and an error is thrown. *)
Theorem biometric_login_persists_session (stringifyUser : BiometricSetup.User -> string)
    (outcome : Api.Fetched) (st : gmap string string) :
  let r := Api.loginWithBiometric stringifyUser outcome st in
  match outcome with
  | Api.FetchOk data =>
      match Str.truthy (BiometricSetup.resp_token data) with
      | Some token =>
          snd r = inr data
          /\ BiometricSetup.getItem "token" (fst r) = Some token
          /\ BiometricSetup.getItem "user" (fst r)
             = Some (stringifyUser (BiometricSetup.userForStorage (BiometricSetup.resp_user data)))
          /\ (forall k, k <> "token" -> k <> "user" ->
              BiometricSetup.getItem k (fst r) = BiometricSetup.getItem k st)
          /\ forall config,
               Api.headers (Api.onRequest (fst r) config) !! "Authorization"
               = Some ("Bearer " +:+ token)
      | None => fst r = st /\ snd r = inl (BiometricSetup.newError Api.msgNoToken)
      end
  | _ => fst r = st /\ exists error, snd r = inl error
  end.
Proof.
  intros r. subst r. destruct outcome as [error|status message|data];
    [split; [reflexivity|eexists; reflexivity]..|].
  unfold Api.loginWithBiometric.
  destruct (Str.truthy (BiometricSetup.resp_token data)) as [token|] eqn:Et;
    [|split; reflexivity].
  rewrite ApiFacts.saveToken_first. cbn [negb].
  assert (Ev : bool_decide (Str.truthy (BiometricSetup.getItem "token"
                                         (BiometricSetup.setItem "token" token st))
                            = Some token) = true).
  { apply bool_decide_eq_true_2. unfold BiometricSetup.getItem, BiometricSetup.setItem.
    rewrite lookup_insert_eq. exact (StringFacts.truthy_idem _ _ Et). }
  rewrite Ev. cbn [negb andb].
  unfold BiometricSetup.getItem, BiometricSetup.setItem.
  rewrite lookup_insert_ne by discriminate. rewrite lookup_insert_eq.
  rewrite (StringFacts.truthy_idem _ _ Et). cbn [defined negb fst snd].
  split; [reflexivity|]. split.
  { rewrite lookup_insert_ne by discriminate. apply lookup_insert_eq. }
  split; [apply lookup_insert_eq|]. split.
  { intros k H1 H2. rewrite !lookup_insert_ne by congruence. reflexivity. }
  intros config. unfold Api.onRequest, BiometricSetup.getItem. cbn [Api.headers].
  match goal with
  | |- context [Str.truthy (?m !! "token")] =>
      assert (Etok : m !! "token" = Some token)
        by (rewrite lookup_insert_ne by discriminate; apply lookup_insert_eq);
      rewrite Etok
  end.
  rewrite (StringFacts.truthy_idem _ _ Et).
  destruct (Str.truthy (_ !! "cookies")), (Api.isFormData config);
    rewrite ?lookup_delete_ne by discriminate; rewrite ?lookup_insert_ne by discriminate;
    apply lookup_insert_eq.
Qed.

(** X15.  The interceptors of the axios instance.  After a successful
    [authAPI.login] the next request carries "Bearer <token>".  A 401 on
    a request whose URL does not contain "/login" removes token, user
    and cookies and nothing else, and the next request gets no
    Authorization or Cookie header from storage.  A failed login, 401
    included, leaves storage as it was. *)
Theorem session_token_round_trip (stringifyUser : BiometricSetup.User -> string)
    (st : gmap string string) :
  (forall (setCookie : option (list string)) (data : BiometricSetup.ResponseData)
          (token : string) (config : Api.Config),
     Str.truthy (BiometricSetup.resp_token data) = Some token ->
     Api.headers
       (Api.onRequest (Api.login stringifyUser (Api.Replied setCookie data) st) config)
     !! "Authorization"
     = Some ("Bearer " +:+ token))
  /\ (forall (url : option string) (config : Api.Config),
        Api.isLoginRequest url = false ->
        let after := Api.onError (Some 401%Z) url st in
        Forall (fun k => BiometricSetup.getItem k after = None) Api.sessionKeys
        /\ (forall k, ~ In k Api.sessionKeys ->
            BiometricSetup.getItem k after = BiometricSetup.getItem k st)
        /\ Api.headers (Api.onRequest after config) !! "Authorization"
           = Api.headers config !! "Authorization"
        /\ Api.headers (Api.onRequest after config) !! "Cookie"
           = Api.headers config !! "Cookie")
  /\ (forall status : option Z, Api.login stringifyUser (Api.Failed status) st = st).
Proof.
  split; [|split].
  - intros setCookie data token config Et.
    unfold Api.login, Api.saveSession. rewrite Et.
    unfold Api.onRequest, BiometricSetup.getItem, BiometricSetup.setItem. cbn [Api.headers].
    match goal with
    | |- context [Str.truthy (?m !! "token")] =>
        assert (Etok : m !! "token" = Some token)
          by (rewrite lookup_insert_ne by discriminate; apply lookup_insert_eq);
        rewrite Etok
    end.
    rewrite (StringFacts.truthy_idem _ _ Et).
    destruct (Str.truthy (_ !! "cookies")), (Api.isFormData config);
      rewrite ?lookup_delete_ne by discriminate; rewrite ?lookup_insert_ne by discriminate;
      apply lookup_insert_eq.
  - intros url config Hurl after. subst after. unfold Api.onError.
    rewrite bool_decide_eq_true_2 by reflexivity. rewrite Hurl. cbn [negb].
    unfold Api.sessionKeys, BiometricSetup.multiRemove, BiometricSetup.getItem. cbn [foldr].
    assert (Et : delete "token" (delete "user" (delete "cookies" st)) !! "token" = None)
      by apply lookup_delete_eq.
    assert (Ec : delete "token" (delete "user" (delete "cookies" st)) !! "cookies" = None).
    { rewrite !lookup_delete_ne by discriminate. apply lookup_delete_eq. }
    split; [|split; [|split]].
    + repeat constructor; try assumption.
      rewrite lookup_delete_ne by discriminate. apply lookup_delete_eq.
    + intros k Hk. rewrite !lookup_delete_ne; [reflexivity|..];
        intros <-; apply Hk; cbn; auto.
    + unfold Api.onRequest, BiometricSetup.getItem. rewrite Et, Ec. cbn [Str.truthy Api.headers].
      destruct (Api.isFormData config); [apply lookup_delete_ne; discriminate|reflexivity].
    + unfold Api.onRequest, BiometricSetup.getItem. rewrite Et, Ec. cbn [Str.truthy Api.headers].
      destruct (Api.isFormData config); [apply lookup_delete_ne; discriminate|reflexivity].
  - intros status. unfold Api.login, Api.onError.
    destruct (bool_decide _); reflexivity.
Qed.

(** X16.  [AuthContext.logout], whether the request to the backend succeeds
    or fails: token, user, cookies and [biometricEnabled] are gone, and
    every other key, the device key and the stored face id among them, is
    unchanged. *)
Theorem logout_keeps_device_credentials (reply : Api.Reply) (st : gmap string string) :
  let after := Api.contextLogout reply st in
  Forall (fun k => BiometricSetup.getItem k after = None)
    ["token"; "user"; "cookies"; "biometricEnabled"]
  /\ forall k, ~ In k ["token"; "user"; "cookies"; "biometricEnabled"] ->
       BiometricSetup.getItem k after = BiometricSetup.getItem k st.
Proof.
  intros after. subst after. unfold Api.contextLogout, Api.logout, Api.onError, Api.onResponse.
  unfold Api.sessionKeys, BiometricSetup.multiRemove, BiometricSetup.getItem,
    BiometricSetup.setItem. cbn [foldr].
  assert (Hl : Api.isLoginRequest (Some "/auth/logout") = false) by (vm_compute; reflexivity).
  rewrite Hl. cbn [negb].
  destruct reply as [[cookies|] data|status]; [| |destruct (bool_decide _)].
  all: split;
    [ repeat constructor;
      repeat first
        [ rewrite lookup_delete_eq
        | rewrite lookup_delete_ne by discriminate
        | rewrite lookup_insert_ne by discriminate ];
      reflexivity
    | intros k Hk;
      repeat first
        [ rewrite lookup_delete_ne by (intros <-; apply Hk; cbn; auto 10)
        | rewrite lookup_insert_ne by (intros <-; apply Hk; cbn; auto 10) ];
      reflexivity ].
Qed.

(** X17.  What a face login sends ([loginWithFaceRecognition] followed by
    the cleaning of [loginWithBiometric]): never the image; the embedding
    when the capture has a non-empty one, and then no face id; otherwise
    the face id; and the device key read from storage, when it is not
    empty. *)
Theorem face_login_request (faceDetected : bool) (currentFaceId : option string)
    (capturedFaceData : option FaceCheckIn.CaptureResult) (storedKey : option string)
    (payload : AuthAPI.LoginData) :
  FaceLogin.loginPayload faceDetected currentFaceId capturedFaceData storedKey = inr payload ->
  let sent := AuthAPI.cleanData payload in
  let embedding := nonEmpty (capturedFaceData ≫= FaceCheckIn.res_faceEmbedding) in
  AuthAPI.faceImage sent = None
  /\ AuthAPI.faceEmbedding sent = embedding
  /\ AuthAPI.faceId sent = (if defined embedding then None else Str.truthy currentFaceId)
  /\ (defined embedding = false -> defined (Str.truthy currentFaceId) = true)
  /\ AuthAPI.fingerprintPublicKey sent = Str.truthy storedKey.
Proof.
  unfold FaceLogin.loginPayload.
  destruct faceDetected; [|discriminate]. cbn [negb].
  destruct (Str.truthy currentFaceId) as [id|] eqn:Eid; [|discriminate].
  assert (Hid : Str.truthy (Some id) = Some id).
  { revert Eid. unfold Str.truthy. destruct currentFaceId as [x|]; [|discriminate].
    destruct (String.eqb x "") eqn:E; [discriminate|]. intros [= <-]. rewrite E. reflexivity. }
  assert (Hkey : Str.truthy (Str.truthy storedKey) = Str.truthy storedKey).
  { unfold Str.truthy. destruct storedKey as [x|]; [|reflexivity].
    destruct (String.eqb x "") eqn:E; [reflexivity|]. rewrite E. reflexivity. }
  destruct (nonEmpty _) as [emb|] eqn:Eemb.
  - intros [= <-]. unfold AuthAPI.cleanData, AuthAPI.primaryEvidence.
    cbn [AuthAPI.faceEmbedding AuthAPI.faceId AuthAPI.faceImage AuthAPI.fingerprintPublicKey
         AuthAPI.faceLandmarks AuthAPI.email AuthAPI.employeeNumber].
    assert (He : nonEmpty (Some emb) = Some emb).
    { revert Eemb. unfold nonEmpty. destruct (_ ≫= _) as [[|v l]|]; try discriminate.
      intros [= <-]. reflexivity. }
    rewrite He, Hkey.
    destruct (Str.truthy storedKey); cbn; repeat split; discriminate.
  - destruct (Str.truthy (_ ≫= FaceCheckIn.res_imageBase64)) as [img|] eqn:Eimg.
    + intros [= <-]. unfold AuthAPI.cleanData, AuthAPI.primaryEvidence.
      cbn [AuthAPI.faceEmbedding AuthAPI.faceId AuthAPI.faceImage AuthAPI.fingerprintPublicKey
           AuthAPI.faceLandmarks AuthAPI.email AuthAPI.employeeNumber].
      rewrite Hid, Hkey. cbn [nonEmpty].
      destruct (Str.truthy storedKey); cbn; repeat split.
    + destruct (_ ≫= FaceCheckIn.landmarksPayload) as [lms|]; [|discriminate].
      intros [= <-]. unfold AuthAPI.cleanData, AuthAPI.primaryEvidence.
      cbn [AuthAPI.faceEmbedding AuthAPI.faceId AuthAPI.faceImage AuthAPI.fingerprintPublicKey
           AuthAPI.faceLandmarks AuthAPI.email AuthAPI.employeeNumber].
      rewrite Hid, Hkey. cbn [nonEmpty].
      destruct (Str.truthy storedKey); cbn; repeat split.
Qed.

(** A capture with an embedding, an image and a face id: the embedding and
    the device key are sent, the image and the face id are not. *)
Lemma face_login_request_witness :
  exists payload : AuthAPI.LoginData,
    FaceLogin.loginPayload true (Some "27a488313") (Some Samples.captured) (Some "MIIBIjANBgkq")
    = inr payload
    /\ AuthAPI.faceImage (AuthAPI.cleanData payload) = None
    /\ AuthAPI.faceId (AuthAPI.cleanData payload) = None
    /\ AuthAPI.fingerprintPublicKey (AuthAPI.cleanData payload) = Some "MIIBIjANBgkq".
Proof.
  eexists. split; [reflexivity|].
  pose proof (face_login_request true (Some "27a488313") (Some Samples.captured)
                (Some "MIIBIjANBgkq") _ eq_refl) as (H1 & _ & H3 & _ & H5).
  split; [exact H1|]. split; [exact H3|exact H5].
Defined.

(** X18.  [handleFaceCaptured] submits a request only for a signed-in user
    with a location, of the kind the modal was opened for, with the face
    id of the capture and the stored device key, and without an alert; it
    calls [getMe] first exactly when no token was stored, and then only
    goes on if a token is found afterwards. *)
Theorem submitted_only_when_signed_in (amb : FaceCheckIn.Ambient)
    (result : FaceCheckIn.CaptureResult) (k : FaceCheckIn.Kind)
    (p : FaceCheckIn.AttendancePayload) :
  FaceCheckIn.submitted (FaceCheckIn.handleFaceCaptured amb result) = Some (k, p) ->
  FaceCheckIn.amb_user amb = true
  /\ FaceCheckIn.amb_isAuthenticated amb = true
  /\ is_Some (FaceCheckIn.amb_location amb)
  /\ k = FaceCheckIn.amb_type amb
  /\ Str.truthy (FaceCheckIn.res_faceId result) = Some (FaceCheckIn.faceId p)
  /\ FaceCheckIn.fingerprintPublicKey p = FaceCheckIn.amb_deviceFingerprint amb
  /\ FaceCheckIn.alert (FaceCheckIn.handleFaceCaptured amb result) = None
  /\ (if FaceCheckIn.calledGetMe (FaceCheckIn.handleFaceCaptured amb result)
      then Str.truthy (FaceCheckIn.amb_token amb) = None
           /\ is_Some (Str.truthy (FaceCheckIn.amb_recoveredToken amb))
      else is_Some (Str.truthy (FaceCheckIn.amb_token amb))).
Proof.
  unfold FaceCheckIn.handleFaceCaptured, FaceCheckIn.closeWith.
  destruct (Str.truthy (FaceCheckIn.res_faceId result)) as [id|]; [|discriminate].
  assert (Hp : forall loc,
             FaceCheckIn.faceId
               (FaceCheckIn.attendancePayload id result loc (FaceCheckIn.amb_deviceFingerprint amb))
             = id
             /\ FaceCheckIn.fingerprintPublicKey
                  (FaceCheckIn.attendancePayload id result loc
                     (FaceCheckIn.amb_deviceFingerprint amb))
                = FaceCheckIn.amb_deviceFingerprint amb).
  { intros loc. unfold FaceCheckIn.attendancePayload.
    destruct (nonEmpty _); [split; reflexivity|].
    destruct (Str.truthy _); [split; reflexivity|].
    destruct (FaceCheckIn.landmarksPayload _); split; reflexivity. }
  destruct (FaceCheckIn.amb_user amb), (FaceCheckIn.amb_isAuthenticated amb),
    (Str.truthy (FaceCheckIn.amb_token amb)) as [t|],
    (Str.truthy (FaceCheckIn.amb_recoveredToken amb)) as [t'|],
    (FaceCheckIn.amb_location amb) as [loc|];
    cbn; intros E; try discriminate E; injection E as <- <-;
    destruct (Hp loc) as [-> ->]; repeat split; eauto.
Qed.

(** A signed-in user with a stored token: the request is submitted without
    a call of [getMe]. *)
Lemma submitted_only_when_signed_in_witness :
  FaceCheckIn.calledGetMe (FaceCheckIn.handleFaceCaptured Examples.signedIn Samples.captured)
  = false
  /\ FaceCheckIn.alert (FaceCheckIn.handleFaceCaptured Examples.signedIn Samples.captured) = None.
Proof.
  split; [reflexivity|].
  exact (proj1 (proj2 (proj2 (proj2 (proj2 (proj2 (proj2
    (submitted_only_when_signed_in Examples.signedIn Samples.captured FaceCheckIn.checkin
       _ eq_refl)))))))).
Defined.

(** ** Reverse geocoding *)

Module LocationFacts.
Import Location StringFacts.

Lemma either_nonempty (a b : option string) (v : string) : either a b = Some v -> v <> "".
Proof.
  unfold either. destruct (Str.truthy a) eqn:E.
  - intros [= <-]. exact (truthy_nonempty _ _ E).
  - apply truthy_nonempty.
Qed.

Lemma either_truthy (a b : option string) : Str.truthy (either a b) = either a b.
Proof.
  destruct (either a b) as [v|] eqn:E; [|reflexivity].
  apply either_nonempty in E. unfold Str.truthy.
  apply String.eqb_neq in E. rewrite E. reflexivity.
Qed.

Lemma coordinates_nonempty (latitude longitude : Q) : coordinates latitude longitude <> "".
Proof.
  unfold coordinates. apply append_nonempty_r. apply append_nonempty_l. discriminate.
Qed.

Lemma join_nonempty (sep : string) (parts : list string) :
  parts <> [] -> Forall (fun p => p <> "") parts -> Text.join sep parts <> "".
Proof.
  destruct parts as [|p rest]; [congruence|]. intros _ H.
  inversion H as [|? ? Hp _]; subst.
  destruct rest as [|q rest]; [exact Hp|].
  cbn [Text.join]. apply append_nonempty_l. exact Hp.
Qed.

Lemma part_nonempty (o : option string) :
  (forall v, o = Some v -> v <> "") -> Forall (fun p => p <> "") (part o).
Proof.
  intros H. destruct o as [v|]; [|constructor].
  constructor; [apply H; reflexivity|constructor].
Qed.

End LocationFacts.

(** X19.  [getAddressFromCoordinates] never returns an empty street name or
    an empty address, whatever the geocoder answers and when the request
    fails. *)
Theorem address_never_empty (latitude longitude : Q) (fetched : Location.Fetched) :
  let place := Location.getAddressFromCoordinates latitude longitude fetched in
  Location.streetName place <> "" /\ Location.fullAddress place <> "".
Proof.
  intros place. subst place. unfold Location.getAddressFromCoordinates.
  pose proof (LocationFacts.coordinates_nonempty latitude longitude) as Hc.
  destruct fetched as [|[data|]]; [split; [discriminate|exact Hc]| |split; [discriminate|exact Hc]].
  destruct (Location.address data) as [a|]; [|split; [discriminate|exact Hc]].
  cbn [Location.streetName Location.fullAddress]. split.
  - destruct (Location.either _ (Location.path a)) as [v|] eqn:E; [|discriminate].
    exact (LocationFacts.either_nonempty _ _ _ E).
  - match goal with
    | |- match ?parts with _ => _ end <> "" =>
        assert (Hall : Forall (fun p => p <> "") parts);
        [|destruct parts as [|p rest] eqn:Ep]
    end.
    + repeat (apply Forall_app; split); apply LocationFacts.part_nonempty; intros v Hv;
        first [ exact (LocationFacts.either_nonempty _ _ _ Hv)
              | exact (StringFacts.truthy_nonempty _ _ Hv) ].
    + destruct (Str.truthy (Location.display_name data)) as [v|] eqn:E; [|exact Hc].
      exact (StringFacts.truthy_nonempty _ _ E).
    + apply LocationFacts.join_nonempty; [discriminate|exact Hall].
Qed.

(** X20.  A failed check-in or check-out.  When the handler tells the user
    that the session has expired, token, user and cookies have been
    removed from storage; an error without status 401 leaves storage as
    it was; the text shown is never empty; and an error classified as a
    timeout shows the timeout message, whatever the backend answered. *)
Theorem failed_request_display (type : FaceCheckIn.Kind) (error : BiometricSetup.ApiError)
    (st : gmap string string) :
  let r := Attendance.requestFailed type error st in
  (snd r = Attendance.SessionExpired ->
   Forall (fun k => BiometricSetup.getItem k (fst r) = None) Api.sessionKeys)
  /\ (BiometricSetup.err_status error <> Some 401%Z -> fst r = st)
  /\ (forall m, snd r = Attendance.ErrorText m -> m <> "")
  /\ (BiometricSetup.codeIs "ECONNABORTED" error
      || Str.includes "timeout" (BiometricSetup.err_message error) = true ->
      snd r = Attendance.ErrorText BiometricSetup.msgTimeout).
Proof.
  intros r. subst r. unfold Attendance.requestFailed. cbn [fst snd].
  assert (Hurl : Api.isLoginRequest (Some (Attendance.endpoint type)) = false)
    by (destruct type; vm_compute; reflexivity).
  split; [|split; [|split]].
  - unfold Attendance.shown, Attendance.rethrow, Api.onError. rewrite Hurl. cbn [negb].
    destruct (_ || Str.includes "timeout" _); [cbn; discriminate|].
    destruct (_ || BiometricSetup.codeIs "ERR_NETWORK" _); [cbn; discriminate|].
    destruct (bool_decide _); [|discriminate]. intros _.
    unfold Api.sessionKeys, BiometricSetup.multiRemove, BiometricSetup.getItem. cbn [foldr].
    repeat constructor.
    + apply lookup_delete_eq.
    + rewrite lookup_delete_ne by discriminate. apply lookup_delete_eq.
    + rewrite !lookup_delete_ne by discriminate. apply lookup_delete_eq.
  - intros Hs. unfold Api.onError. rewrite bool_decide_eq_false_2 by exact Hs. reflexivity.
  - intros m. unfold Attendance.shown.
    destruct (bool_decide _); [discriminate|].
    destruct (Str.truthy (BiometricSetup.err_responseMessage _)) as [m1|] eqn:E1.
    + intros [= <-]. exact (StringFacts.truthy_nonempty _ _ E1).
    + destruct (Str.truthy (Some _)) as [m2|] eqn:E2; intros [= <-].
      * exact (StringFacts.truthy_nonempty _ _ E2).
      * discriminate.
  - intros Ht. unfold Attendance.rethrow. rewrite Ht. reflexivity.
Qed.

(** X21.  [authenticateWithBiometrics] reports success only when biometrics
    are available and the prompt was passed: the prompt of
    react-native-biometrics resolved with success, or it failed (or timed
    out) and the fingerprint scanner then authenticated.  Without
    available biometrics nobody is prompted, the scanner is prompted only
    after the first prompt failed, and every result carries a message. *)
Theorem biometric_success_needs_prompt (typeErrorMessage : string) (d : Biometrics.Device) :
  let r := Biometrics.authenticateWithBiometrics typeErrorMessage d in
  let isAvailable :=
    Biometrics.available <$> Biometrics.checkBiometricAvailability d = Some true in
  (Biometrics.success (fst r) = true <->
   isAvailable
   /\ ((exists result, Biometrics.prompt d = Biometrics.PromptResolved (Some result)
                       /\ Biometrics.prompt_success result = true)
       \/ (Biometrics.prompt d = Biometrics.PromptThrew /\ Biometrics.scan d = Biometrics.Scanned)))
  /\ (~ isAvailable -> snd r = [])
  /\ (In Biometrics.ScannerAuthenticate (snd r) -> Biometrics.prompt d = Biometrics.PromptThrew)
  /\ is_Some (Biometrics.message (fst r)).
Proof.
  intros r isAvailable. subst r isAvailable. unfold Biometrics.authenticateWithBiometrics.
  destruct (Biometrics.checkBiometricAvailability d) as [availability|]; cbn [fmap option_fmap option_map].
  2:{ cbn. repeat split; try discriminate; try tauto; eauto.
      intros (H & _). discriminate H. }
  destruct (Biometrics.available availability); cbn [negb].
  2:{ cbn. repeat split; try discriminate; try tauto; eauto.
      intros (H & _). discriminate H. }
  destruct (Biometrics.prompt d) as [|[result|]]; cbn [fst snd].
  - destruct (Biometrics.scan d) as [|[|name message]]; cbn.
    + repeat split; eauto; try discriminate. intros H. exfalso. apply H. reflexivity.
    + repeat split; eauto; try discriminate.
      * intros (_ & [(result & H & _)|(_ & H)]); discriminate H.
      * intros H. exfalso. apply H. reflexivity.
    + repeat split; eauto; try discriminate.
      * intros (_ & [(result & H & _)|(_ & H)]); discriminate H.
      * intros H. exfalso. apply H. reflexivity.
  - destruct (Biometrics.prompt_success result) eqn:E; cbn.
    + repeat split; eauto; try discriminate.
      * intros H. exfalso. apply H. reflexivity.
      * intros [H|[]]; discriminate H.
    + repeat split; eauto; try discriminate.
      * intros (_ & [(result' & H & H')|(H & _)]); [|discriminate H].
        injection H as <-. congruence.
      * intros H. exfalso. apply H. reflexivity.
      * intros [H|[]]; discriminate H.
  - cbn. repeat split; eauto; try discriminate.
    + intros (_ & [(result' & H & _)|(H & _)]); discriminate H.
    + intros H. exfalso. apply H. reflexivity.
    + intros [H|[]]; discriminate H.
Qed.

(** X22.  The camera format the two screens configure is one the device
    offers; it is absent only when the device offers none; and a format
    outside the preferred range (photo height 1080 to 1920, width 720 to
    1440) is chosen only when no offered format is inside it, and is then
    the first one. *)
Theorem format_is_offered (formats : list Camera.Format) :
  match Camera.format (Some formats) with
  | Some f =>
      In f formats
      /\ (Camera.preferred f = false ->
          Forall (fun g => Camera.preferred g = false) formats /\ head formats = Some f)
  | None => formats = []
  end.
Proof.
  unfold Camera.format.
  destruct (find Camera.preferred formats) as [f|] eqn:E.
  - apply find_some in E. destruct E as [Hin Hp]. split; [exact Hin|]. congruence.
  - destruct formats as [|g rest]; [reflexivity|]. cbn [head]. split; [left; reflexivity|].
    intros _. split; [|reflexivity].
    apply Forall_forall. intros h Hh. apply list_elem_of_In in Hh.
    exact (find_none _ _ E h Hh).
Qed.

(** ** Captures and permission *)

Module CaptureFacts.
Import FaceRecognition FaceCapture Session.
Import TrackerFacts SessionFacts.

Lemma commit_counts (s : Screen) :
  (captureStarts (commit s), captureEvents (commit s), waiting (commit s),
   capturing (commit s), hasPermission (commit s), isCapturing (commit s))
  = (captureStarts s, captureEvents s, waiting s, capturing s, hasPermission s, isCapturing s).
Proof.
  unfold commit, cleanupEffect, runEffect. run_handlers; reflexivity.
Qed.

(** Every capture result, every capture suspended at an await and every
    capture callback suspended in its wait loop is paid for by a started
    capture. *)
Lemma handle_accounted (autoSubmit : bool) (e : Event) (s : Screen) :
  captureEvents s + ((if defined (waiting s) then 1 else 0)
                     + (if defined (capturing s) then 1 else 0)) <= captureStarts s ->
  captureEvents (handle autoSubmit e s)
  + ((if defined (waiting (handle autoSubmit e s)) then 1 else 0)
     + (if defined (capturing (handle autoSubmit e s)) then 1 else 0))
  <= captureStarts (handle autoSubmit e s).
Proof.
  intros H.
  destruct (waiting s) as [w|] eqn:Ew; destruct (capturing s) as [c|] eqn:Ec;
    cbn [defined] in H.
  all: destruct e; unfold handle.
  all: run_all; try congruence.
  all: cbn [captureStarts captureEvents waiting capturing defined];
    rewrite ?Ew, ?Ec;
    repeat match goal with
      | E : ?x = _, H' : context [defined ?x] |- _ => rewrite E in H'; cbn [defined] in H'
      end;
    cbn [defined]; try discriminate; lia.
Qed.

(** Without the camera permission nothing is captured. *)
Lemma handle_unpermitted (autoSubmit : bool) (e : Event) (s : Screen) :
  e <> Permission true ->
  hasPermission s = false /\ captureStarts s = 0 /\ captureEvents s = 0
  /\ isCapturing s = false /\ waiting s = None /\ capturing s = None ->
  let s' := handle autoSubmit e s in
  hasPermission s' = false /\ captureStarts s' = 0 /\ captureEvents s' = 0
  /\ isCapturing s' = false /\ waiting s' = None /\ capturing s' = None.
Proof.
  intros He (H1 & H2 & H3 & H4 & H5 & H6) s'. subst s'.
  destruct e as [| |[]| | | | | | | | | |]; try (exfalso; apply He; reflexivity);
    unfold handle; run_all; unfold cameraRef in *;
    try match goal with
      | Hb : _ && _ = true |- _ =>
          exfalso; cbn [hasPermission set_timers] in Hb; rewrite H1 in Hb;
          cbn [andb] in Hb; rewrite ?andb_false_r in Hb; discriminate Hb
      end;
    cbn [hasPermission captureStarts captureEvents isCapturing waiting capturing];
    repeat split; congruence.
Qed.

End CaptureFacts.

(** X23.  On the capture screen, from mounting on and whatever happens:
    there are never more capture results than captures started by the
    capture timer; [pendingDetectionRef] is set exactly while a
    [detectFaces] call is suspended; and as long as the camera permission
    has not been granted, no capture is started, none completes and
    [isCapturing] stays false. *)
Theorem capture_accounting (autoSubmit : bool) (trace : list FaceCapture.Event) :
  let s := FaceCapture.run autoSubmit FaceCapture.mounted trace in
  FaceCapture.captureEvents s <= FaceCapture.captureStarts s
  /\ FaceCapture.pendingDetectionRef s = defined (FaceCapture.detection s)
  /\ (Forall (fun e => e <> FaceCapture.Permission true) trace ->
      FaceCapture.captureStarts s = 0 /\ FaceCapture.captureEvents s = 0
      /\ FaceCapture.isCapturing s = false).
Proof.
  intros s. subst s. split; [|split].
  - assert (H : FaceCapture.captureEvents FaceCapture.mounted
                + ((if defined (FaceCapture.waiting FaceCapture.mounted) then 1 else 0)
                   + (if defined (FaceCapture.capturing FaceCapture.mounted) then 1 else 0))
                <= FaceCapture.captureStarts FaceCapture.mounted) by (cbn; lia).
    revert H. generalize FaceCapture.mounted as s. unfold FaceCapture.run.
    induction trace as [|e trace IH]; intros s H.
    { cbn [fold_left].
      destruct (defined (FaceCapture.waiting s)), (defined (FaceCapture.capturing s)); lia. }
    cbn [fold_left]. apply IH. unfold FaceCapture.step.
    pose proof (CaptureFacts.commit_counts (FaceCapture.handle autoSubmit e s)) as E.
    injection E as -> -> -> -> _ _.
    apply CaptureFacts.handle_accounted. exact H.
  - apply SessionFacts.pending_while_detecting.
  - assert (H : FaceCapture.hasPermission FaceCapture.mounted = false
                /\ FaceCapture.captureStarts FaceCapture.mounted = 0
                /\ FaceCapture.captureEvents FaceCapture.mounted = 0
                /\ FaceCapture.isCapturing FaceCapture.mounted = false
                /\ FaceCapture.waiting FaceCapture.mounted = None
                /\ FaceCapture.capturing FaceCapture.mounted = None)
      by (repeat split; reflexivity).
    revert H. generalize FaceCapture.mounted as s. unfold FaceCapture.run.
    induction trace as [|e trace IH]; intros s H Htrace.
    + cbn [fold_left]. tauto.
    + inversion Htrace as [|? ? He Hrest]; subst.
      cbn [fold_left]. apply IH; [|exact Hrest]. unfold FaceCapture.step.
      pose proof (CaptureFacts.commit_counts (FaceCapture.handle autoSubmit e s)) as E.
      injection E as -> -> -> -> -> ->.
      apply CaptureFacts.handle_unpermitted; assumption.
Qed.

(** ** Boxes without [left] and [width] *)

(** X24.  [isFaceCentered] reads [left] and [width] only: for a box without
    them (a detector that reports [origin] and [size], or zeros) the face
    centre is taken to be at the left edge, so in an image of positive
    size the face is never centred and the guidance is to move right,
    wherever the face is. *)
Theorem origin_box_never_centred (face : FaceData) (W H : Q) :
  let fr := FaceRecognition.frameOrBounds face in
  Num.truthy (box_left fr) = None -> Num.truthy (box_width fr) = None ->
  (0 < W)%Q -> (0 < H)%Q ->
  FaceRecognition.centered (FaceRecognition.isFaceCentered face W H) = false
  /\ FaceRecognition.message (FaceRecognition.isFaceCentered face W H)
     = Some FaceRecognition.msgMoveRight.
Proof.
  intros fr Hl Hw HW HH. unfold FaceRecognition.isFaceCentered.
  cbn [FaceRecognition.centered FaceRecognition.message].
  assert (Ec : FaceRecognition.faceCenterX face = (0 + 0 / 2)%Q).
  { unfold FaceRecognition.faceCenterX, Num.or_num. fold fr. rewrite Hl, Hw. reflexivity. }
  rewrite Ec. clear Ec.
  assert (E0 : (0 + 0 / 2 == 0)%Q) by reflexivity.
  generalize dependent (0 + 0 / 2)%Q. intros c E0.
  assert (Hin : Num.xleb (Num.xabs (Num.xscale (Num.div (c - W / 2) W) 100))
                  FaceRecognition.threshold = false).
  { apply not_true_is_false. intros Ht.
    apply (CenterFacts.within_threshold c W HW) in Ht.
    destruct Ht as [Ht _]. lra. }
  assert (Hlt : Num.xltb (Num.xscale (Num.div (c - W / 2) W) 100)
                  (- FaceRecognition.threshold) = true).
  { apply (CenterFacts.below_threshold c W HW). lra. }
  assert (Hgt : Num.xgtb (Num.xscale (Num.div (c - W / 2) W) 100)
                  FaceRecognition.threshold = false).
  { apply not_true_is_false. intros Ht.
    apply (CenterFacts.beyond_threshold c W HW) in Ht. lra. }
  rewrite Hin. unfold FaceRecognition.guidance. cbn [andb negb orb].
  rewrite Hgt, Hlt. split; reflexivity.
Qed.

(** A face at (100, 200) of size 200 x 220 in a photo of 400 x 620, which
    passes the quality gate. *)
Lemma origin_box_never_centred_witness :
  FaceRecognition.valid (FaceRecognition.validateFaceQuality (Some Samples.originFace)) = true
  /\ FaceRecognition.centered (FaceRecognition.isFaceCentered Samples.originFace 400 620) = false.
Proof.
  split; [reflexivity|].
  apply (origin_box_never_centred Samples.originFace 400 620); reflexivity.
Defined.

(** ** Fingerprint and password login *)

Module ApiStorageFacts.
Import BiometricSetup Api.

(** [loginWithBiometric] writes the token and the user only; when it
    returns, the token of the response is in storage. *)
Lemma loginWithBiometric_storage (stringifyUser : User -> string) (outcome : Fetched)
    (st : Storage) :
  let r := loginWithBiometric stringifyUser outcome st in
  (forall k, k <> "token" -> k <> "user" -> getItem k (fst r) = getItem k st)
  /\ (forall data, snd r = inr data ->
      exists token, Str.truthy (resp_token data) = Some token
                    /\ getItem "token" (fst r) = Some token).
Proof.
  intros r. subst r. destruct outcome as [error|status message|data];
    [split; [reflexivity|discriminate]..|].
  unfold loginWithBiometric.
  destruct (Str.truthy (resp_token data)) as [token|] eqn:Et;
    [|split; [reflexivity|discriminate]].
  rewrite ApiFacts.saveToken_first. cbn [negb].
  assert (Ev : bool_decide (Str.truthy (getItem "token" (setItem "token" token st))
                            = Some token) = true).
  { apply bool_decide_eq_true_2. unfold getItem, setItem.
    rewrite lookup_insert_eq. exact (StringFacts.truthy_idem _ _ Et). }
  rewrite Ev. cbn [negb andb].
  unfold getItem, setItem.
  rewrite lookup_insert_ne by discriminate. rewrite lookup_insert_eq.
  rewrite (StringFacts.truthy_idem _ _ Et). cbn [defined negb fst snd].
  split.
  - intros k H1 H2. rewrite !lookup_insert_ne by congruence. reflexivity.
  - intros data' [= <-]. exists token. split; [exact Et|].
    rewrite lookup_insert_ne by discriminate. apply lookup_insert_eq.
Qed.

End ApiStorageFacts.

Module BiometricLoginFacts.
Import BiometricSetup BiometricLogin.

Lemma keyOnly_clean (key : string) :
  Str.truthy (Some key) = Some key -> AuthAPI.cleanData (keyOnly key) = keyOnly key.
Proof.
  intros H. unfold AuthAPI.cleanData, AuthAPI.primaryEvidence, keyOnly.
  cbn [AuthAPI.faceId AuthAPI.faceEmbedding AuthAPI.faceImage AuthAPI.faceLandmarks
       AuthAPI.fingerprintPublicKey AuthAPI.email AuthAPI.employeeNumber nonEmpty].
  rewrite H. reflexivity.
Qed.

Lemma storedCredentials_requests (stringifyUser : User -> string) (w : World)
    (sent : list Request) (st : Storage) :
  exists more,
    requests (storedCredentials stringifyUser w sent st) = (sent ++ more)%list
    /\ Forall (follows st) more.
Proof.
  unfold storedCredentials.
  destruct (negb _ && negb _).
  { exists []. rewrite app_nil_r. split; [reflexivity|constructor]. }
  destruct (Str.truthy (getItem "biometricPassword" st)) as [password|] eqn:Ep.
  - destruct (Str.truthy (getItem "biometricEmail" st)) as [email|];
      eexists; (split; [reflexivity|]); (constructor; [|constructor]); right; eauto.
  - destruct (Str.truthy (getItem "token" st)).
    + destruct (getMe w); eexists; (split; [reflexivity|]); (constructor; [|constructor]);
        left; reflexivity.
    + exists []. rewrite app_nil_r. split; [reflexivity|constructor].
Qed.

Lemma fingerprintRoute_requests (stringifyUser : User -> string) (w : World)
    (key : string) (st : Storage) :
  exists more,
    requests (fingerprintRoute stringifyUser w key st)
    = BiometricLogin (AuthAPI.cleanData (keyOnly key)) :: more
    /\ Forall (follows st) more.
Proof.
  unfold fingerprintRoute.
  destruct (ApiStorageFacts.loginWithBiometric_storage stringifyUser (fingerprintLogin w) st)
    as [Hother _].
  destruct (Api.loginWithBiometric stringifyUser (fingerprintLogin w) st) as [st2 result].
  cbn [fst] in Hother.
  assert (Hst : forall r, follows st2 r -> follows st r).
  { intros r [->|(e & n & p & -> & Hp)]; [left; reflexivity|right].
    exists e, n, p. split; [reflexivity|]. rewrite <- Hother by discriminate. exact Hp. }
  assert (Hfall : exists more,
             requests (storedCredentials stringifyUser w
                         [BiometricLogin (AuthAPI.cleanData (keyOnly key))] st2)
             = BiometricLogin (AuthAPI.cleanData (keyOnly key)) :: more
             /\ Forall (follows st) more).
  { destruct (storedCredentials_requests stringifyUser w
                [BiometricLogin (AuthAPI.cleanData (keyOnly key))] st2) as (more & E & Hm).
    exists more. split; [exact E|]. eapply Forall_impl; [exact Hm|exact Hst]. }
  destruct result as [err|response]; [exact Hfall|].
  destruct (rejected w); [exact Hfall|].
  destruct (resp_user response) as [user|]; [|exact Hfall].
  destruct (getMe w); eexists; (split; [reflexivity|]); (constructor; [|constructor]);
    left; reflexivity.
Qed.

End BiometricLoginFacts.

(** X25.  [AuthContext.loginWithBiometrics].  Unless biometrics are
    available and the prompt was passed, no request is sent, storage is
    untouched and an error is thrown.  The biometric login request carries
    the device key and nothing else: the key in storage or, when there is
    none, the one the device holds.  A login with the stored password
    sends the password found in storage.  And when, after a successful
    fingerprint login, [getMe] is answered with 401, the function still
    ends logged in although the error interceptor has removed the token
    that was just saved. *)
Theorem fingerprint_login_gate (stringifyUser : BiometricSetup.User -> string)
    (typeErrorMessage : string) (w : BiometricLogin.World) (st : gmap string string) :
  let o := BiometricLogin.loginWithBiometrics stringifyUser typeErrorMessage w st in
  let passed :=
    BiometricLogin.biometricAvailable w
    && Biometrics.success
         (fst (Biometrics.authenticateWithBiometrics typeErrorMessage (BiometricLogin.device w))) in
  (passed = false ->
   BiometricLogin.requests o = [] /\ BiometricLogin.storage o = st
   /\ exists m, BiometricLogin.ending o = BiometricLogin.Thrown m)
  /\ (forall body, In (BiometricLogin.BiometricLogin body) (BiometricLogin.requests o) ->
      exists key,
        body = BiometricLogin.keyOnly key
        /\ (Str.truthy (BiometricSetup.getItem "fingerprintPublicKey" st) = Some key
            \/ (Str.truthy (BiometricSetup.getItem "fingerprintPublicKey" st) = None
                /\ fst (BiometricLogin.existingKey w) = true
                /\ Str.truthy (snd (BiometricLogin.existingKey w)) = Some key)))
  /\ (forall email employeeNumber password,
        In (BiometricLogin.PasswordLogin email employeeNumber password)
           (BiometricLogin.requests o) ->
        Str.truthy (BiometricSetup.getItem "biometricPassword" st) = Some password)
  /\ (forall response user,
        passed = true ->
        is_Some (Str.truthy (BiometricSetup.getItem "fingerprintPublicKey" st)) ->
        BiometricLogin.fingerprintLogin w = Api.FetchOk response ->
        is_Some (Str.truthy (BiometricSetup.resp_token response)) ->
        BiometricLogin.rejected w = false ->
        BiometricSetup.resp_user response = Some user ->
        BiometricLogin.getMe w = Api.Failed (Some 401%Z) ->
        BiometricLogin.ending o = BiometricLogin.LoggedIn (Some user)
        /\ BiometricSetup.getItem "token" (BiometricLogin.storage o) = None).
Proof.
  intros o passed. subst o passed. unfold BiometricLogin.loginWithBiometrics.
  destruct (BiometricLogin.biometricAvailable w); cbn [negb andb].
  2:{ split; [intros _; repeat split; eexists; reflexivity|].
      split; [intros body []|]. split; [intros e n p []|]. intros; discriminate. }
  destruct (Biometrics.success _); cbn [negb].
  2:{ split; [intros _; repeat split; eexists; reflexivity|].
      split; [intros body []|]. split; [intros e n p []|]. intros; discriminate. }
  split; [discriminate|].
  assert (Hkey : forall key st1 body,
             (forall k, k <> "fingerprintPublicKey" ->
                        BiometricSetup.getItem k st1 = BiometricSetup.getItem k st) ->
             Str.truthy (Some key) = Some key ->
             In (BiometricLogin.BiometricLogin body)
                (BiometricLogin.requests
                   (BiometricLogin.fingerprintRoute stringifyUser w key st1)) ->
             body = BiometricLogin.keyOnly key).
  { intros key st1 body Hst1 Ht Hin.
    destruct (BiometricLoginFacts.fingerprintRoute_requests stringifyUser w key st1)
      as (more & E & Hm).
    rewrite E in Hin. destruct Hin as [[= <-]|Hin].
    - apply BiometricLoginFacts.keyOnly_clean. exact Ht.
    - rewrite List.Forall_forall in Hm. destruct (Hm _ Hin) as [H|(e & n & p & H & _)];
        discriminate H. }
  assert (Hpw : forall key st1 e n p,
             (forall k, k <> "fingerprintPublicKey" ->
                        BiometricSetup.getItem k st1 = BiometricSetup.getItem k st) ->
             In (BiometricLogin.PasswordLogin e n p)
                (BiometricLogin.requests
                   (BiometricLogin.fingerprintRoute stringifyUser w key st1)) ->
             Str.truthy (BiometricSetup.getItem "biometricPassword" st) = Some p).
  { intros key st1 e n p Hst1 Hin.
    destruct (BiometricLoginFacts.fingerprintRoute_requests stringifyUser w key st1)
      as (more & E & Hm).
    rewrite E in Hin. destruct Hin as [Hin|Hin]; [discriminate Hin|].
    rewrite List.Forall_forall in Hm. destruct (Hm _ Hin) as [H|(e' & n' & p' & H & Hp)];
      [discriminate H|].
    injection H as -> -> ->. rewrite <- Hst1 by discriminate. exact Hp. }
  assert (Hfb : forall e n p,
             In (BiometricLogin.PasswordLogin e n p)
                (BiometricLogin.requests (BiometricLogin.storedCredentials stringifyUser w [] st)) ->
             Str.truthy (BiometricSetup.getItem "biometricPassword" st) = Some p).
  { intros e n p Hin.
    destruct (BiometricLoginFacts.storedCredentials_requests stringifyUser w [] st)
      as (more & E & Hm).
    rewrite E in Hin. cbn [app] in Hin.
    rewrite List.Forall_forall in Hm. destruct (Hm _ Hin) as [H|(e' & n' & p' & H & Hp)];
      [discriminate H|].
    injection H as -> -> ->. exact Hp. }
  assert (Hnb : forall body,
             ~ In (BiometricLogin.BiometricLogin body)
                 (BiometricLogin.requests (BiometricLogin.storedCredentials stringifyUser w [] st))).
  { intros body Hin.
    destruct (BiometricLoginFacts.storedCredentials_requests stringifyUser w [] st)
      as (more & E & Hm).
    rewrite E in Hin. cbn [app] in Hin.
    rewrite List.Forall_forall in Hm. destruct (Hm _ Hin) as [H|(e' & n' & p' & H & Hp)];
      discriminate H. }
  destruct (Str.truthy (BiometricSetup.getItem "fingerprintPublicKey" st)) as [key|] eqn:Ek.
  - split; [|split].
    + intros body Hin. exists key. split; [|left; reflexivity].
      apply (Hkey key st body); [reflexivity|exact (StringFacts.truthy_idem _ _ Ek)|exact Hin].
    + intros e n p Hin. apply (Hpw key st e n p); [reflexivity|exact Hin].
    + intros response user _ _ El [token Et] Hr Hu Hg.
      unfold BiometricLogin.fingerprintRoute.
      destruct (ApiStorageFacts.loginWithBiometric_storage stringifyUser
                  (BiometricLogin.fingerprintLogin w) st) as [_ Hret].
      rewrite El in *.
      unfold Api.loginWithBiometric in *. rewrite Et in *.
      rewrite ApiFacts.saveToken_first in *. cbn [negb] in *.
      assert (Ev : bool_decide (Str.truthy (BiometricSetup.getItem "token"
                                             (BiometricSetup.setItem "token" token st))
                                = Some token) = true).
      { apply bool_decide_eq_true_2. unfold BiometricSetup.getItem, BiometricSetup.setItem.
        rewrite lookup_insert_eq. exact (StringFacts.truthy_idem _ _ Et). }
      rewrite Ev. cbn [negb andb].
      clear Hret.
      match goal with
      | |- context [if negb (defined ?t) then _ else _] => destruct (negb (defined t))
      end; rewrite Hr, Hu, Hg; cbn [BiometricLogin.ending BiometricLogin.storage];
        (split; [reflexivity|]);
        unfold BiometricLogin.setIfTruthy, Api.onError, Api.sessionKeys,
          BiometricSetup.multiRemove, BiometricSetup.getItem, BiometricSetup.setItem;
        rewrite bool_decide_eq_true_2 by reflexivity;
        change (Api.isLoginRequest (Some "/auth/me")) with false; cbn [negb foldr];
        destruct (Str.truthy (BiometricSetup.user_email user)),
          (Str.truthy (BiometricSetup.user_employeeNumber user));
        rewrite ?lookup_insert_ne by discriminate; apply lookup_delete_eq.
  - destruct (BiometricLogin.existingKey w) as [[|] publicKey]; cbn [fst snd].
    + destruct (Str.truthy publicKey) as [key|] eqn:Ep.
      * assert (Hst1 : forall k, k <> "fingerprintPublicKey" ->
                  BiometricSetup.getItem k (BiometricSetup.setItem "fingerprintPublicKey" key st)
                  = BiometricSetup.getItem k st).
        { intros k Hk. unfold BiometricSetup.getItem, BiometricSetup.setItem.
          apply lookup_insert_ne. congruence. }
        split; [|split].
        -- intros body Hin. exists key. split; [|right; repeat split; reflexivity].
           apply (Hkey key _ body Hst1); [exact (StringFacts.truthy_idem _ _ Ep)|exact Hin].
        -- intros e n p Hin. apply (Hpw key _ e n p Hst1 Hin).
        -- intros response user _ [k Hk]. discriminate Hk.
      * split; [intros body Hin; destruct (Hnb body Hin)|].
        split; [exact Hfb|]. intros response user _ [k Hk]. discriminate Hk.
    + split; [intros body Hin; destruct (Hnb body Hin)|].
      split; [exact Hfb|]. intros response user _ [k Hk]. discriminate Hk.
Qed.

(** The prompt is passed, the backend accepts the stored key and then
    answers [getMe] with 401. *)
Lemma fingerprint_login_gate_witness :
  let o := BiometricLogin.loginWithBiometrics (fun _ => "") "" Samples.unauthorizedGetMe
             Samples.keyStore in
  BiometricLogin.ending o = BiometricLogin.LoggedIn (Some Samples.employee)
  /\ BiometricSetup.getItem "token" (BiometricLogin.storage o) = None.
Proof.
  apply (proj2 (proj2 (proj2 (fingerprint_login_gate (fun _ => "") ""
                                Samples.unauthorizedGetMe Samples.keyStore)))
           Samples.accepted Samples.employee);
    first [reflexivity | vm_compute; eexists; reflexivity].
Defined.

Module PasswordLoginFacts.
Import BiometricSetup PasswordLogin.

Ltac unfold_storage :=
  unfold Api.login, Api.saveSession, Api.onResponse, Api.onError, Api.contextLogout,
    Api.logout, Api.sessionKeys, multiRemove, getItem, setItem in *;
  cbn [foldr] in *.

Ltac lookup_other :=
  repeat first
    [ rewrite lookup_insert_ne by (discriminate || congruence)
    | rewrite lookup_delete_ne by (discriminate || congruence) ].

(** The stored credentials are not session data: the session handling of
    [services/api] leaves them alone. *)
Lemma session_keeps (stringifyUser : User -> string) (k : string) :
  k <> "token" -> k <> "user" -> k <> "cookies" ->
  (forall reply st, getItem k (Api.login stringifyUser reply st) = getItem k st)
  /\ (forall setCookie st, getItem k (Api.onResponse setCookie st) = getItem k st)
  /\ (forall status url st, getItem k (Api.onError status url st) = getItem k st).
Proof.
  intros H1 H2 H3. repeat split.
  - intros [setCookie data|status] st; unfold_storage; repeat case_match; lookup_other;
      reflexivity.
  - intros [cookies|] st; unfold_storage; lookup_other; reflexivity.
  - intros status url st; unfold_storage; repeat case_match; lookup_other; reflexivity.
Qed.

End PasswordLoginFacts.

Module CredentialFacts.
Import BiometricSetup.

(** [AuthContext.logout] leaves every key besides the four it removes. *)
Lemma contextLogout_keeps (reply : Api.Reply) (st : Storage) (k : string) :
  ~ In k ["token"; "user"; "cookies"; "biometricEnabled"] ->
  getItem k (Api.contextLogout reply st) = getItem k st.
Proof.
  intros Hk.
  unfold Api.contextLogout, Api.logout, Api.onError, Api.onResponse, Api.sessionKeys,
    multiRemove, getItem, setItem.
  cbn [foldr].
  destruct reply as [[cookies|] data|status]; repeat case_match;
    rewrite ?lookup_delete_ne by (intros <-; apply Hk; cbn; auto 10);
    rewrite ?lookup_insert_ne by (intros <-; apply Hk; cbn; auto 10);
    rewrite ?lookup_delete_ne by (intros <-; apply Hk; cbn; auto 10); reflexivity.
Qed.

Lemma credentialKey_cases (emailOrEmployeeNumber : string) :
  PasswordLogin.credentialKey emailOrEmployeeNumber = "biometricEmail"
  \/ PasswordLogin.credentialKey emailOrEmployeeNumber = "biometricEmployeeNumber".
Proof.
  unfold PasswordLogin.credentialKey. destruct (Str.includes _ _); auto.
Qed.

(** What [AuthContext.login] leaves in storage when it ends logged in. *)
Lemma login_storage (stringifyUser : User -> string) (typeErrorMessage : string)
    (w : PasswordLogin.World) (emailOrEmployeeNumber password : string) (st : Storage)
    (user : option User) :
  let o := PasswordLogin.login stringifyUser typeErrorMessage w emailOrEmployeeNumber
             password st in
  PasswordLogin.ending o = BiometricLogin.LoggedIn user ->
  getItem "biometricPassword" (PasswordLogin.storage o) = Some password
  /\ getItem (PasswordLogin.credentialKey emailOrEmployeeNumber) (PasswordLogin.storage o)
     = Some emailOrEmployeeNumber
  /\ (forall k,
        ~ In k ["token"; "user"; "cookies"; "biometricPassword"; "biometricEnabled";
                PasswordLogin.credentialKey emailOrEmployeeNumber] ->
        getItem k (PasswordLogin.storage o) = getItem k st).
Proof.
  intros o. subst o. unfold PasswordLogin.login.
  pose proof (credentialKey_cases emailOrEmployeeNumber) as Hck.
  destruct (PasswordLogin.loginReply w) as [setCookie response|failure];
    cbn [PasswordLogin.reply PasswordLogin.ending PasswordLogin.storage]; [|discriminate].
  destruct (PasswordLogin.rejected w);
    cbn [PasswordLogin.ending PasswordLogin.storage]; [discriminate|].
  set (st1 := Api.login stringifyUser (Api.Replied setCookie response) st).
  match goal with
  | |- context [let '(st2, shown) := ?e in _] => destruct e as [st2 shown] eqn:Eg
  end.
  assert (Hst2 : forall k, k <> "token" -> k <> "user" -> k <> "cookies" ->
                   getItem k st2 = getItem k st).
  { intros k H1 H2 H3.
    destruct (PasswordLoginFacts.session_keeps stringifyUser k H1 H2 H3) as (Ka & Kb & Kc).
    rewrite <- (Ka (Api.Replied setCookie response) st). fold st1.
    destruct (PasswordLogin.getMe w) as [c fresh|status]; injection Eg as <- _.
    - destruct (resp_user fresh); [|apply Kb].
      rewrite <- (Kb c st1). unfold getItem, setItem.
      apply lookup_insert_ne. congruence.
    - destruct (resp_user response); [|apply Kc].
      rewrite <- (Kc status (Some "/auth/me") st1).
      unfold getItem, setItem.
      apply lookup_insert_ne. congruence. }
  clear Eg.
  assert (Hfinal : forall st4,
            st4 = setItem "biometricPassword" password
                    (setItem
                       (PasswordLogin.credentialKey emailOrEmployeeNumber)
                       emailOrEmployeeNumber st2)
            \/ st4 = setItem "biometricEnabled" "true"
                       (setItem "biometricPassword" password
                          (setItem
                             (PasswordLogin.credentialKey emailOrEmployeeNumber)
                             emailOrEmployeeNumber st2)) ->
            getItem "biometricPassword" st4 = Some password
            /\ getItem (PasswordLogin.credentialKey emailOrEmployeeNumber) st4
               = Some emailOrEmployeeNumber
            /\ (forall k,
                  ~ In k ["token"; "user"; "cookies"; "biometricPassword"; "biometricEnabled";
                          PasswordLogin.credentialKey emailOrEmployeeNumber] ->
                  getItem k st4 = getItem k st)).
  { intros st4 Hst4.
    assert (Hp : getItem "biometricPassword" st4 = Some password).
    { destruct Hst4 as [->| ->]; unfold getItem, setItem;
        [|rewrite lookup_insert_ne by discriminate]; apply lookup_insert_eq. }
    split; [exact Hp|]. split.
    - destruct Hst4 as [->| ->], Hck as [Ek|Ek]; rewrite Ek;
        unfold getItem, setItem;
        rewrite ?(lookup_insert_ne _ "biometricEnabled") by discriminate;
        rewrite ?(lookup_insert_ne _ "biometricPassword") by discriminate;
        apply lookup_insert_eq.
    - intros k Hk. rewrite <- Hst2 by (intros ->; apply Hk; cbn; auto 10).
      destruct Hst4 as [->| ->]; unfold getItem, setItem;
        rewrite !lookup_insert_ne by (intros <-; apply Hk; cbn; auto 10); reflexivity. }
  destruct (PasswordLogin.biometricAvailable w).
  - destruct (resp_user response);
      cbn [PasswordLogin.ending PasswordLogin.storage]; [|discriminate].
    intros _. apply Hfinal. destruct (PasswordLogin.faceIdEnabled w); auto.
  - cbn [PasswordLogin.ending PasswordLogin.storage]. intros _. apply Hfinal. auto.
Qed.

End CredentialFacts.

(** X26.  [AuthContext.login].  When it ends logged in, the password and
    the identifier are in [AsyncStorage] in plain text (the identifier
    under [biometricEmail] when it contains an at sign, under
    [biometricEmployeeNumber] otherwise), every key besides these, the
    session keys and [biometricEnabled] is untouched, and the password is
    still there after [AuthContext.logout].  A failed request writes
    nothing.  A login the backend answers with [approvalStatus] rejected
    throws, but the token of the response stays in storage. *)
Theorem login_saves_credentials (stringifyUser : BiometricSetup.User -> string)
    (typeErrorMessage : string) (w : PasswordLogin.World)
    (emailOrEmployeeNumber password : string) (st : gmap string string) :
  let o := PasswordLogin.login stringifyUser typeErrorMessage w emailOrEmployeeNumber
             password st in
  (forall user, PasswordLogin.ending o = BiometricLogin.LoggedIn user ->
     BiometricSetup.getItem "biometricPassword" (PasswordLogin.storage o) = Some password
     /\ BiometricSetup.getItem (PasswordLogin.credentialKey emailOrEmployeeNumber)
          (PasswordLogin.storage o) = Some emailOrEmployeeNumber
     /\ (forall k,
           ~ In k ["token"; "user"; "cookies"; "biometricPassword"; "biometricEnabled";
                   PasswordLogin.credentialKey emailOrEmployeeNumber] ->
           BiometricSetup.getItem k (PasswordLogin.storage o) = BiometricSetup.getItem k st)
     /\ forall reply,
          BiometricSetup.getItem "biometricPassword"
            (Api.contextLogout reply (PasswordLogin.storage o)) = Some password)
  /\ (forall failure, PasswordLogin.loginReply w = PasswordLogin.LoginFailed failure ->
      PasswordLogin.storage o = st
      /\ PasswordLogin.ending o = BiometricLogin.Thrown (PasswordLogin.rethrown failure))
  /\ (forall setCookie data token,
        PasswordLogin.loginReply w = PasswordLogin.LoginReplied setCookie data ->
        PasswordLogin.rejected w = true ->
        Str.truthy (BiometricSetup.resp_token data) = Some token ->
        (exists m, PasswordLogin.ending o = BiometricLogin.Thrown m)
        /\ BiometricSetup.getItem "token" (PasswordLogin.storage o) = Some token).
Proof.
  intros o. subst o. split; [|split].
  - intros user Hend.
    destruct (CredentialFacts.login_storage stringifyUser typeErrorMessage w
                emailOrEmployeeNumber password st user Hend) as (Hp & Hk & Hother).
    split; [exact Hp|]. split; [exact Hk|]. split; [exact Hother|].
    intros reply. rewrite <- Hp. apply CredentialFacts.contextLogout_keeps.
    cbn. intros [H|[H|[H|[H|[]]]]]; discriminate H.
  - intros failure E. unfold PasswordLogin.login. rewrite E.
    cbn [PasswordLogin.reply PasswordLogin.ending PasswordLogin.storage].
    split; [|reflexivity].
    unfold Api.login, Api.onError.
    change (Api.isLoginRequest (Some "/auth/login")) with true. cbn [negb].
    destruct (bool_decide _); reflexivity.
  - intros setCookie data token E Er Et. unfold PasswordLogin.login. rewrite E, Er.
    cbn [PasswordLogin.reply PasswordLogin.ending PasswordLogin.storage].
    split; [eexists; reflexivity|].
    unfold Api.login, Api.saveSession. rewrite Et.
    unfold BiometricSetup.getItem, BiometricSetup.setItem.
    rewrite lookup_insert_ne by discriminate. apply lookup_insert_eq.
Qed.

(** X27.  The credentials [AuthContext.login] saves are the ones
    [AuthContext.loginWithBiometrics] replays.  After a login that ended
    logged in and a logout, on a device without a device key, a passed
    biometric prompt sends one login request with the saved password: with
    the identifier just used when it is an email address; but after a
    login by employee number on a device where an email address was saved
    before, with that older email address and the new password. *)
Theorem saved_credentials_replayed (stringifyUser : BiometricSetup.User -> string)
    (typeErrorMessage : string) (w : PasswordLogin.World) (bw : BiometricLogin.World)
    (emailOrEmployeeNumber password : string) (st : gmap string string)
    (user : option BiometricSetup.User) (reply : Api.Reply) :
  let o := PasswordLogin.login stringifyUser typeErrorMessage w emailOrEmployeeNumber
             password st in
  let sent :=
    BiometricLogin.requests
      (BiometricLogin.loginWithBiometrics stringifyUser typeErrorMessage bw
         (Api.contextLogout reply (PasswordLogin.storage o))) in
  PasswordLogin.ending o = BiometricLogin.LoggedIn user ->
  password <> "" ->
  BiometricLogin.biometricAvailable bw = true ->
  Biometrics.success
    (fst (Biometrics.authenticateWithBiometrics typeErrorMessage (BiometricLogin.device bw)))
  = true ->
  Str.truthy (BiometricSetup.getItem "fingerprintPublicKey" st) = None ->
  fst (BiometricLogin.existingKey bw) = false ->
  (Str.includes "@" emailOrEmployeeNumber = true ->
   sent = [BiometricLogin.PasswordLogin (Some emailOrEmployeeNumber) None password])
  /\ (Str.includes "@" emailOrEmployeeNumber = false ->
      forall email, Str.truthy (BiometricSetup.getItem "biometricEmail" st) = Some email ->
      sent = [BiometricLogin.PasswordLogin (Some email) None password]).
Proof.
  intros o sent Hend Hpw Hav Hok Hnokey Hnodev. subst sent.
  destruct (CredentialFacts.login_storage stringifyUser typeErrorMessage w
              emailOrEmployeeNumber password st user Hend) as (Hp & Hk & Hother).
  fold o in Hp, Hk, Hother.
  set (st2 := Api.contextLogout reply (PasswordLogin.storage o)).
  assert (Hkeep : forall k, ~ In k ["token"; "user"; "cookies"; "biometricEnabled"] ->
                    BiometricSetup.getItem k st2
                    = BiometricSetup.getItem k (PasswordLogin.storage o)).
  { intros k. apply CredentialFacts.contextLogout_keeps. }
  assert (Hkey2 : Str.truthy (BiometricSetup.getItem "fingerprintPublicKey" st2) = None).
  { rewrite Hkeep by (cbn; intros [H|[H|[H|[H|[]]]]]; discriminate H).
    rewrite Hother; [exact Hnokey|].
    destruct (CredentialFacts.credentialKey_cases emailOrEmployeeNumber) as [E|E];
      rewrite E; cbn; intros [H|[H|[H|[H|[H|[H|[]]]]]]]; discriminate H. }
  assert (Hpw2 : Str.truthy (BiometricSetup.getItem "biometricPassword" st2) = Some password).
  { rewrite Hkeep by (cbn; intros [H|[H|[H|[H|[]]]]]; discriminate H).
    rewrite Hp. unfold Str.truthy.
    destruct (String.eqb password "") eqn:E; [apply String.eqb_eq in E; congruence|reflexivity]. }
  assert (Hsent : forall email,
             Str.truthy (BiometricSetup.getItem "biometricEmail" st2) = Some email ->
             BiometricLogin.requests
               (BiometricLogin.loginWithBiometrics stringifyUser typeErrorMessage bw st2)
             = [BiometricLogin.PasswordLogin (Some email) None password]).
  { intros email He. unfold BiometricLogin.loginWithBiometrics.
    rewrite Hav, Hok, Hkey2. cbn [negb].
    destruct (BiometricLogin.existingKey bw) as [success publicKey]. cbn [fst] in Hnodev.
    subst success. unfold BiometricLogin.storedCredentials. rewrite He, Hpw2.
    reflexivity. }
  split.
  - intros Hat. apply Hsent.
    rewrite Hkeep by (cbn; intros [H|[H|[H|[H|[]]]]]; discriminate H).
    unfold PasswordLogin.credentialKey in Hk. rewrite Hat in Hk. rewrite Hk.
    unfold Str.truthy. destruct (String.eqb emailOrEmployeeNumber "") eqn:E; [|reflexivity].
    apply String.eqb_eq in E. subst. discriminate Hat.
  - intros Hat email He. apply Hsent.
    rewrite Hkeep by (cbn; intros [H|[H|[H|[H|[]]]]]; discriminate H).
    rewrite Hother; [exact He|].
    unfold PasswordLogin.credentialKey. rewrite Hat.
    cbn. intros [H|[H|[H|[H|[H|[H|[]]]]]]]; discriminate H.
Qed.

(** The employee logs in with the number E-17 and a new password on a
    device where old@b.c was saved: the biometric login sends old@b.c
    with the new password. *)
Lemma saved_credentials_replayed_witness :
  BiometricLogin.requests
    (BiometricLogin.loginWithBiometrics (fun _ => "") "" Samples.noDeviceKey
       (Api.contextLogout (Api.Failed None)
          (PasswordLogin.storage
             (PasswordLogin.login (fun _ => "") "" Samples.byEmployeeNumber "E-17" "secret"
                Samples.earlierEmail))))
  = [BiometricLogin.PasswordLogin (Some "old@b.c") None "secret"].
Proof.
  refine (proj2 (saved_credentials_replayed (fun _ => "") "" Samples.byEmployeeNumber
                   Samples.noDeviceKey "E-17" "secret" Samples.earlierEmail
                   (Some Samples.employee) (Api.Failed None)
                   eq_refl _ eq_refl eq_refl eq_refl eq_refl) eq_refl "old@b.c" eq_refl).
  discriminate.
Defined.

(** ** The stored capture result *)

(** X28.  A check-in composed from a stored capture result never carries
    the face image: [storeFaceCaptureResult] leaves [imageBase64] out, so
    the request carries the embedding when the capture has a non-empty
    one and otherwise the landmarks (or the features) of the capture.
    The result is used only while the modal is capturing and the result
    is less than ten seconds old. *)
Theorem stored_capture_sends_no_image (payload : FaceCheckIn.CaptureResult)
    (stored now : Z) (capturing : bool) (amb : FaceCheckIn.Ambient)
    (o : FaceCheckIn.Outcome) (k : FaceCheckIn.Kind) (p : FaceCheckIn.AttendancePayload) :
  CaptureStore.checkFaceResult (Some (CaptureStore.storeFaceCaptureResult payload stored))
    now capturing amb = Some o ->
  FaceCheckIn.submitted o = Some (k, p) ->
  FaceCheckIn.faceImage p = None
  /\ FaceCheckIn.faceEmbedding p = nonEmpty (FaceCheckIn.res_faceEmbedding payload)
  /\ (nonEmpty (FaceCheckIn.res_faceEmbedding payload) = None ->
      FaceCheckIn.faceLandmarks p = FaceCheckIn.landmarksPayload payload)
  /\ (now - stored < 10000)%Z /\ capturing = true.
Proof.
  unfold CaptureStore.checkFaceResult, CaptureStore.storeFaceCaptureResult.
  cbn [CaptureStore.stored_timestamp CaptureStore.stored_result].
  destruct (now - stored <? 10000)%Z eqn:Et; [|discriminate].
  destruct capturing; [|discriminate]. cbn [andb]. intros [= <-].
  apply Z.ltb_lt in Et.
  unfold FaceCheckIn.handleFaceCaptured, FaceCheckIn.closeWith.
  cbn [FaceCheckIn.res_faceId].
  destruct (Str.truthy (FaceCheckIn.res_faceId payload)) as [id|]; [|discriminate].
  assert (Hp : forall loc fp,
             let q := FaceCheckIn.attendancePayload id
                        {| FaceCheckIn.res_faceId := FaceCheckIn.res_faceId payload;
                           FaceCheckIn.res_faceEmbedding := FaceCheckIn.res_faceEmbedding payload;
                           FaceCheckIn.res_faceData := FaceCheckIn.res_faceData payload;
                           FaceCheckIn.res_faceFeatures := FaceCheckIn.res_faceFeatures payload;
                           FaceCheckIn.res_imageBase64 := None |} loc fp in
             FaceCheckIn.faceImage q = None
             /\ FaceCheckIn.faceEmbedding q = nonEmpty (FaceCheckIn.res_faceEmbedding payload)
             /\ (nonEmpty (FaceCheckIn.res_faceEmbedding payload) = None ->
                 FaceCheckIn.faceLandmarks q = FaceCheckIn.landmarksPayload payload)).
  { intros loc fp q. subst q. unfold FaceCheckIn.attendancePayload, FaceCheckIn.landmarksPayload.
    cbn [FaceCheckIn.res_faceEmbedding FaceCheckIn.res_imageBase64 FaceCheckIn.res_faceData
         FaceCheckIn.res_faceFeatures Str.truthy].
    destruct (nonEmpty (FaceCheckIn.res_faceEmbedding payload)) as [emb|];
      [repeat split; discriminate|].
    destruct (FaceCheckIn.res_faceData payload ≫= head) as [fd|];
      [repeat split|destruct (FaceCheckIn.res_faceFeatures payload); repeat split]. }
  destruct (Str.truthy (FaceCheckIn.amb_token amb)),
    (FaceCheckIn.amb_isAuthenticated amb), (FaceCheckIn.amb_user amb),
    (Str.truthy (FaceCheckIn.amb_recoveredToken amb)),
    (FaceCheckIn.amb_location amb) as [loc|];
    cbn; intros E; try discriminate E; injection E as _ <-;
    destruct (Hp loc (FaceCheckIn.amb_deviceFingerprint amb)) as (H1 & H2 & H3);
    repeat split; assumption.
Qed.

(** The capture of [Samples.captured], stored and read half a second
    later by a signed-in user: the embedding is sent, the image is not. *)
Lemma stored_capture_sends_no_image_witness :
  exists p : FaceCheckIn.AttendancePayload,
    (FaceCheckIn.submitted <$>
       CaptureStore.checkFaceResult
         (Some (CaptureStore.storeFaceCaptureResult Samples.captured 1000)) 1500 true
         Examples.signedIn)
    = Some (Some (FaceCheckIn.checkin, p))
    /\ FaceCheckIn.faceImage p = None
    /\ FaceCheckIn.res_imageBase64 Samples.captured = Some "data:image/jpeg;base64,AAAA".
Proof.
  eexists. split; [reflexivity|]. split; [|reflexivity].
  exact (proj1 (stored_capture_sends_no_image Samples.captured 1000 1500 true
                  Examples.signedIn _ FaceCheckIn.checkin _ eq_refl eq_refl)).
Defined.
